(** * HawkDB: connection, query and export engine

    A shallow embedding of [hawkdb.py] and of the parts of the Python
    runtime it relies on ([str] methods, [int], [datetime.strftime],
    [configparser.ConfigParser], the [mysql.connector] driver interface),
    followed by the properties of the connection/query/export core.

    Conventions.
    - A Python [str] is a [string] whose characters are code points
      below 256; text files hold such strings, the UTF-8 codec being
      transparent to every operation used here.
    - A Python [int] is a [Z].
    - Exceptions are values of [exn]; a computation that may raise
      returns a [result]; stateful methods thread their object
      explicitly and keep the state reached when an exception leaves
      them (Python does not roll back). *)

From Stdlib Require Import String Ascii List ZArith Lia Bool Arith.
From Stdlib Require Import DecimalString DecimalZ DecimalPos DecimalNat DecimalFacts.
Import ListNotations.
Open Scope string_scope.

Set Implicit Arguments.

(** ** Characters and strings of the Python runtime *)

Module PyStr.

Definition LF : ascii := ascii_of_nat 10.
Definition CR : ascii := ascii_of_nat 13.
Definition TAB : ascii := ascii_of_nat 9.

(** [str.isspace] on one character, restricted to code points below 256:
    TAB, LF, VT, FF, CR, the separators 0x1c-0x1f, space, NEL and
    no-break space. *)
Definition isspace (c : ascii) : bool :=
  let n := nat_of_ascii c in
  (((9 <=? n) && (n <=? 13)) || ((28 <=? n) && (n <=? 32))
   || (n =? 133) || (n =? 160))%nat.

Definition isdigit (c : ascii) : bool :=
  let n := nat_of_ascii c in ((48 <=? n) && (n <=? 57))%nat.

(** [str.lower] on one character (A-Z and the Latin-1 capitals). *)
Definition lower_char (c : ascii) : ascii :=
  let n := nat_of_ascii c in
  if (((65 <=? n) && (n <=? 90))
      || ((192 <=? n) && (n <=? 222) && negb (n =? 215)))%nat
  then ascii_of_nat (n + 32) else c.

Fixpoint lower (s : string) : string :=
  match s with
  | "" => ""
  | String c r => String (lower_char c) (lower r)
  end.

(** Stripping the characters [sp] accepts from either end. *)
Fixpoint lstrip_with (sp : ascii -> bool) (s : string) : string :=
  match s with
  | "" => ""
  | String c r => if sp c then lstrip_with sp r else s
  end.

Fixpoint rstrip_with (sp : ascii -> bool) (s : string) : string :=
  match s with
  | "" => ""
  | String c r =>
      match rstrip_with sp r with
      | "" => if sp c then "" else String c ""
      | r' => String c r'
      end
  end.

(** [s.lstrip()], [s.rstrip()], [s.strip()] *)
Definition lstrip (s : string) : string := lstrip_with isspace s.
Definition rstrip (s : string) : string := rstrip_with isspace s.
Definition strip (s : string) : string := rstrip (lstrip s).

(** [c in s] for a one-character [c]. *)
Fixpoint contains (c : ascii) (s : string) : bool :=
  match s with
  | "" => false
  | String d r => Ascii.eqb c d || contains c r
  end.

(** [s.startswith(p)] *)
Definition startswith (p s : string) : bool := String.prefix p s.

(** [s.replace(old, new)] for a non-empty [old]: leftmost, non-overlapping
    occurrences.  [skip] counts the characters of a matched occurrence
    that are still to be dropped. *)
Fixpoint replace_from (old new : string) (skip : nat) (s : string) : string :=
  match s with
  | "" => ""
  | String c r =>
      match skip with
      | S k => replace_from old new k r
      | O =>
          if String.prefix old s
          then new ++ replace_from old new (String.length old - 1) r
          else String c (replace_from old new 0 r)
      end
  end.

Definition replace (old new s : string) : string := replace_from old new 0 s.

(** [sep.join(l)] *)
Definition join (sep : string) (l : list string) : string := String.concat sep l.

(** [s.rsplit(sep, 1)] when [sep] occurs in [s]: the parts before and
    after the last occurrence; [None] when [sep] does not occur (Python
    then returns the one-element list [[s]]). *)
Fixpoint rsplit1 (sep : ascii) (s : string) : option (string * string) :=
  match s with
  | "" => None
  | String c r =>
      match rsplit1 sep r with
      | Some (a, b) => Some (String c a, b)
      | None => if Ascii.eqb c sep then Some ("", r) else None
      end
  end.

(** [str(n)] for an [int]. *)
Definition str_of_int (z : Z) : string := NilZero.string_of_int (Z.to_int z).

(** Digits of an integer literal: [digit (["_"] digit)*]; the underscores
    are dropped.  [prev] tells whether the previous character was a digit. *)
Fixpoint literal_digits (prev : bool) (s : string) : option string :=
  match s with
  | "" => if prev then Some "" else None
  | String c r =>
      if isdigit c then option_map (String c) (literal_digits true r)
      else if Ascii.eqb c "_" then
             if prev then literal_digits false r else None
      else None
  end.

(** The blanks [int] skips around a literal: those of [isspace] but for
    the separators 0x1c-0x1f. *)
Definition int_isspace (c : ascii) : bool :=
  let n := nat_of_ascii c in
  (((9 <=? n) && (n <=? 13)) || (n =? 32) || (n =? 133) || (n =? 160))%nat.

(** The interpreter's limit on the digits of a conversion between [str]
    and [int] ([sys.int_max_str_digits], 4300 unless the process changes
    it, which the program does not). *)
Definition int_max_str_digits : nat := 43 * 100.

(** [int(s)] in base 10: surrounding blanks, an optional sign, decimal
    digits with single underscores between them.  [None] stands for
    [ValueError], which is also what a literal of more than
    [int_max_str_digits] digits gets: the digits are counted with leading
    zeros, without sign, underscores and blanks. *)
Definition int_of_str (s : string) : option Z :=
  let s := rstrip_with int_isspace (lstrip_with int_isspace s) in
  let '(neg, body) :=
    match s with
    | String "-" r => (true, r)
    | String "+" r => (false, r)
    | _ => (false, s)
    end in
  match literal_digits false body with
  | Some ds =>
      if (String.length ds <=? int_max_str_digits)%nat then
        match NilEmpty.uint_of_string ds with
        | Some d => Some (if neg then (- Z.of_uint d)%Z else Z.of_uint d)
        | None => None
        end
      else None
  | None => None
  end.

(** Strings of decimal digits. *)
Fixpoint all_digits (s : string) : bool :=
  match s with
  | "" => true
  | String c r => isdigit c && all_digits r
  end.

(** A string none of whose characters is a blank. *)
Fixpoint no_blank (sp : ascii -> bool) (s : string) : bool :=
  match s with
  | "" => true
  | String c r => negb (sp c) && no_blank sp r
  end.

(** Decimal rendering of [n], without padding. *)
Definition unpadded (n : nat) : string :=
  NilZero.string_of_uint (Nat.to_uint n).

(** Decimal rendering of [n] left-padded with zeros to [w] characters, as
    the two-digit [strftime] directives print their fields. *)
Definition zero_pad (w n : nat) : string :=
  let s := NilZero.string_of_uint (Nat.to_uint n) in
  String.concat "" (repeat "0" (w - String.length s)) ++ s.

End PyStr.

(** ** Exceptions and results *)

Inductive exn : Type :=
| MySQLError (errno : Z)          (* mysql.connector.Error and its subclasses *)
| RuntimeError (msg : string)
| ValueError (msg : string)
| TypeError
| AttributeError
| ConfigError (kind : string)     (* configparser.Error subclasses, by class name *)
| OtherError (name : string).

Inductive result (A : Type) : Type :=
| Ok (a : A)
| Raise (e : exn).

Arguments Ok {A} a.
Arguments Raise {A} e.

(** State-and-exception computations: the state reached is returned
    also when the computation raises. *)
Definition M (S A : Type) : Type := S -> result A * S.

Definition ret {S A} (a : A) : M S A := fun s => (Ok a, s).
Definition raise {S A} (e : exn) : M S A := fun s => (Raise e, s).
Definition bind {S A B} (m : M S A) (k : A -> M S B) : M S B :=
  fun s => match m s with
           | (Ok a, s') => k a s'
           | (Raise e, s') => (Raise e, s')
           end.
Definition get_state {S} : M S S := fun s => (Ok s, s).
Definition modify {S} (f : S -> S) : M S unit := fun s => (Ok tt, f s).

Notation "x <- m ;; k" := (bind m (fun x => k))
  (at level 61, m at next level, right associativity).
Notation "m ;;; k" := (bind m (fun _ => k))
  (at level 61, right associativity).

(** ** Result sets *)

Record date : Type := mkdate { year : nat; month : nat; day : nat }.

Record datetime : Type := mkdatetime {
  dt_date : date; hour : nat; minute : nat; second : nat; microsecond : nat }.

(** A value of a result row, by the Python type the driver hands over.
    [VInt] carries the value of an integer column, which the server
    keeps within 64 bits, far from the limit [str] puts on the digits of
    an [int].  [VOther] carries what [str] returns for any other type
    (float, Decimal, bytes, timedelta, ...). *)
Inductive value : Type :=
| VNone
| VStr (s : string)
| VDateTime (t : datetime)
| VDate (d : date)
| VInt (z : Z)
| VBool (b : bool)
| VOther (repr : string).

Definition row : Type := list value.

(** One [strftime] directive.  [strftime] hands the format to the C
    library of the platform.  The program runs on Linux (its export
    directory is [/app/exports]), where the library prints [%Y] as the
    year in decimal without padding: a year below 1000 comes out on
    fewer than four digits.  The other numeric fields print two
    digits. *)
Definition directive (c : ascii) (t : datetime) : string :=
  match c with
  | "Y"%char => PyStr.unpadded (year (dt_date t))
  | "m"%char => PyStr.zero_pad 2 (month (dt_date t))
  | "d"%char => PyStr.zero_pad 2 (day (dt_date t))
  | "H"%char => PyStr.zero_pad 2 (hour t)
  | "M"%char => PyStr.zero_pad 2 (minute t)
  | "S"%char => PyStr.zero_pad 2 (second t)
  | "%"%char => "%"
  | _ => String "%" (String c "")
  end.

(** [datetime.strftime(fmt)] for the directives above; every other
    character of the format is copied. *)
Fixpoint strftime (fmt : string) (t : datetime) : string :=
  match fmt with
  | "" => ""
  | String "%" (String c r) => directive c t ++ strftime r t
  | String c r => String c (strftime r t)
  end.

(** [date.strftime(fmt)]: the time fields of a date are zero. *)
Definition date_strftime (fmt : string) (d : date) : string :=
  strftime fmt (mkdatetime d 0 0 0 0).

(** [date.isoformat()]: the year on four digits, whatever the platform. *)
Definition isoformat (d : date) : string :=
  PyStr.zero_pad 4 (year d) ++ "-" ++ PyStr.zero_pad 2 (month d) ++ "-"
  ++ PyStr.zero_pad 2 (day d).

(** [str(value)]; for a date or a datetime this is [isoformat], with a
    blank between date and time. *)
Definition py_str (v : value) : string :=
  match v with
  | VNone => "None"
  | VStr s => s
  | VDateTime t =>
      isoformat (dt_date t) ++ " " ++ PyStr.zero_pad 2 (hour t) ++ ":"
      ++ PyStr.zero_pad 2 (minute t) ++ ":" ++ PyStr.zero_pad 2 (second t)
      ++ (if (microsecond t =? 0)%nat then "" else "." ++ PyStr.zero_pad 6 (microsecond t))
  | VDate d => isoformat d
  | VInt z => PyStr.str_of_int z
  | VBool true => "True"
  | VBool false => "False"
  | VOther s => s
  end.

(** ** DataExporter *)

Module DataExporter.

(** The body of the inner loop of [to_sql_insert]: the text appended to
    [formatted_values] for one value.  The [isinstance] tests run in the
    source's order ([datetime] before [date], its base class). *)
Definition format_value (v : value) : string :=
  match v with
  | VNone => "NULL"
  | VStr s => "'" ++ PyStr.replace "'" "''" s ++ "'"
  | VDateTime t => "'" ++ strftime "%Y-%m-%d %H:%M:%S" t ++ "'"
  | VDate d => "'" ++ date_strftime "%Y-%m-%d" d ++ "'"
  | _ => py_str v
  end.

Definition sql_insert (table_name columns_str : string) (record : row) : string :=
  let values_str := PyStr.join ", " (map format_value record) in
  "INSERT INTO " ++ table_name ++ " (" ++ columns_str ++ ") VALUES ("
  ++ values_str ++ ");" ++ String PyStr.LF "".

Definition default_table_name : string := "<table_name>".

(** [to_sql_insert(data, columns, filename, table_name)]: the text the
    call leaves in [filename] (opened for writing, so any earlier content
    is gone). *)
Definition to_sql_insert (data : list row) (columns : list string)
    (table_name : string) : string :=
  let columns_str := PyStr.join ", " columns in
  String.concat "" (map (sql_insert table_name columns_str) data).

End DataExporter.

(** ** HawkDBApp: input normalisation *)

Module HawkDBApp.

(** "Formato inválido. Use: host ou host:porta" *)
Definition invalid_format_msg : string :=
  "Formato inv" ++ String (ascii_of_nat 225) "lido. Use: host ou host:porta".

Definition default_port : Z := 3306.

(** [_parse_host_port(host_str)].  When the separator occurs, [rsplit]
    yields two parts; the handler also covers [IndexError], so the
    impossible one-part case raises the same [ValueError]. *)
Definition _parse_host_port (host_str : string) : result (string * Z) :=
  if PyStr.contains ":" host_str then
    match PyStr.rsplit1 ":" host_str with
    | Some (part0, part1) =>
        match PyStr.int_of_str (PyStr.strip part1) with
        | Some port => Ok (PyStr.strip part0, port)
        | None => Raise (ValueError invalid_format_msg)
        end
    | None => Raise (ValueError invalid_format_msg)
    end
  else Ok (PyStr.strip host_str, default_port).

End HawkDBApp.

(** ** DatabaseConnection *)

Module DatabaseConnection.

(** The keyword arguments of [mysql.connector.connect].  [ssl_disabled]
    is [None] while the key is absent from [connection_config]. *)
Record conn_config : Type := mkconfig {
  cfg_host : string;
  cfg_port : Z;
  cfg_user : string;
  cfg_password : string;
  cfg_connect_timeout : Z;
  cfg_autocommit : bool;
  cfg_ssl_disabled : option bool }.

Definition with_ssl_disabled (c : conn_config) : conn_config :=
  mkconfig (cfg_host c) (cfg_port c) (cfg_user c) (cfg_password c)
           (cfg_connect_timeout c) (cfg_autocommit c) (Some true).

(** "Não conectado ao banco de dados" *)
Definition not_connected_msg : string :=
  "N" ++ String (ascii_of_nat 227) "o conectado ao banco de dados".

(** "Desconhecida", the marker [get_server_info] falls back to. *)
Definition unknown_marker : string := "Desconhecida".

Section Session.

(** The server side: [World] is everything outside the process (network,
    server), [Conn] and [Cur] are the driver's connection and cursor
    objects. *)
Variables World Conn Cur : Type.

(** The driver calls the class makes.  Each may raise any exception and
    may change the world.  [conn_close] is total: closing reports no
    error to the caller.  [cur_description] gives the first component of
    each column descriptor, or [None] when the last statement produced
    no result set. *)
Record Driver : Type := mkDriver {
  mysql_connect : conn_config -> World -> result Conn * World;
  conn_cursor : Conn -> World -> result Cur * World;
  conn_close : Conn -> World -> World;
  cur_execute : Cur -> string -> World -> result unit * World;
  cur_fetchone : Cur -> World -> result (option row) * World;
  cur_fetchall : Cur -> World -> result (list row) * World;
  cur_description : Cur -> World -> option (list string) }.

(** What the session asked of the driver, in order. *)
Inductive event : Type :=
| EConnect (cfg : conn_config)
| EClose (c : Conn)
| ECursor (c : Conn)
| EExecute (c : Cur) (query : string)
| EFetchone (c : Cur)
| EFetchall (c : Cur).

(** The attributes of a [DatabaseConnection] object. *)
Record t : Type := mk {
  connection : option Conn;
  cursor : option Cur;
  is_connected : bool }.

(** [__init__] *)
Definition init : t := mk None None false.

Record state : Type := mkstate {
  self : t;
  world : World;
  trace : list event }.

Variable D : Driver.

Definition set_connection (c : option Conn) : M state unit :=
  modify (fun s => mkstate (mk c (cursor (self s)) (is_connected (self s)))
                           (world s) (trace s)).
Definition set_cursor (c : option Cur) : M state unit :=
  modify (fun s => mkstate (mk (connection (self s)) c (is_connected (self s)))
                           (world s) (trace s)).
Definition set_is_connected (b : bool) : M state unit :=
  modify (fun s => mkstate (mk (connection (self s)) (cursor (self s)) b)
                           (world s) (trace s)).

(** A driver call: logged, then answered by the driver. *)
Definition call {A} (ev : event) (f : World -> result A * World) : M state A :=
  fun s => let '(r, w) := f (world s) in
           (r, mkstate (self s) w (trace s ++ [ev])).

Definition do_connect (cfg : conn_config) : M state Conn :=
  call (EConnect cfg) (mysql_connect D cfg).
Definition do_close (c : Conn) : M state unit :=
  call (EClose c) (fun w => (Ok tt, conn_close D c w)).
Definition do_cursor (c : Conn) : M state Cur :=
  call (ECursor c) (conn_cursor D c).
Definition do_execute (c : Cur) (q : string) : M state unit :=
  call (EExecute c q) (cur_execute D c q).
Definition do_fetchone (c : Cur) : M state (option row) :=
  call (EFetchone c) (cur_fetchone D c).
Definition do_fetchall (c : Cur) : M state (list row) :=
  call (EFetchall c) (cur_fetchall D c).

(** [self.cursor.<method>]: an [AttributeError] when the attribute is [None]. *)
Definition the_cursor : M state Cur :=
  fun s => match cursor (self s) with
           | Some c => (Ok c, s)
           | None => (Raise AttributeError, s)
           end.

(** [disconnect()] *)
Definition disconnect : M state unit :=
  s <- get_state ;;
  match connection (self s) with
  | Some c =>
      do_close c ;;;
      set_connection None ;;;
      set_cursor None ;;;
      set_is_connected false
  | None => ret tt
  end.

(** [try: m  except mysql.connector.Error: h] *)
Definition except_mysql_error {A} (m h : M state A) : M state A :=
  fun s => match m s with
           | (Raise (MySQLError _), s') => h s'
           | other => other
           end.

Definition connection_config (host user password : string) (port : Z)
  : conn_config :=
  mkconfig host port user password 10 true None.

(** [connect(host, user, password, port)] *)
Definition connect (host user password : string) (port : Z) : M state bool :=
  s <- get_state ;;
  (if is_connected (self s) then disconnect else ret tt) ;;;
  let cfg := connection_config host user password port in
  c <- except_mysql_error (do_connect cfg)
                          (do_connect (with_ssl_disabled cfg)) ;;
  set_connection (Some c) ;;;
  cur <- do_cursor c ;;
  set_cursor (Some cur) ;;;
  cur <- the_cursor ;;
  do_execute cur "SELECT VERSION()" ;;;
  cur <- the_cursor ;;
  do_fetchone cur ;;;
  set_is_connected true ;;;
  ret true.

(** [execute_query(query)] *)
Definition execute_query (query : string) : M state (list string * list row) :=
  s <- get_state ;;
  if negb (is_connected (self s)) then raise (RuntimeError not_connected_msg)
  else
    cur <- the_cursor ;;
    do_execute cur query ;;;
    cur <- the_cursor ;;
    s <- get_state ;;
    match cur_description D cur (world s) with
    | None => raise TypeError
    | Some column_names =>
        cur <- the_cursor ;;
        data <- do_fetchall cur ;;
        ret (column_names, data)
    end.

(** [get_server_info()].  The result is [VNone] for Python's [None];
    otherwise it is whatever the first field of the fetched row holds. *)
Definition get_server_info : M state value :=
  s <- get_state ;;
  if negb (is_connected (self s)) then ret VNone
  else
    cur <- the_cursor ;;
    do_execute cur "SELECT VERSION()" ;;;
    cur <- the_cursor ;;
    version <- do_fetchone cur ;;
    match version with
    | Some (v0 :: _) => ret v0
    | Some [] | None => ret (VStr unknown_marker)
    end.

(** The connection attempts among the driver calls of a trace. *)
Fixpoint connect_attempts (tr : list event) : list conn_config :=
  match tr with
  | [] => []
  | EConnect cfg :: r => cfg :: connect_attempts r
  | _ :: r => connect_attempts r
  end.

(** The states the public methods keep a session in: a session marked
    connected holds a connection. *)
Definition consistent (o : t) : Prop :=
  is_connected o = true -> connection o <> None.

End Session.

Arguments EConnect {Conn Cur} cfg.
Arguments EClose {Conn Cur} c.
Arguments ECursor {Conn Cur} c.
Arguments EExecute {Conn Cur} c query.
Arguments EFetchone {Conn Cur} c.
Arguments EFetchall {Conn Cur} c.
Arguments init {Conn Cur}.

End DatabaseConnection.

(** ** configparser.ConfigParser

    The standard-library class behind [ConnectionManager], with its
    default settings: strict, no valueless options, empty lines allowed
    in values, delimiters [=] and [:], full-line comments [#] and [;],
    [BasicInterpolation].  Library exceptions carry their class, and for
    [ValueError] the fixed start of the message. *)

Module ConfigParser.

(** Insertion-ordered dictionaries with string keys. *)
Definition dict (V : Type) : Type := list (string * V).

Fixpoint dict_get {V} (k : string) (d : dict V) : option V :=
  match d with
  | [] => None
  | (k', v) :: r => if String.eqb k' k then Some v else dict_get k r
  end.

Definition dict_mem {V} (k : string) (d : dict V) : bool :=
  match dict_get k d with Some _ => true | None => false end.

(** [d[k] = v]: an existing key keeps its position, a new key goes last. *)
Fixpoint dict_set {V} (k : string) (v : V) (d : dict V) : dict V :=
  match d with
  | [] => [(k, v)]
  | (k', v') :: r =>
      if String.eqb k' k then (k, v) :: r else (k', v') :: dict_set k v r
  end.

(** [del d[k]] *)
Fixpoint dict_del {V} (k : string) (d : dict V) : dict V :=
  match d with
  | [] => []
  | (k', v') :: r => if String.eqb k' k then r else (k', v') :: dict_del k r
  end.

Definition dict_keys {V} (d : dict V) : list string := map fst d.

(** [d.update(e)] *)
Definition dict_update {V} (d e : dict V) : dict V :=
  fold_left (fun acc kv => dict_set (fst kv) (snd kv) acc) e d.

(** An option's value: a string, or the list of lines that [_read]
    collects and joins when it completes. *)
Inductive optval : Type :=
| OStr (s : string)
| OList (l : list string).

Record t : Type := mk {
  _defaults : dict optval;
  _sections : dict (dict optval) }.

Definition default_section : string := "DEFAULT".

(** [ConfigParser()] *)
Definition new : t := mk [] [].

Definition sections (p : t) : list string := dict_keys (_sections p).

Definition has_section (p : t) (section : string) : bool :=
  dict_mem section (_sections p).

(** [section in parser] *)
Definition contains (p : t) (key : string) : bool :=
  String.eqb key default_section || has_section p key.

Definition optionxform (optionstr : string) : string := PyStr.lower optionstr.

Definition add_section (section : string) : M t unit :=
  fun p =>
    if String.eqb section default_section
    then (Raise (ValueError "Invalid section name"), p)
    else if dict_mem section (_sections p)
    then (Raise (ConfigError "DuplicateSectionError"), p)
    else (Ok tt, mk (_defaults p) (_sections p ++ [(section, [])])%list).

Definition remove_section (section : string) : M t bool :=
  fun p =>
    let existed := dict_mem section (_sections p) in
    (Ok existed,
     if existed then mk (_defaults p) (dict_del section (_sections p)) else p).

(** *** BasicInterpolation *)

(** The longest prefix of [s] without [c], and what follows it. *)
Fixpoint break_at (c : ascii) (s : string) : string * string :=
  match s with
  | "" => ("", "")
  | String d r =>
      if Ascii.eqb d c then ("", s)
      else let '(a, b) := break_at c r in (String d a, b)
  end.

(** [_KEYCRE.match(s)] for [%\(([^)]+)\)s]: the referenced name and the
    text after the match. *)
Definition keycre_match (s : string) : option (string * string) :=
  match s with
  | String "%" (String "(" r) =>
      match break_at ")" r with
      | (String c name, String ")" (String "s" rest)) =>
          Some (String c name, rest)
      | _ => None
      end
  | _ => None
  end.

(** [_KEYCRE.sub('', s)]; [skip] counts the characters of a match still
    to be dropped. *)
Fixpoint keycre_sub_from (skip : nat) (s : string) : string :=
  match s with
  | "" => ""
  | String c r =>
      match skip with
      | S k => keycre_sub_from k r
      | O =>
          match keycre_match s with
          | Some (name, _) => keycre_sub_from (String.length name + 3) r
          | None => String c (keycre_sub_from 0 r)
          end
      end
  end.

Definition before_set (value : string) : result string :=
  let tmp_value := PyStr.replace "%%" "" value in
  let tmp_value := keycre_sub_from 0 tmp_value in
  if PyStr.contains "%" tmp_value
  then Raise (ValueError "invalid interpolation syntax")
  else Ok value.

Definition MAX_INTERPOLATION_DEPTH : nat := 10.

(** [_interpolate_some].  [budget] is [MAX_INTERPOLATION_DEPTH + 1 - depth];
    the accumulator is the text appended so far and a flag telling that a
    list was appended (joining then raises [TypeError]).  The loop walks
    [rest] one character at a time, [skip] counting the characters of a
    consumed [%%] or reference. *)
Fixpoint interpolate_some (budget : nat) (map : dict optval)
    (accum : string * bool) (rest : optval) : result (string * bool) :=
  match budget with
  | O => Raise (ConfigError "InterpolationDepthError")
  | S budget' =>
      match rest with
      | OList [] => Ok accum
      | OList (_ :: _) => Raise AttributeError
      | OStr s =>
          (fix loop (skip : nat) (rest : string) (accum : string * bool)
             : result (string * bool) :=
             match rest with
             | "" => Ok accum
             | String c r =>
                 match skip with
                 | S k => loop k r accum
                 | O =>
                     if Ascii.eqb c "%" then
                       match r with
                       | String "%" _ => loop 1 r (fst accum ++ "%", snd accum)
                       | String "(" _ =>
                           match keycre_match rest with
                           | None => Raise (ConfigError "InterpolationSyntaxError")
                           | Some (name, _) =>
                               let var := optionxform name in
                               match dict_get var map with
                               | None =>
                                   Raise (ConfigError "InterpolationMissingOptionError")
                               | Some v =>
                                   let inner :=
                                     match v with
                                     | OStr vs =>
                                         if PyStr.contains "%" vs
                                         then interpolate_some budget' map accum v
                                         else Ok (fst accum ++ vs, snd accum)
                                     | OList vl =>
                                         if existsb (String.eqb "%") vl
                                         then interpolate_some budget' map accum v
                                         else Ok (fst accum, true)
                                     end in
                                   match inner with
                                   | Ok accum' =>
                                       loop (String.length name + 3) r accum'
                                   | Raise e => Raise e
                                   end
                               end
                           end
                       | _ => Raise (ConfigError "InterpolationSyntaxError")
                       end
                     else loop 0 r (fst accum ++ String c "", snd accum)
                 end
             end) 0 s accum
      end
  end.

(** [before_get]: interpolate, then [''.join(L)]. *)
Definition before_get (value : optval) (defaults : dict optval) : result string :=
  match interpolate_some MAX_INTERPOLATION_DEPTH defaults ("", false) value with
  | Ok (s, false) => Ok s
  | Ok (_, true) => Raise TypeError
  | Raise e => Raise e
  end.

(** *** Access *)

(** [_unify_values(section, None)]: the section's options, then the
    defaults. *)
Definition unify_values (p : t) (section : string) : result (dict optval) :=
  match dict_get section (_sections p) with
  | Some sectiondict => Ok (dict_update (_defaults p) sectiondict)
  | None =>
      if String.eqb section default_section then Ok (_defaults p)
      else Raise (ConfigError "NoSectionError")
  end.

(** [get(section, option)] *)
Definition get (p : t) (section option : string) : result string :=
  match unify_values p section with
  | Raise e => Raise e
  | Ok d =>
      let option := optionxform option in
      match dict_get option d with
      | None => Raise (ConfigError "NoOptionError")
      | Some value => before_get value d
      end
  end.

Definition is_empty (s : string) : bool :=
  match s with "" => true | _ => false end.

(** [has_option(section, option)] *)
Definition has_option (p : t) (section option : string) : bool :=
  if is_empty section || String.eqb section default_section
  then dict_mem (optionxform option) (_defaults p)
  else match dict_get section (_sections p) with
       | None => false
       | Some sectiondict =>
           dict_mem (optionxform option) sectiondict
           || dict_mem (optionxform option) (_defaults p)
       end.

(** [options(section)] *)
Definition options (p : t) (section : string) : result (list string) :=
  match dict_get section (_sections p) with
  | Some sectiondict => Ok (dict_keys (dict_update sectiondict (_defaults p)))
  | None => Raise (ConfigError "NoSectionError")
  end.

(** [set(section, option, value)] *)
Definition set (section option value : string) : M t unit :=
  fun p =>
    match (if is_empty value then Ok value else before_set value) with
    | Raise e => (Raise e, p)
    | Ok value =>
        if is_empty section || String.eqb section default_section
        then (Ok tt, mk (dict_set (optionxform option) (OStr value) (_defaults p))
                        (_sections p))
        else match dict_get section (_sections p) with
             | None => (Raise (ConfigError "NoSectionError"), p)
             | Some sectdict =>
                 (Ok tt,
                  mk (_defaults p)
                     (dict_set section
                        (dict_set (optionxform option) (OStr value) sectdict)
                        (_sections p)))
             end
    end.

(** The loop of [read_dict] over the items of one section;
    [elements_added] holds the option names met so far. *)
Fixpoint read_dict_items (section : string) (elements_added : list string)
    (items : list (string * string)) : M t unit :=
  match items with
  | [] => ret tt
  | (key, value) :: r =>
      let key := optionxform key in
      if existsb (String.eqb key) elements_added
      then raise (ConfigError "DuplicateOptionError")
      else set section key value ;;;
           read_dict_items section (key :: elements_added) r
  end.

(** [read_dict({section: items})]: a section that exists already, or
    the default section, is reused. *)
Definition read_dict (section : string) (items : list (string * string))
  : M t unit :=
  fun p =>
    let p1 := match add_section section p with
              | (Ok _, p') => p'
              | (Raise _, p') => p'
              end in
    read_dict_items section [] items p1.

(** [parser[key] = items] for a freshly built dictionary [items]. *)
Definition setitem (key : string) (items : list (string * string)) : M t unit :=
  fun p =>
    let p1 :=
      if String.eqb key default_section then mk [] (_sections p)
      else if dict_mem key (_sections p)
      then mk (_defaults p) (dict_set key [] (_sections p))
      else p in
    read_dict key items p1.

(** The keys of [parser[name]], in iteration order. *)
Definition proxy_keys (p : t) (name : string) : result (list string) :=
  if String.eqb name default_section then Ok (dict_keys (_defaults p))
  else options p name.

(** [dict(parser[name])]: every key with its interpolated value. *)
Fixpoint proxy_items (p : t) (name : string) (keys : list string)
  : result (list (string * string)) :=
  match keys with
  | [] => Ok []
  | k :: r =>
      if has_option p name k then
        match get p name k with
        | Raise e => Raise e
        | Ok v =>
            match proxy_items p name r with
            | Raise e => Raise e
            | Ok l => Ok ((k, v) :: l)
            end
        end
      else Raise (OtherError "KeyError")
  end.

Definition section_dict (p : t) (name : string)
  : result (list (string * string)) :=
  match proxy_keys p name with
  | Raise e => Raise e
  | Ok keys => proxy_items p name keys
  end.

(** *** Reading a file *)

(** The lines of a text file opened with universal newlines: LF, CR and
    CR LF end a line.  [pieces] lists the text between terminators; the
    piece after the last terminator is a line only when it is not empty. *)
Fixpoint pieces (s : string) : list string :=
  match s with
  | "" => [""]
  | String c r =>
      if Ascii.eqb c PyStr.LF then "" :: pieces r
      else if Ascii.eqb c PyStr.CR then
        match r with
        | String c' r' =>
            if Ascii.eqb c' PyStr.LF then "" :: pieces r' else "" :: pieces r
        | "" => "" :: pieces r
        end
      else match pieces r with
           | l :: ls => String c l :: ls
           | [] => [String c ""]
           end
  end.

Fixpoint drop_last_empty (l : list string) : list string :=
  match l with
  | [] => []
  | [x] => if is_empty x then [] else [x]
  | x :: r => x :: drop_last_empty r
  end.

Definition file_lines (text : string) : list string :=
  drop_last_empty (pieces text).

(** The section or default dictionary [cursect] is bound to. *)
Inductive cursect_ref : Type :=
| CurNone
| CurDefaults
| CurSection (name : string).

(** The local variables of [_read], with the parser under construction. *)
Record pstate : Type := mkp {
  parser : t;
  added_sections : list string;
  added_options : list (string * string);
  cursect : cursect_ref;
  sectname : string;
  optname : option string;
  indent_level : nat;
  e : bool }.

Definition cursect_get (st : pstate) (k : string) : option optval :=
  match cursect st with
  | CurNone => None
  | CurDefaults => dict_get k (_defaults (parser st))
  | CurSection n =>
      match dict_get n (_sections (parser st)) with
      | Some d => dict_get k d
      | None => None
      end
  end.

Definition cursect_set (st : pstate) (k : string) (v : optval) : t :=
  let p := parser st in
  match cursect st with
  | CurNone => p
  | CurDefaults => mk (dict_set k v (_defaults p)) (_sections p)
  | CurSection n =>
      match dict_get n (_sections p) with
      | Some d => mk (_defaults p) (dict_set n (dict_set k v d) (_sections p))
      | None => p
      end
  end.

Definition with_parser (st : pstate) (p : t) : pstate :=
  mkp p (added_sections st) (added_options st) (cursect st) (sectname st)
      (optname st) (indent_level st) (e st).

(** [cursect[optname].append(x)] *)
Definition cursect_append (k x : string) : M pstate unit :=
  fun st =>
    match cursect_get st k with
    | Some (OList l) =>
        (Ok tt, with_parser st (cursect_set st k (OList (l ++ [x])%list)))
    | Some (OStr _) => (Raise AttributeError, st)
    | None => (Raise (OtherError "KeyError"), st)
    end.

(** [cursect is not None and optname], the name when the test holds. *)
Definition continued_option (st : pstate) : option string :=
  match cursect st, optname st with
  | CurNone, _ => None
  | _, Some (String c r) => Some (String c r)
  | _, _ => None
  end.

Fixpoint leading_spaces (line : string) : nat :=
  match line with
  | "" => 0
  | String c r => if PyStr.isspace c then S (leading_spaces r) else 0
  end.

(** [SECTCRE.match(value)]: the header between the opening bracket and
    the last closing one, which must not be empty. *)
Definition sectcre_match (value : string) : option string :=
  match value with
  | String "[" r =>
      match PyStr.rsplit1 "]" r with
      | Some (String c header, _) => Some (String c header)
      | _ => None
      end
  | _ => None
  end.

(** The text before and after the first delimiter. *)
Fixpoint split_delim (s : string) : option (string * string) :=
  match s with
  | "" => None
  | String c r =>
      if Ascii.eqb c "=" || Ascii.eqb c ":" then Some ("", r)
      else match split_delim r with
           | Some (a, b) => Some (String c a, b)
           | None => None
           end
  end.

(** [_optcre.match(value)]: groups [option] and [value].  The lazy
    [option] group ends where the blanks before the first delimiter
    start. *)
Definition optcre_match (value : string) : option (string * string) :=
  match split_delim value with
  | Some (a, b) => Some (PyStr.rstrip a, PyStr.lstrip b)
  | None => None
  end.

Definition pair_eqb (a b : string * string) : bool :=
  String.eqb (fst a) (fst b) && String.eqb (snd a) (snd b).

(** A line that is neither empty nor a continuation: a section header
    or an option. *)
Definition header_or_option (value : string) (cur_indent_level : nat)
  : M pstate unit :=
  fun st =>
    let p := parser st in
    match sectcre_match value with
    | Some name =>
        if dict_mem name (_sections p) then
          if existsb (String.eqb name) (added_sections st)
          then (Raise (ConfigError "DuplicateSectionError"), st)
          else (Ok tt,
                mkp p (name :: added_sections st) (added_options st)
                    (CurSection name) name None cur_indent_level (e st))
        else if String.eqb name default_section then
          (Ok tt,
           mkp p (added_sections st) (added_options st)
               CurDefaults name None cur_indent_level (e st))
        else
          (Ok tt,
           mkp (mk (_defaults p) (_sections p ++ [(name, [])])%list)
               (name :: added_sections st) (added_options st)
               (CurSection name) name None cur_indent_level (e st))
    | None =>
        match cursect st with
        | CurNone => (Raise (ConfigError "MissingSectionHeaderError"), st)
        | _ =>
            match optcre_match value with
            | Some (option, optval) =>
                let e' := e st || is_empty option in
                let name := optionxform (PyStr.rstrip option) in
                if existsb (pair_eqb (sectname st, name)) (added_options st)
                then (Raise (ConfigError "DuplicateOptionError"), st)
                else (Ok tt,
                      mkp (cursect_set st name (OList [PyStr.strip optval]))
                          (added_sections st)
                          ((sectname st, name) :: added_options st)
                          (cursect st) (sectname st) (Some name)
                          cur_indent_level e')
            | None =>
                (Ok tt,
                 mkp p (added_sections st) (added_options st) (cursect st)
                     (sectname st) (optname st) cur_indent_level true)
            end
        end
    end.

(** The body of the loop of [_read] for one line. *)
Definition read_line (line : string) : M pstate unit :=
  fun st =>
    let stripped := PyStr.strip line in
    let comment :=
      PyStr.startswith "#" stripped || PyStr.startswith ";" stripped in
    let value := if comment then "" else stripped in
    if is_empty value then
      match continued_option st with
      | Some k => if comment then (Ok tt, st) else cursect_append k "" st
      | None => (Ok tt, st)
      end
    else
      let cur_indent_level := leading_spaces line in
      match continued_option st with
      | Some k =>
          if (indent_level st <? cur_indent_level)%nat
          then cursect_append k value st
          else header_or_option value cur_indent_level st
      | None => header_or_option value cur_indent_level st
      end.

Fixpoint read_lines (lines : list string) : M pstate unit :=
  match lines with
  | [] => ret tt
  | line :: r => read_line line ;;; read_lines r
  end.

Definition join_value (v : optval) : optval :=
  match v with
  | OList l => OStr (PyStr.rstrip (PyStr.join (String PyStr.LF "") l))
  | OStr s => OStr s
  end.

Definition join_options (d : dict optval) : dict optval :=
  map (fun kv => (fst kv, join_value (snd kv))) d.

Definition _join_multiline_values (p : t) : t :=
  mk (join_options (_defaults p))
     (map (fun nd => (fst nd, join_options (snd nd))) (_sections p)).

(** [_read(fp, fpname)].  An exception raised inside the loop leaves the
    values collected so far as lists; a recorded parsing error is raised
    after the values are joined. *)
Definition _read (lines : list string) : M t unit :=
  fun p =>
    match read_lines lines (mkp p [] [] CurNone "" None 0 false) with
    | (Raise ex, st) => (Raise ex, parser st)
    | (Ok _, st) =>
        let p' := _join_multiline_values (parser st) in
        if e st then (Raise (ConfigError "ParsingError"), p') else (Ok tt, p')
    end.

(** [read(filename)] for one file name: [file] is the text of the file,
    [None] when it cannot be opened, which is silently ignored. *)
Definition read (file : option string) : M t unit :=
  match file with
  | None => ret tt
  | Some text => _read (file_lines text)
  end.

(** *** Writing a file *)

Definition hex_digit (n : nat) : ascii :=
  if (n <? 10)%nat then ascii_of_nat (48 + n) else ascii_of_nat (87 + n).

(** [repr] of a one-character string inside quotes [q]. *)
Definition repr_char (q c : ascii) : string :=
  let n := nat_of_ascii c in
  if Ascii.eqb c q || Ascii.eqb c "\" then String "\" (String c "")
  else if Ascii.eqb c PyStr.TAB then "\t"
  else if Ascii.eqb c PyStr.LF then "\n"
  else if Ascii.eqb c PyStr.CR then "\r"
  else if ((n <? 32) || ((127 <=? n) && (n <=? 160)) || (n =? 173))%nat
  then String "\" (String "x"
         (String (hex_digit (n / 16)) (String (hex_digit (n mod 16)) "")))
  else String c "".

Definition DQUOTE : ascii := ascii_of_nat 34.

(** [repr(s)] for a [str] *)
Definition repr_str (s : string) : string :=
  let q := if PyStr.contains "'" s && negb (PyStr.contains DQUOTE s)
           then DQUOTE else "'"%char in
  String q (String.concat "" (map (repr_char q) (list_ascii_of_string s)))
  ++ String q "".

(** [str(value)] for the value of an option *)
Definition str_of_optval (v : optval) : string :=
  match v with
  | OStr s => s
  | OList l => "[" ++ PyStr.join ", " (map repr_str l) ++ "]"
  end.

Definition _write_section (section_name : string) (items : dict optval)
  : string :=
  "[" ++ section_name ++ "]" ++ String PyStr.LF ""
  ++ String.concat ""
       (map (fun kv =>
               fst kv ++ " = "
               ++ PyStr.replace (String PyStr.LF "")
                    (String PyStr.LF (String PyStr.TAB ""))
                    (str_of_optval (snd kv))
               ++ String PyStr.LF "") items)
  ++ String PyStr.LF "".

(** [write(fp)]: the text written. *)
Definition write (p : t) : string :=
  (match _defaults p with
   | [] => ""
   | _ => _write_section default_section (_defaults p)
   end)
  ++ String.concat ""
       (map (fun nd => _write_section (fst nd) (snd nd)) (_sections p)).

End ConfigParser.

(** ** ConnectionManager *)

Module ConnectionManager.

(** A [ConnectionManager] object together with the file [config_file]
    names: [config] is the parser the object holds, [file] the text on
    disk ([None] while the file does not exist).  Creating the parent
    directory and opening the file for writing are taken to succeed. *)
Record t : Type := mk {
  config : ConfigParser.t;
  file : option string }.

(** Run a parser method on [self.config]. *)
Definition on_config {A} (m : M ConfigParser.t A) : M t A :=
  fun s => let '(r, p) := m (config s) in (r, mk p (file s)).

(** [_save_config()] *)
Definition _save_config : M t unit :=
  modify (fun s => mk (config s) (Some (ConfigParser.write (config s)))).

Definition example_section : string := "Conexao_Exemplo".

(** [_ensure_config_exists()] *)
Definition _ensure_config_exists : M t unit :=
  s <- get_state ;;
  match file s with
  | Some _ => ret tt
  | None =>
      on_config (ConfigParser.setitem "DEFAULT" []) ;;;
      on_config (ConfigParser.setitem example_section
                   [("host", ""); ("user", ""); ("password", "")]) ;;;
      _save_config
  end.

(** [ConnectionManager(config_file)], given what [config_file] holds. *)
Definition init (file : option string) : result unit * t :=
  _ensure_config_exists (mk ConfigParser.new file).

(** [self.config.read(self.config_file, encoding='utf-8')] *)
Definition read_config : M t unit :=
  s <- get_state ;;
  on_config (ConfigParser.read (file s)).

(** [get_connections()] *)
Definition get_connections : M t (list string) :=
  read_config ;;;
  s <- get_state ;;
  ret (filter (fun section => negb (String.eqb section "DEFAULT"))
              (ConfigParser.sections (config s))).

(** [save_connection(name, host, user, password)] *)
Definition save_connection (name host user password : string) : M t unit :=
  on_config (ConfigParser.setitem name
               [("host", host); ("user", user); ("password", password)]) ;;;
  _save_config.

(** [load_connection(name)] *)
Definition load_connection (name : string)
  : M t (option (list (string * string))) :=
  read_config ;;;
  s <- get_state ;;
  if ConfigParser.contains (config s) name then
    match ConfigParser.section_dict (config s) name with
    | Ok d => ret (Some d)
    | Raise ex => raise ex
    end
  else ret None.

(** [delete_connection(name)] *)
Definition delete_connection (name : string) : M t bool :=
  read_config ;;;
  s <- get_state ;;
  if ConfigParser.contains (config s) name then
    on_config (ConfigParser.remove_section name) ;;;
    _save_config ;;;
    ret true
  else ret false.

(** An edit of the backing file made outside the object. *)
Definition external_edit (text : string) (s : t) : t :=
  mk (config s) (Some text).

End ConnectionManager.

(** ** Reference definitions and sample environments

    What the properties below compare the code with: renderings written
    character by character, the dates the Python types hold, and
    small scripted drivers and files on which the statements are
    evaluated. *)

Module Reference.

(** Every single quote written twice, every other character kept. *)
Fixpoint quotes_doubled (s : string) : string :=
  match s with
  | "" => ""
  | String c r =>
      if Ascii.eqb c "'" then String "'" (String "'" (quotes_doubled r))
      else String c (quotes_doubled r)
  end.








(** Whether [check] accepts the [n] integers from [z] on. *)
Fixpoint holds_from (check : Z -> bool) (n : nat) (z : Z) : bool :=
  match n with
  | O => true
  | S k => check z && holds_from check k (z + 1)
  end.


(** The session as [connect] leaves it before its first attempt: a
    session marked connected is disconnected first. *)
Definition after_reset {World Conn Cur : Type}
    (D : DatabaseConnection.Driver World Conn Cur)
    (s : DatabaseConnection.state World Conn Cur)
  : DatabaseConnection.state World Conn Cur :=
  if DatabaseConnection.is_connected (DatabaseConnection.self s)
  then snd (DatabaseConnection.disconnect D s) else s.

(** The parser holds no section named like the default section (the
    class never creates one). *)
Definition no_default_section (p : ConfigParser.t) : Prop :=
  ConfigParser.has_section p ConfigParser.default_section = false.

End Reference.

Module Samples.

Import DatabaseConnection.

(** A driver over a trivial world: the secure and the insecure connection
    attempts, [execute] and [fetchone] answer as scripted. *)
Definition scripted (secure insecure : result nat) (executed : result unit)
    (fetched : option row) : Driver unit nat nat :=
  mkDriver
    (fun cfg w =>
       (match cfg_ssl_disabled cfg with
        | Some true => insecure
        | _ => secure
        end, w))
    (fun c w => (Ok c, w))
    (fun _ w => w)
    (fun _ _ w => (executed, w))
    (fun _ w => (Ok fetched, w))
    (fun _ w => (Ok [], w))
    (fun _ _ => Some []).

(** A new session object, nothing asked of the driver yet. *)
Definition fresh : state unit nat nat := mkstate init tt [].

(** A server that refuses the secure attempt and then the insecure one
    with error 1045 (access denied). *)
Definition wrong_password : Driver unit nat nat :=
  scripted (Raise (MySQLError 1045)) (Raise (MySQLError 1045)) (Ok tt) None.

(** A server that accepts only the insecure attempt. *)
Definition no_tls : Driver unit nat nat :=
  scripted (Raise (MySQLError 2026)) (Ok 7) (Ok tt) (Some [VStr "8.0.36"]).

(** A server that completes the handshake and then fails the version
    query (error 2013, connection lost). *)
Definition drops_after_handshake : Driver unit nat nat :=
  scripted (Ok 7) (Ok 7) (Raise (MySQLError 2013)) None.

(** A healthy server. *)
Definition healthy : Driver unit nat nat :=
  scripted (Ok 7) (Ok 7) (Ok tt) (Some [VStr "8.0.36"]).

(** Servers answering the version query with an empty string, with NULL,
    and with no row. *)
Definition empty_version : Driver unit nat nat :=
  scripted (Ok 7) (Ok 7) (Ok tt) (Some [VStr ""]).
Definition null_version : Driver unit nat nat :=
  scripted (Ok 7) (Ok 7) (Ok tt) (Some [VNone]).
Definition no_row : Driver unit nat nat :=
  scripted (Ok 7) (Ok 7) (Ok tt) None.

Definition connected_to (D : Driver unit nat nat) : state unit nat nat :=
  snd (connect D "db.local" "root" "secret" 3306 fresh).

(** Text lines ending in LF. *)
Definition lines (l : list string) : string :=
  String.concat "" (map (fun x => x ++ String PyStr.LF "") l).

(** A backing file holding one profile, [A]. *)
Definition file_with_A : string :=
  lines ["[A]"; "host = h1"; "user = u1"; "password = p1"; ""].

(** The same file after somebody added a profile [B] to it. *)
Definition file_with_A_B : string :=
  lines ["[A]"; "host = h1"; "user = u1"; "password = p1"; "";
         "[B]"; "host = h2"; "user = u2"; "password = p2"; ""].

(** The file after [A] was deleted from it. *)
Definition file_with_B : string :=
  lines ["[B]"; "host = h2"; "user = u2"; "password = p2"; ""].

(** The store of a first run: no file yet. *)
Definition first_run : ConnectionManager.t :=
  snd (ConnectionManager.init None).

(** A store built on a file that exists already. *)
Definition opened_on (text : string) : ConnectionManager.t :=
  snd (ConnectionManager.init (Some text)).

Definition profile (host user password : string) : list (string * string) :=
  [("host", host); ("user", user); ("password", password)].

End Samples.

(** ** Further reference definitions

    Readings of a trace and of an exported file, and the standard way
    to read an SQL string literal back. *)

Module Readback.

(** The connections the session asked the driver to close, in order. *)
Fixpoint closed_connections {Conn Cur : Type}
    (tr : list (DatabaseConnection.event Conn Cur)) : list Conn :=
  match tr with
  | [] => []
  | DatabaseConnection.EClose c :: r => c :: closed_connections r
  | _ :: r => closed_connections r
  end.

(** Number of occurrences of a character. *)
Fixpoint count_char (c : ascii) (s : string) : nat :=
  match s with
  | "" => 0
  | String d r => (if Ascii.eqb c d then 1 else 0) + count_char c r
  end.

(** The text a value carries into a statement without conversion. *)
Definition free_text (v : value) : string :=
  match v with
  | VStr s => s
  | VOther s => s
  | _ => ""
  end.

(** The body of an SQL string literal read by the standard rule: two
    single quotes stand for one, a single quote that ends the text
    closes the literal, any other character stands for itself (the
    backslash too).  [None] when the literal is not closed or closes
    before the end of the text. *)
Fixpoint unquote_body (s : string) : option string :=
  match s with
  | "" => None
  | String c r =>
      if Ascii.eqb c "'" then
        match r with
        | "" => Some ""
        | String c' r' =>
            if Ascii.eqb c' "'"
            then option_map (String "'") (unquote_body r')
            else None
        end
      else option_map (String c) (unquote_body r)
  end.

(** A whole literal: an opening quote, then the body. *)
Definition sql_unquote (s : string) : option string :=
  match s with
  | String c r => if Ascii.eqb c "'" then unquote_body r else None
  | "" => None
  end.

End Readback.

Module MoreSamples.

Import DatabaseConnection.

(** A server that accepts every connection and every statement and
    answers a statement with the given column names and rows; the
    version query gets one row. *)
Definition answering (description : option (list string)) (rows : list row)
  : Driver unit nat nat :=
  mkDriver
    (fun _ w => (Ok 7, w))
    (fun c w => (Ok c, w))
    (fun _ w => w)
    (fun _ _ w => (Ok tt, w))
    (fun _ w => (Ok (Some [VStr "8.0.36"]), w))
    (fun _ w => (Ok rows, w))
    (fun _ _ => description).

(** The session left by a handshake whose version query failed. *)
Definition half_done : state unit nat nat :=
  snd (connect Samples.drops_after_handshake "db.local" "root" "secret" 3306
         Samples.fresh).

End MoreSamples.

(** ** Well-formed stores

    The names, option names and values that a written file gives back
    unchanged, and what reading such a file does to a parser. *)

Module Plain.

Import PyStr ConfigParser.

(** A text without line terminator. *)
Definition one_line (s : string) : bool :=
  negb (PyStr.contains LF s) && negb (PyStr.contains CR s).

(** A value on one line, without blank at either end. *)
Definition plain_value (v : string) : bool :=
  one_line v && String.eqb (strip v) v.

(** An option name: not empty, no blank, no delimiter, in lower case,
    and not starting like a section header or a comment. *)
Definition plain_key (k : string) : bool :=
  match k with
  | "" => false
  | String c _ =>
      negb (Ascii.eqb c "[") && negb (Ascii.eqb c "#") && negb (Ascii.eqb c ";")
  end
  && no_blank isspace k
  && negb (PyStr.contains "=" k) && negb (PyStr.contains ":" k)
  && String.eqb (lower k) k.

(** A section name: not empty, on one line, not the default section. *)
Definition plain_name (n : string) : bool :=
  negb (is_empty n) && one_line n && negb (String.eqb n default_section).

Definition plain_option (kv : string * optval) : bool :=
  plain_key (fst kv)
  && match snd kv with
     | OStr v => plain_value v
     | OList _ => false
     end.

(** The options of a section: plain, each name once. *)
Definition plain_options (d : dict optval) : Prop :=
  Forall (fun kv => plain_option kv = true) d /\ NoDup (dict_keys d).

(** A parser whose written form reads back as itself: no defaults, each
    section name once, plain names and options. *)
Definition plain (p : t) : Prop :=
  _defaults p = []
  /\ NoDup (sections p)
  /\ Forall (fun nd => plain_name (fst nd) = true /\ plain_options (snd nd))
            (_sections p).

(** Taking one section into a parser: its options are set, in order, in
    the section of that name, created last when it does not exist. *)
Definition merge_section (p : t) (nd : string * dict optval) : t :=
  let old := match dict_get (fst nd) (_sections p) with
             | Some d => d
             | None => []
             end in
  mk (_defaults p) (dict_set (fst nd) (dict_update old (snd nd)) (_sections p)).

(** Taking the sections of [q] into [p], in order. *)
Definition merge (p q : t) : t := fold_left merge_section (_sections q) p.

(** The lines [write] produces for a section of string values. *)
Definition option_line (kv : string * optval) : string :=
  fst kv ++ " = " ++ str_of_optval (snd kv).

Definition section_lines (nd : string * dict optval) : list string :=
  ("[" ++ fst nd ++ "]") :: (map option_line (snd nd) ++ [""])%list.

(** The store holds what its file holds, and both are plain. *)
Definition in_sync (s : ConnectionManager.t) : Prop :=
  plain (ConnectionManager.config s)
  /\ ConnectionManager.file s
     = Some (write (ConnectionManager.config s)).

(** A text that interpolation leaves alone. *)
Definition percent_free (v : string) : bool := negb (PyStr.contains "%" v).

(** The options [save_connection] stores for a profile. *)
Definition profile_options (host user password : string) : dict optval :=
  [("host", OStr host); ("user", OStr user); ("password", OStr password)].

(** The section names without [name]. *)
Definition without (name : string) (names : list string) : list string :=
  filter (fun n => negb (String.eqb n name)) names.

(** The states of [_read] between two sections of a plain file: [T] is
    what the parser will hold once its values are joined, [prev] the
    section names met so far. *)
Definition between_sections (st : pstate) (T : t) (prev : list string) : Prop :=
  _join_multiline_values (parser st) = T
  /\ (forall k, optname st = Some k ->
                exists l, cursect_get st k = Some (OList l))
  /\ e st = false
  /\ (forall x, In x (added_sections st) -> In x prev)
  /\ (forall a b, In (a, b) (added_options st) -> In a prev).

(** The states of [_read] inside section [n], after its header and the
    options [done]. *)
Definition inside_section (st : pstate) (T0 : t) (prev : list string)
    (n : string) (done : dict optval) : Prop :=
  cursect st = CurSection n
  /\ sectname st = n
  /\ _join_multiline_values (parser st) = merge_section T0 (n, done)
  /\ (forall k, optname st = Some k ->
                exists l, cursect_get st k = Some (OList l))
  /\ e st = false
  /\ (forall x, In x (added_sections st) -> In x prev \/ x = n)
  /\ (forall a b, In (a, b) (added_options st) ->
                  In a prev \/ (a = n /\ In b (dict_keys done))).

End Plain.

(** ** HawkDBApp: the handlers behind the buttons

    The window is reduced to what the handlers read and write: the
    variables of the entry fields, the values of the drop-down list, the
    state of the two connection buttons, and the message boxes shown, in
    order.  Calls on widgets and message boxes are taken to succeed. *)

Module Handlers.

Import PyStr.

Inductive dialog : Type :=
| showerror (title message : string)
| showinfo (title message : string)
| showwarning (title message : string)
| askyesno (title message : string).

Inductive widget_state : Type := NORMAL | DISABLED.

(** Letters outside ASCII that the messages use. *)
Definition aacute : string := String (ascii_of_nat 225) "".
Definition atilde : string := String (ascii_of_nat 227) "".
Definition ccedil : string := String (ascii_of_nat 231) "".
Definition iacute : string := String (ascii_of_nat 237) "".
Definition oacute : string := String (ascii_of_nat 243) "".

Definition NL : string := String LF "".

(** "Selecione uma conexão..." *)
Definition placeholder : string := "Selecione uma conex" ++ atilde ++ "o...".

(** "Host e usuário são obrigatórios." *)
Definition host_user_required_msg : string :=
  "Host e usu" ++ aacute ++ "rio s" ++ atilde ++ "o obrigat" ++ oacute
  ++ "rios.".

(** "Nome da conexão, host e usuário são obrigatórios." *)
Definition name_host_user_required_msg : string :=
  "Nome da conex" ++ atilde ++ "o, host e usu" ++ aacute ++ "rio s" ++ atilde
  ++ "o obrigat" ++ oacute ++ "rios.".

(** "Conexão estabelecida!\nServidor: {host_name}:{port}\nVersão MySQL:
    {server_info}" *)
Definition connected_msg (host_name : string) (port : Z) (server_info : value)
  : string :=
  "Conex" ++ atilde ++ "o estabelecida!" ++ NL ++ "Servidor: " ++ host_name
  ++ ":" ++ str_of_int port ++ NL ++ "Vers" ++ atilde ++ "o MySQL: "
  ++ py_str server_info.

(** "Erro de Conexão" *)
Definition connection_error_title : string :=
  "Erro de Conex" ++ atilde ++ "o".

(** [getattr(error, 'errno', 'N/A')]: of the exceptions the handler
    receives, the driver's carry [errno]. *)
Definition errno_of (error : exn) : option Z :=
  match error with
  | MySQLError errno => Some errno
  | _ => None
  end.

(** [error_messages.get(error_code, "Erro de conexão")] *)
Definition specific_msg (error_code : option Z) : string :=
  match error_code with
  | Some 2003%Z => "Servidor n" ++ atilde ++ "o encontrado"
  | Some 1045%Z => "Usu" ++ aacute ++ "rio ou senha incorretos"
  | _ => "Erro de conex" ++ atilde ++ "o"
  end.

(** "Erro ao conectar:\nHost: {host}:{port}\nUsuário: {user}\nCódigo:
    {error_code} - {specific_msg}" *)
Definition full_msg (error : exn) (host : string) (port : Z) (user : string)
  : string :=
  let error_code := errno_of error in
  "Erro ao conectar:" ++ NL ++ "Host: " ++ host ++ ":" ++ str_of_int port
  ++ NL ++ "Usu" ++ aacute ++ "rio: " ++ user ++ NL ++ "C" ++ oacute
  ++ "digo: "
  ++ match error_code with Some n => str_of_int n | None => "N/A" end
  ++ " - " ++ specific_msg error_code.

(** "Conexão '{name}' salva com sucesso!" *)
Definition saved_msg (name : string) : string :=
  "Conex" ++ atilde ++ "o '" ++ name ++ "' salva com sucesso!".

(** "Selecione uma conexão para deletar." *)
Definition select_to_delete_msg : string :=
  "Selecione uma conex" ++ atilde ++ "o para deletar.".

(** "Deletar conexão '{selected}'?" *)
Definition confirm_delete_msg (selected : string) : string :=
  "Deletar conex" ++ atilde ++ "o '" ++ selected ++ "'?".

(** "Conexão deletada com sucesso!" *)
Definition deleted_msg : string :=
  "Conex" ++ atilde ++ "o deletada com sucesso!".

(** "Desconexão realizada com sucesso." *)
Definition disconnected_msg : string :=
  "Desconex" ++ atilde ++ "o realizada com sucesso.".

(** The truth value of a string. *)
Definition truthy (s : string) : bool := negb (String.eqb s "").

(** [d[key]] on the dictionary [load_connection] returns. *)
Fixpoint getitem (key : string) (d : list (string * string)) : result string :=
  match d with
  | [] => Raise (OtherError "KeyError")
  | (k, v) :: r => if String.eqb k key then Ok v else getitem key r
  end.

Section App.

Variables World Conn Cur : Type.
Variable D : DatabaseConnection.Driver World Conn Cur.

Record app : Type := mkapp {
  db_connection : DatabaseConnection.state World Conn Cur;
  connection_manager : ConnectionManager.t;
  host_var : string;
  user_var : string;
  password_var : string;
  connection_name_var : string;
  saved_connections_var : string;
  connections_dropdown : list string;
  connect_button : widget_state;
  disconnect_button : widget_state;
  dialogs : list dialog }.

Definition with_db_connection (x : DatabaseConnection.state World Conn Cur) (s : app) : app :=
  mkapp x (connection_manager s) (host_var s) (user_var s) (password_var s)
       (connection_name_var s) (saved_connections_var s)
       (connections_dropdown s) (connect_button s) (disconnect_button s)
       (dialogs s).

Definition with_connection_manager (x : ConnectionManager.t) (s : app) : app :=
  mkapp (db_connection s) x (host_var s) (user_var s) (password_var s)
       (connection_name_var s) (saved_connections_var s)
       (connections_dropdown s) (connect_button s) (disconnect_button s)
       (dialogs s).

Definition with_host_var (x : string) (s : app) : app :=
  mkapp (db_connection s) (connection_manager s) x (user_var s)
       (password_var s) (connection_name_var s) (saved_connections_var s)
       (connections_dropdown s) (connect_button s) (disconnect_button s)
       (dialogs s).

Definition with_user_var (x : string) (s : app) : app :=
  mkapp (db_connection s) (connection_manager s) (host_var s) x
       (password_var s) (connection_name_var s) (saved_connections_var s)
       (connections_dropdown s) (connect_button s) (disconnect_button s)
       (dialogs s).

Definition with_password_var (x : string) (s : app) : app :=
  mkapp (db_connection s) (connection_manager s) (host_var s) (user_var s) x
       (connection_name_var s) (saved_connections_var s)
       (connections_dropdown s) (connect_button s) (disconnect_button s)
       (dialogs s).

Definition with_connection_name_var (x : string) (s : app) : app :=
  mkapp (db_connection s) (connection_manager s) (host_var s) (user_var s)
       (password_var s) x (saved_connections_var s) (connections_dropdown s)
       (connect_button s) (disconnect_button s) (dialogs s).

Definition with_saved_connections_var (x : string) (s : app) : app :=
  mkapp (db_connection s) (connection_manager s) (host_var s) (user_var s)
       (password_var s) (connection_name_var s) x (connections_dropdown s)
       (connect_button s) (disconnect_button s) (dialogs s).

Definition with_connections_dropdown (x : list string) (s : app) : app :=
  mkapp (db_connection s) (connection_manager s) (host_var s) (user_var s)
       (password_var s) (connection_name_var s) (saved_connections_var s) x
       (connect_button s) (disconnect_button s) (dialogs s).

Definition with_connect_button (x : widget_state) (s : app) : app :=
  mkapp (db_connection s) (connection_manager s) (host_var s) (user_var s)
       (password_var s) (connection_name_var s) (saved_connections_var s)
       (connections_dropdown s) x (disconnect_button s) (dialogs s).

Definition with_disconnect_button (x : widget_state) (s : app) : app :=
  mkapp (db_connection s) (connection_manager s) (host_var s) (user_var s)
       (password_var s) (connection_name_var s) (saved_connections_var s)
       (connections_dropdown s) (connect_button s) x (dialogs s).

Definition with_dialogs (x : list dialog) (s : app) : app :=
  mkapp (db_connection s) (connection_manager s) (host_var s) (user_var s)
       (password_var s) (connection_name_var s) (saved_connections_var s)
       (connections_dropdown s) (connect_button s) (disconnect_button s) x.

Definition on_db {A} (m : M (DatabaseConnection.state World Conn Cur) A)
  : M app A :=
  fun s => let '(r, d) := m (db_connection s) in (r, with_db_connection d s).

Definition on_store {A} (m : M ConnectionManager.t A) : M app A :=
  fun s => let '(r, c) := m (connection_manager s) in
           (r, with_connection_manager c s).

Definition show (d : dialog) : M app unit :=
  modify (fun s => with_dialogs (dialogs s ++ [d])%list s).

(** [_update_connections_dropdown()] *)
Definition _update_connections_dropdown : M app unit :=
  connections <- on_store ConnectionManager.get_connections ;;
  modify (with_connections_dropdown (placeholder :: connections)) ;;;
  modify (with_saved_connections_var placeholder).

(** [_load_selected_connection()] *)
Definition _load_selected_connection : M app unit :=
  s <- get_state ;;
  let selected := saved_connections_var s in
  if String.eqb selected placeholder then ret tt
  else
    conn_data <- on_store (ConnectionManager.load_connection selected) ;;
    match conn_data with
    | None | Some [] => ret tt
    | Some d =>
        match getitem "host" d with
        | Raise e => raise e
        | Ok host =>
            modify (with_host_var host) ;;;
            match getitem "user" d with
            | Raise e => raise e
            | Ok user =>
                modify (with_user_var user) ;;;
                match getitem "password" d with
                | Raise e => raise e
                | Ok password =>
                    modify (with_password_var password) ;;;
                    modify (with_connection_name_var selected)
                end
            end
        end
    end.

(** [_on_connection_selected()] *)
Definition _on_connection_selected : M app unit :=
  s <- get_state ;;
  if negb (String.eqb (saved_connections_var s) placeholder)
  then _load_selected_connection
  else ret tt.

(** [_save_connection()] *)
Definition _save_connection : M app unit :=
  s <- get_state ;;
  let name := strip (connection_name_var s) in
  let host := strip (host_var s) in
  let user := strip (user_var s) in
  let password := strip (password_var s) in
  if negb (forallb truthy [name; host; user])
  then show (showerror "Erro" name_host_user_required_msg)
  else
    on_store (ConnectionManager.save_connection name host user password) ;;;
    show (showinfo "Sucesso" (saved_msg name)) ;;;
    _update_connections_dropdown ;;;
    modify (with_connection_name_var "").

(** [_clear_connection_fields()] *)
Definition _clear_connection_fields : M app unit :=
  modify (with_host_var "") ;;;
  modify (with_user_var "") ;;;
  modify (with_password_var "") ;;;
  modify (with_connection_name_var "") ;;;
  modify (with_saved_connections_var placeholder).

(** [_delete_connection()]; [answer] is what the user replies to the
    confirmation, when it is asked. *)
Definition _delete_connection (answer : bool) : M app unit :=
  s <- get_state ;;
  let selected := saved_connections_var s in
  if String.eqb selected placeholder
  then show (showwarning "Aviso" select_to_delete_msg)
  else
    show (askyesno "Confirmar" (confirm_delete_msg selected)) ;;;
    if answer then
      deleted <- on_store (ConnectionManager.delete_connection selected) ;;
      if (deleted : bool) then
        show (showinfo "Sucesso" deleted_msg) ;;;
        _update_connections_dropdown ;;;
        _clear_connection_fields
      else ret tt
    else ret tt.

(** [_handle_connection_error(error, host, port, user)] *)
Definition _handle_connection_error (error : exn) (host : string) (port : Z)
    (user : string) : M app unit :=
  show (showerror connection_error_title (full_msg error host port user)).

(** The exceptions [except (ValueError, mysql.connector.Error)] takes. *)
Definition caught (e : exn) : bool :=
  match e with
  | ValueError _ | MySQLError _ => true
  | _ => false
  end.

Definition try_except {A} (m : M app A) (h : exn -> M app A) : M app A :=
  fun s => match m s with
           | (Raise e, s') => if caught e then h e s' else (Raise e, s')
           | other => other
           end.

(** [_connect_database()].  The names [host_name] and [port] are bound
    by the first statement of the [try] block; when that statement
    raises, the handler's call reads [host_name] unbound, which raises
    [UnboundLocalError] out of the handler. *)
Definition _connect_database : M app unit :=
  s <- get_state ;;
  let host := strip (host_var s) in
  let user := strip (user_var s) in
  let password := strip (password_var s) in
  if negb (forallb truthy [host; user])
  then show (showerror "Erro" host_user_required_msg)
  else
    match HawkDBApp._parse_host_port host with
    | Raise e =>
        if caught e then raise (OtherError "UnboundLocalError") else raise e
    | Ok (host_name, port) =>
        try_except
          (on_db (DatabaseConnection.connect D host_name user password port) ;;;
           server_info <- on_db (DatabaseConnection.get_server_info D) ;;
           show (showinfo "Conectado"
                   (connected_msg host_name port server_info)) ;;;
           modify (with_connect_button DISABLED) ;;;
           modify (with_disconnect_button NORMAL))
          (fun e => _handle_connection_error e host_name port user)
    end.

(** [_disconnect_database()] *)
Definition _disconnect_database : M app unit :=
  on_db (DatabaseConnection.disconnect D) ;;;
  show (showinfo "Desconectado" disconnected_msg) ;;;
  modify (with_connect_button NORMAL) ;;;
  modify (with_disconnect_button DISABLED).

End App.

(** *** Export *)

(** The static methods of [DataExporter]. *)
Inductive exporter : Type := to_csv | to_excel | to_sql_insert.

(** [getattr(self.data_exporter, name)] for a name that starts with
    [to_]: the class defines three such attributes. *)
Definition getattr_exporter (name : string) : result exporter :=
  if String.eqb name "to_csv" then Ok to_csv
  else if String.eqb name "to_excel" then Ok to_excel
  else if String.eqb name "to_sql_insert" then Ok to_sql_insert
  else Raise AttributeError.

(** [format_config[format_selected]["extension"]] *)
Definition format_config (format_selected : string) : result string :=
  if String.eqb format_selected "CSV" then Ok ".csv"
  else if String.eqb format_selected "Excel (XLSX)" then Ok ".xlsx"
  else if String.eqb format_selected "SQL INSERT" then Ok ".sql"
  else Raise (OtherError "KeyError").

(** [format_selected.split(' ')[0]] *)
Definition first_word (s : string) : string :=
  fst (ConfigParser.break_at " " s).

(** "Nenhum dado para exportar." *)
Definition no_data_msg : string := "Nenhum dado para exportar.".

(** "Exportação Concluída" *)
Definition export_done_title : string :=
  "Exporta" ++ ccedil ++ atilde ++ "o Conclu" ++ iacute ++ "da".

(** "Dados exportados com sucesso para:\n{filename}" *)
Definition export_done_msg (filename : string) : string :=
  "Dados exportados com sucesso para:" ++ NL ++ filename.

(** "Erro na Exportação" *)
Definition export_error_title : string :=
  "Erro na Exporta" ++ ccedil ++ atilde ++ "o".

(** "Erro ao exportar dados:\n{str(e)}" *)
Definition export_error_msg (text : string) : string :=
  "Erro ao exportar dados:" ++ NL ++ text.

Section Exporting.

(** [Files] is the file system.  [run] is what calling an exporter does
    to it: the two exporters built on pandas are left open, and
    [to_sql_insert] writes the text of [DataExporter.to_sql_insert].
    [str_of_exn] is [str(e)]. *)
Variable Files : Type.
Variable run :
  exporter -> list row -> list string -> string -> Files -> result unit * Files.
Variable str_of_exn : exn -> string.

Record export_state : Type := mkexport {
  files : Files;
  shown : list dialog }.

Definition export_show (d : dialog) : M export_state unit :=
  modify (fun s => mkexport (files s) (shown s ++ [d])%list).

Definition call_exporter (m : exporter) (data : list row)
    (columns : list string) (filename : string) : M export_state unit :=
  fun s => let '(r, f) := run m data columns filename (files s) in
           (r, mkexport f (shown s)).

(** [try: m  except Exception as e: h e] *)
Definition try_except_exception {A} (m : M export_state A)
    (h : exn -> M export_state A) : M export_state A :=
  fun s => match m s with
           | (Raise e, s') => h e s'
           | other => other
           end.

(** [_export_data()], given the rows and column names of the last
    query, the format selected, and the file name the user gives in the
    file dialog (empty when the dialog is cancelled).  Creating the
    export directory is taken to succeed. *)
Definition _export_data (current_data : list row)
    (current_columns : list string) (format_selected filename : string)
  : M export_state unit :=
  match current_data with
  | [] => export_show (showwarning "Aviso" no_data_msg)
  | _ =>
      match format_config format_selected with
      | Raise e => raise e
      | Ok _ =>
          if negb (truthy filename) then ret tt
          else
            try_except_exception
              (match getattr_exporter
                       ("to_" ++ lower (first_word format_selected)) with
               | Raise e => raise e
               | Ok export_method =>
                   call_exporter export_method current_data current_columns
                     filename ;;;
                   export_show (showinfo export_done_title
                                  (export_done_msg filename))
               end)
              (fun e => export_show (showerror export_error_title
                                       (export_error_msg (str_of_exn e))))
      end
  end.

End Exporting.

End Handlers.

Module HandlerSamples.

Import DatabaseConnection Handlers.

(** A server that accepts the connection and its first statement, and
    fails every later statement with error 2013 (connection lost); the
    world counts the statements executed. *)
Definition lost_after_verification : Driver nat nat nat :=
  mkDriver
    (fun _ w => (Ok 7, w))
    (fun c w => (Ok c, w))
    (fun _ w => w)
    (fun _ _ w =>
       (if (w =? 0)%nat then Ok tt else Raise (MySQLError 2013), S w))
    (fun _ w => (Ok (Some [VStr "8.0.36"]), w))
    (fun _ w => (Ok [], w))
    (fun _ _ => Some []).

(** The window as it opens on a session and a store, with the given
    entries typed in. *)
Definition window {World Conn Cur : Type} (db : state World Conn Cur)
    (store : ConnectionManager.t) (name host user password : string)
  : app World Conn Cur :=
  mkapp db store host user password name placeholder [placeholder]
        NORMAL DISABLED [].

(** A file system as a list of file names with their contents, and
    exporters that write to it. *)
Definition writes (csv xlsx : string) (m : exporter) (data : list row)
    (columns : list string) (filename : string)
    (fs : list (string * string))
  : result unit * list (string * string) :=
  (Ok tt,
   (filename,
    match m with
    | to_csv => csv
    | to_excel => xlsx
    | to_sql_insert =>
        DataExporter.to_sql_insert data columns DataExporter.default_table_name
    end) :: fs).

Definition class_name (e : exn) : string :=
  match e with
  | MySQLError _ => "Error"
  | RuntimeError _ => "RuntimeError"
  | ValueError _ => "ValueError"
  | TypeError => "TypeError"
  | AttributeError => "AttributeError"
  | ConfigError kind => kind
  | OtherError name => name
  end.

End HandlerSamples.

(** * Properties *)

Unset Implicit Arguments.

(** ** Strings *)

Module PyStrFacts.

Import PyStr.

Lemma append_nil_r (s : string) : s ++ "" = s.
Proof. induction s as [|c r IH]; simpl; [reflexivity | now rewrite IH]. Qed.

Lemma append_assoc (a b c : string) : (a ++ b) ++ c = a ++ (b ++ c).
Proof. induction a as [|x a IH]; simpl; [reflexivity | now rewrite IH]. Qed.

Lemma contains_app (c : ascii) (a b : string) :
  contains c (a ++ b) = contains c a || contains c b.
Proof.
  induction a as [|x a IH]; simpl; [reflexivity|].
  rewrite IH. now rewrite orb_assoc.
Qed.

Lemma rsplit1_none (sep : ascii) (s : string) :
  contains sep s = false -> rsplit1 sep s = None.
Proof.
  induction s as [|c r IH]; simpl; [reflexivity|].
  intros H. apply orb_false_iff in H. destruct H as [Hc Hr].
  rewrite (IH Hr). rewrite Ascii.eqb_sym. now rewrite Hc.
Qed.

(** Splitting at the last separator undoes joining with a tail that has
    no separator. *)
Lemma rsplit1_app (sep : ascii) (a b : string) :
  contains sep b = false ->
  rsplit1 sep (a ++ String sep b) = Some (a, b).
Proof.
  intros Hb. induction a as [|c a IH]; simpl.
  - rewrite (rsplit1_none _ _ Hb). now rewrite Ascii.eqb_refl.
  - now rewrite IH.
Qed.

Lemma lstrip_with_id sp s : no_blank sp s = true -> lstrip_with sp s = s.
Proof.
  destruct s as [|c r]; simpl; [reflexivity|].
  intros H. apply andb_true_iff in H. destruct H as [Hc _].
  apply negb_true_iff in Hc. now rewrite Hc.
Qed.

Lemma rstrip_with_id sp s : no_blank sp s = true -> rstrip_with sp s = s.
Proof.
  induction s as [|c r IH]; simpl; [reflexivity|].
  intros H. apply andb_true_iff in H. destruct H as [Hc Hr].
  apply negb_true_iff in Hc. rewrite (IH Hr), Hc. now destruct r.
Qed.

Lemma strip_id s : no_blank isspace s = true -> strip s = s.
Proof.
  intros H. unfold strip, lstrip, rstrip.
  rewrite (lstrip_with_id _ _ H). now apply rstrip_with_id.
Qed.

Lemma isdigit_not_blank sp c :
  (sp = isspace \/ sp = int_isspace) -> isdigit c = true -> sp c = false.
Proof.
  intros Hsp H. unfold isdigit in H.
  apply andb_true_iff in H. destruct H as [H1 H2].
  apply Nat.leb_le in H1. apply Nat.leb_le in H2.
  destruct Hsp as [-> | ->]; unfold isspace, int_isspace;
    repeat (apply orb_false_iff; split);
    try (apply andb_false_iff);
    try (apply Nat.eqb_neq; lia);
    try (left; apply Nat.leb_gt; lia);
    try (right; apply Nat.leb_gt; lia).
Qed.

Lemma all_digits_no_blank sp s :
  (sp = isspace \/ sp = int_isspace) ->
  all_digits s = true -> no_blank sp s = true.
Proof.
  intros Hsp. induction s as [|c r IH]; simpl; [reflexivity|].
  intros H. apply andb_true_iff in H. destruct H as [Hc Hr].
  rewrite (isdigit_not_blank sp c Hsp Hc). simpl. now apply IH.
Qed.

Lemma all_digits_no_colon s : all_digits s = true -> contains ":" s = false.
Proof.
  induction s as [|c r IH]; cbn [contains all_digits]; [reflexivity|].
  intros H. apply andb_true_iff in H. destruct H as [Hc Hr].
  rewrite (IH Hr), orb_false_r.
  destruct (Ascii.eqb_spec ":" c) as [<-|]; [discriminate Hc | reflexivity].
Qed.

Lemma literal_digits_all s :
  all_digits s = true -> literal_digits true s = Some s.
Proof.
  induction s as [|c r IH]; simpl; [reflexivity|].
  intros H. apply andb_true_iff in H. destruct H as [Hc Hr].
  now rewrite Hc, (IH Hr).
Qed.

Lemma literal_digits_nonempty c r :
  all_digits (String c r) = true ->
  literal_digits false (String c r) = Some (String c r).
Proof.
  simpl. intros H. apply andb_true_iff in H. destruct H as [Hc Hr].
  now rewrite Hc, (literal_digits_all _ Hr).
Qed.

Lemma all_digits_string_of_uint d :
  all_digits (NilEmpty.string_of_uint d) = true.
Proof. induction d; simpl; auto. Qed.

Lemma string_of_uint_nonempty d :
  d <> Decimal.Nil -> exists c r, NilEmpty.string_of_uint d = String c r.
Proof. destruct d; simpl; intros H; try congruence; eauto. Qed.

Lemma string_of_pos p :
  NilZero.string_of_uint (Pos.to_uint p) = NilEmpty.string_of_uint (Pos.to_uint p).
Proof.
  unfold NilZero.string_of_uint.
  pose proof (DecimalPos.Unsigned.to_uint_nonnil p) as H.
  destruct (Pos.to_uint p); [congruence | reflexivity ..].
Qed.

Lemma of_uint_to_uint p : Z.of_uint (Pos.to_uint p) = Z.pos p.
Proof.
  unfold Z.of_uint. now rewrite DecimalPos.Unsigned.of_to.
Qed.

(** [int] reads a sequence of digits as the number it denotes. *)
Lemma int_of_digits p :
  let ds := NilEmpty.string_of_uint (Pos.to_uint p) in
  literal_digits false ds = Some ds
  /\ NilEmpty.uint_of_string ds = Some (Pos.to_uint p)
  /\ all_digits ds = true.
Proof.
  intros ds. subst ds.
  destruct (string_of_uint_nonempty _ (DecimalPos.Unsigned.to_uint_nonnil p))
    as (c & r & E).
  pose proof (all_digits_string_of_uint (Pos.to_uint p)) as Hd.
  repeat split.
  - rewrite E in *. now apply literal_digits_nonempty.
  - apply NilEmpty.usu.
  - exact Hd.
Qed.

Lemma str_of_int_pos p :
  str_of_int (Z.pos p) = NilEmpty.string_of_uint (Pos.to_uint p).
Proof. unfold str_of_int. simpl. apply string_of_pos. Qed.

Lemma str_of_int_neg p :
  str_of_int (Z.neg p) = String "-" (NilEmpty.string_of_uint (Pos.to_uint p)).
Proof. unfold str_of_int. simpl. now rewrite string_of_pos. Qed.

(** What [str] prints for an integer has no blank and no colon. *)
Lemma str_of_int_shape sp z :
  (sp = isspace \/ sp = int_isspace) ->
  no_blank sp (str_of_int z) = true /\ contains ":" (str_of_int z) = false.
Proof.
  intros Hsp. destruct z as [|p|p].
  - destruct Hsp as [-> | ->]; now vm_compute.
  - rewrite str_of_int_pos.
    pose proof (all_digits_string_of_uint (Pos.to_uint p)) as Hd. split.
    + now apply all_digits_no_blank.
    + now apply all_digits_no_colon.
  - rewrite str_of_int_neg.
    pose proof (all_digits_string_of_uint (Pos.to_uint p)) as Hd. split.
    + simpl. rewrite (all_digits_no_blank sp _ Hsp Hd), andb_true_r.
      destruct Hsp as [-> | ->]; reflexivity.
    + simpl. now apply all_digits_no_colon.
Qed.

(** [int(str(z)) = z], as long as the writing of [z] stays within the
    limit on digits. *)
Lemma int_of_str_of_int z :
  String.length (str_of_int z) <= int_max_str_digits ->
  int_of_str (str_of_int z) = Some z.
Proof.
  intros Hlen. unfold int_of_str.
  destruct (str_of_int_shape int_isspace z (or_intror eq_refl)) as [Hb _].
  rewrite (lstrip_with_id _ _ Hb), (rstrip_with_id _ _ Hb).
  destruct z as [|p|p].
  - reflexivity.
  - rewrite str_of_int_pos in *.
    apply Nat.leb_le in Hlen.
    destruct (int_of_digits p) as (H1 & H2 & H3).
    destruct (string_of_uint_nonempty _ (DecimalPos.Unsigned.to_uint_nonnil p))
      as (c & r & E).
    rewrite E in *.
    assert (Hc : isdigit c = true).
    { simpl in H3. now apply andb_true_iff in H3. }
    assert (Hs : (match String c r with
                  | String "-" r0 => (true, r0)
                  | String "+" r0 => (false, r0)
                  | _ => (false, String c r)
                  end) = (false, String c r)).
    { destruct c as [[] [] [] [] [] [] [] []]; try reflexivity; discriminate Hc. }
    rewrite Hs, H1, Hlen, H2. now rewrite of_uint_to_uint.
  - rewrite str_of_int_neg in *.
    assert (Hlen' : (String.length (NilEmpty.string_of_uint (Pos.to_uint p))
                     <=? int_max_str_digits)%nat = true).
    { apply Nat.leb_le. cbn [String.length] in Hlen. lia. }
    destruct (int_of_digits p) as (H1 & H2 & _).
    rewrite H1, Hlen', H2. now rewrite of_uint_to_uint.
Qed.

(** [int] refuses a sequence of more than [int_max_str_digits] digits. *)
Lemma int_of_str_too_long ds :
  all_digits ds = true -> int_max_str_digits < String.length ds ->
  int_of_str ds = None.
Proof.
  intros Hd Hlen. unfold int_of_str.
  pose proof (all_digits_no_blank int_isspace ds (or_intror eq_refl) Hd) as Hb.
  rewrite (lstrip_with_id _ _ Hb), (rstrip_with_id _ _ Hb).
  destruct ds as [|c r]; [cbn in Hlen; lia|].
  assert (Hc : isdigit c = true).
  { simpl in Hd. now apply andb_true_iff in Hd. }
  assert (Hs : (match String c r with
                | String "-" r0 => (true, r0)
                | String "+" r0 => (false, r0)
                | _ => (false, String c r)
                end) = (false, String c r)).
  { destruct c as [[] [] [] [] [] [] [] []]; try reflexivity; discriminate Hc. }
  rewrite Hs, (literal_digits_nonempty c r Hd).
  apply Nat.leb_gt in Hlen. now rewrite Hlen.
Qed.

End PyStrFacts.

(** ** Export to SQL statements *)

Module DataExporterFacts.

Import PyStr Reference DataExporter.

(** Replacing the one-character string ['] by [''] doubles every quote
    and touches nothing else. *)
Lemma replace_quote (s : string) : replace "'" "''" s = quotes_doubled s.
Proof.
  unfold replace. induction s as [|c r IH]; [reflexivity|].
  cbn [replace_from quotes_doubled String.prefix String.length Nat.sub].
  assert (Hp : String.prefix "" r = true) by now destruct r.
  destruct (Ascii.eqb_spec c "'") as [->|Hne].
  - simpl. now rewrite Hp, IH.
  - destruct (ascii_dec "'" c) as [E|_]; [now subst c | now rewrite IH].
Qed.




Lemma strftime_datetime t :
  strftime "%Y-%m-%d %H:%M:%S" t =
  unpadded (year (dt_date t)) ++ "-" ++ zero_pad 2 (month (dt_date t)) ++ "-"
  ++ zero_pad 2 (day (dt_date t)) ++ " " ++ zero_pad 2 (hour t) ++ ":"
  ++ zero_pad 2 (minute t) ++ ":" ++ zero_pad 2 (second t).
Proof.
  cbn [strftime directive].
  now rewrite (PyStrFacts.append_nil_r (zero_pad 2 (second t))).
Qed.

Lemma strftime_date d :
  date_strftime "%Y-%m-%d" d =
  unpadded (year d) ++ "-" ++ zero_pad 2 (month d) ++ "-" ++ zero_pad 2 (day d).
Proof.
  unfold date_strftime. cbn [strftime directive dt_date].
  now rewrite (PyStrFacts.append_nil_r (zero_pad 2 (day d))).
Qed.








End DataExporterFacts.

(** ** Parsing the host field *)

Module HawkDBAppFacts.

Import PyStr HawkDBApp.

Lemma contains_colon_app host port_text :
  contains ":" (host ++ String ":" port_text) = true.
Proof.
  rewrite PyStrFacts.contains_app. cbn [contains].
  rewrite Ascii.eqb_refl. now rewrite orb_true_r.
Qed.

Lemma parse_with_port host port_text :
  contains ":" port_text = false ->
  _parse_host_port (host ++ String ":" port_text) =
  match int_of_str (strip port_text) with
  | Some port => Ok (strip host, port)
  | None => Raise (ValueError invalid_format_msg)
  end.
Proof.
  intros H. unfold _parse_host_port.
  rewrite contains_colon_app. now rewrite (PyStrFacts.rsplit1_app ":" host port_text H).
Qed.

Lemma holds_from_spec check n : forall z x,
  Reference.holds_from check n z = true ->
  (z <= x < z + Z.of_nat n)%Z -> check x = true.
Proof.
  induction n as [|n IH]; intros z x H Hx; [lia|].
  cbn [Reference.holds_from] in H. apply andb_true_iff in H.
  destruct H as [Hz Hr].
  destruct (Z.eq_dec x z) as [->|Hne]; [exact Hz|].
  apply (IH (z + 1)%Z x Hr). lia.
Qed.

Lemma port_writing_short :
  Reference.holds_from
    (fun z => (String.length (str_of_int z) <=? 5)%nat) (256 * 256) 0 = true.
Proof. vm_compute. reflexivity. Qed.

Lemma tcp_port_length port :
  (0 <= port <= 65535)%Z -> String.length (str_of_int port) <= 5.
Proof.
  intros Hp. apply Nat.leb_le.
  apply (holds_from_spec
           (fun z => (String.length (str_of_int z) <=? 5)%nat)
           (256 * 256) 0 port port_writing_short).
  change (Z.of_nat (256 * 256)) with 65536%Z. lia.
Qed.

(** C3.  An input [host:port] whose port segment [int] accepts parses to
    the host and that integer; this covers the decimal writing of every
    integer of at most 4300 digits, every port number from 0 to 65535
    among them.  An input without colon parses to the host and 3306.  An
    input whose port segment [int] rejects raises [ValueError]; a
    sequence of more than 4300 digits is such a segment.  The host comes
    back stripped of surrounding blanks, so it is the host as given
    whenever it has none. *)
Theorem parse_host_port_spec :
  (forall host port_text port,
      contains ":" port_text = false ->
      int_of_str (strip port_text) = Some port ->
      _parse_host_port (host ++ ":" ++ port_text) = Ok (strip host, port))
  /\ (forall host port,
      strip host = host ->
      String.length (str_of_int port) <= int_max_str_digits ->
      _parse_host_port (host ++ ":" ++ str_of_int port) = Ok (host, port))
  /\ (forall host port,
      strip host = host -> (0 <= port <= 65535)%Z ->
      _parse_host_port (host ++ ":" ++ str_of_int port) = Ok (host, port))
  /\ (forall host,
      contains ":" host = false ->
      _parse_host_port host = Ok (strip host, 3306%Z))
  /\ (forall host,
      contains ":" host = false -> strip host = host ->
      _parse_host_port host = Ok (host, 3306%Z))
  /\ (forall host port_text,
      contains ":" port_text = false ->
      int_of_str (strip port_text) = None ->
      _parse_host_port (host ++ ":" ++ port_text)
      = Raise (ValueError invalid_format_msg))
  /\ (forall host digits,
      all_digits digits = true ->
      int_max_str_digits < String.length digits ->
      _parse_host_port (host ++ ":" ++ digits)
      = Raise (ValueError invalid_format_msg)).
Proof.
  assert (Hwritten : forall host port,
             strip host = host ->
             String.length (str_of_int port) <= int_max_str_digits ->
             _parse_host_port (host ++ ":" ++ str_of_int port)
             = Ok (host, port)).
  { intros host port Hh Hlen. cbn [append].
    destruct (PyStrFacts.str_of_int_shape isspace port (or_introl eq_refl))
      as [Hb Hc].
    rewrite (parse_with_port host _ Hc), (PyStrFacts.strip_id _ Hb).
    now rewrite (PyStrFacts.int_of_str_of_int port Hlen), Hh. }
  repeat split.
  - intros host port_text port Hc Hp. cbn [append].
    now rewrite (parse_with_port host port_text Hc), Hp.
  - exact Hwritten.
  - intros host port Hh Hp. apply Hwritten; [exact Hh|].
    pose proof (tcp_port_length port Hp) as Hl.
    unfold int_max_str_digits. lia.
  - intros host Hc. unfold _parse_host_port. now rewrite Hc.
  - intros host Hc Hh. unfold _parse_host_port. now rewrite Hc, Hh.
  - intros host port_text Hc Hp. cbn [append].
    now rewrite (parse_with_port host port_text Hc), Hp.
  - intros host digits Hd Hlen. cbn [append].
    rewrite (parse_with_port host digits (PyStrFacts.all_digits_no_colon _ Hd)).
    rewrite (PyStrFacts.strip_id _
               (PyStrFacts.all_digits_no_blank isspace _ (or_introl eq_refl) Hd)).
    now rewrite (PyStrFacts.int_of_str_too_long digits Hd Hlen).
Qed.

(** The statement above at ["db.local:3307"], [" db.local : 33_07 "],
    ["db.local"], ["db.local:mysql"] and a port of 4301 digits. *)
Lemma parse_host_port_spec_witness :
  _parse_host_port " db.local : 33_07 " = Ok ("db.local", 3307%Z)
  /\ _parse_host_port "db.local:3307" = Ok ("db.local", 3307%Z)
  /\ _parse_host_port "db.local:65535" = Ok ("db.local", 65535%Z)
  /\ _parse_host_port " db.local " = Ok ("db.local", 3306%Z)
  /\ _parse_host_port "db.local" = Ok ("db.local", 3306%Z)
  /\ _parse_host_port "db.local:mysql" = Raise (ValueError invalid_format_msg)
  /\ _parse_host_port
       ("db.local:" ++ String.concat "" (repeat "1" (43 * 100 + 1)))
     = Raise (ValueError invalid_format_msg).
Proof.
  destruct parse_host_port_spec as (H1 & H2 & H3 & H4 & H5 & H6 & H7).
  split; [| split; [| split; [| split; [| split; [| split]]]]].
  - apply (H1 " db.local " " 33_07 " 3307%Z); reflexivity.
  - apply (H2 "db.local" 3307%Z); [reflexivity|vm_compute; lia].
  - apply (H3 "db.local" 65535%Z); [reflexivity|lia].
  - apply (H4 " db.local "); reflexivity.
  - apply (H5 "db.local"); reflexivity.
  - apply (H6 "db.local" "mysql"); reflexivity.
  - apply (H7 "db.local" (String.concat "" (repeat "1" (43 * 100 + 1))));
      [vm_compute; reflexivity|vm_compute; lia].
Defined.

End HawkDBAppFacts.

(** ** Sessions *)

Module DatabaseConnectionFacts.

Import DatabaseConnection Reference.

Local Open Scope list_scope.

Section Facts.

Context {World Conn Cur : Type} (D : Driver World Conn Cur).

(** Unfolding the monad of a method applied to a state. *)
Ltac unfold_methods :=
  unfold after_reset in *;
  unfold connect, disconnect, execute_query, get_server_info,
    except_mysql_error, do_connect, do_close, do_cursor, do_execute,
    do_fetchone, do_fetchall, the_cursor, call, set_connection, set_cursor,
    set_is_connected, bind, ret, raise, get_state, modify in *;
  cbn [self world trace connection cursor is_connected fst snd negb] in *.

(** One more case split on what the driver or an attribute answers:
    the innermost scrutinee first. *)
Ltac driver_case :=
  match goal with
  | |- context [match ?x with _ => _ end] =>
      lazymatch x with
      | context [match _ with _ => _ end] => fail
      | _ => destruct x eqn:?
      end;
      cbn [self world trace connection cursor is_connected fst snd negb] in *
  end.

Lemma disconnect_ok (s : state World Conn Cur) :
  disconnect D s =
  (Ok tt,
   match connection (self s) with
   | Some c => mkstate (mk None None false) (conn_close D c (world s))
                       (trace s ++ [EClose c])
   | None => s
   end).
Proof. unfold_methods. destruct (connection (self s)); reflexivity. Qed.

Lemma disconnect_disconnects (s : state World Conn Cur) :
  consistent (self s) -> is_connected (self (snd (disconnect D s))) = false.
Proof.
  intros Hc. rewrite disconnect_ok. cbn [snd].
  destruct (connection (self s)) eqn:E; [reflexivity|].
  destruct (is_connected (self s)) eqn:Ei; [|reflexivity].
  exfalso. now apply (Hc Ei).
Qed.

Lemma after_reset_disconnected (s : state World Conn Cur) :
  consistent (self s) -> is_connected (self (after_reset D s)) = false.
Proof.
  intros Hc. unfold after_reset.
  destruct (is_connected (self s)) eqn:Ei; [|exact Ei].
  now apply disconnect_disconnects.
Qed.

(** A session that refuses queries: not marked connected. *)
Lemma execute_query_disconnected (query : string) (s : state World Conn Cur) :
  is_connected (self s) = false ->
  execute_query D query s = (Raise (RuntimeError not_connected_msg), s).
Proof. intros H. unfold_methods. now rewrite H. Qed.

Lemma get_server_info_disconnected (s : state World Conn Cur) :
  is_connected (self s) = false -> get_server_info D s = (Ok VNone, s).
Proof. intros H. unfold_methods. now rewrite H. Qed.

(** [connect] marks the session connected exactly when it returns. *)
Lemma connect_outcome host user password port (s : state World Conn Cur) :
  consistent (self s) ->
  match connect D host user password port s with
  | (Ok _, s') => is_connected (self s') = true /\ connection (self s') <> None
  | (Raise _, s') => is_connected (self s') = false
  end.
Proof.
  intros Hc. destruct s as [[conn cur ic] w tr]. unfold consistent in Hc.
  cbn [self connection is_connected] in Hc.
  unfold_methods.
  destruct ic; [destruct conn as [c|]; [|now exfalso; apply Hc] |];
    cbn [self world trace connection cursor is_connected fst snd negb] in *;
    repeat driver_case; try reflexivity; try (split; [reflexivity | discriminate]).
Qed.

(** Every public method keeps a session consistent, and a new session
    is consistent. *)
Lemma consistent_init : consistent (@init Conn Cur).
Proof. intros H. discriminate H. Qed.

Lemma consistent_kept host user password port query (s : state World Conn Cur) :
  consistent (self s) ->
  consistent (self (snd (connect D host user password port s)))
  /\ consistent (self (snd (disconnect D s)))
  /\ self (snd (execute_query D query s)) = self s
  /\ self (snd (get_server_info D s)) = self s.
Proof.
  intros Hc. split; [| split; [| split]].
  - pose proof (connect_outcome host user password port s Hc) as Ho.
    destruct (connect D host user password port s) as [[b|ex] st]; cbn [snd].
    + now intros _.
    + intros Hi. congruence.
  - intros Hi. rewrite (disconnect_disconnects s Hc) in Hi. discriminate Hi.
  - destruct s as [[conn cur ic] w tr]. unfold_methods.
    repeat driver_case; reflexivity.
  - destruct s as [[conn cur ic] w tr]. unfold_methods.
    repeat driver_case; reflexivity.
Qed.

(** C2.  [connect] first asks the driver for a connection without
    [ssl_disabled]; when that attempt raises a driver error, whatever its
    code, it asks once more with [ssl_disabled] set, and a failure of
    that second attempt is what the caller gets; when the first attempt
    returns, or raises anything else, there is no second attempt.  Never
    more than two attempts are made. *)
Theorem connect_secure_then_insecure_once :
  forall host user password port (s : state World Conn Cur),
    let cfg := connection_config host user password port in
    let s0 := after_reset D s in
    let r := fst (connect D host user password port s) in
    let s' := snd (connect D host user password port s) in
    cfg_ssl_disabled cfg = None
    /\ cfg_ssl_disabled (with_ssl_disabled cfg) = Some true
    /\ exists evs,
        trace s' = trace s0 ++ evs
        /\ length (connect_attempts evs) <= 2
        /\ match mysql_connect D cfg (world s0) with
           | (Raise (MySQLError _), w1) =>
               connect_attempts evs = [cfg; with_ssl_disabled cfg]
               /\ match mysql_connect D (with_ssl_disabled cfg) w1 with
                  | (Raise e, _) => r = Raise e
                  | (Ok _, _) => True
                  end
           | (Raise e, _) => connect_attempts evs = [cfg] /\ r = Raise e
           | (Ok _, _) => connect_attempts evs = [cfg]
           end.
Proof.
  intros host user password port s cfg s0 r s'.
  split; [reflexivity|]. split; [reflexivity|].
  subst cfg s0 r s'. destruct s as [[conn cur ic] w tr].
  unfold_methods.
  destruct ic; [destruct conn as [c|] |];
    cbn [self world trace connection cursor is_connected fst snd negb] in *;
    try remember (tr ++ [EClose c]) as t0;
    repeat driver_case;
    rewrite <- ?app_assoc; eexists; (split; [reflexivity|]);
    cbn [connect_attempts app length]; (split; [lia|]); auto.
Qed.

(** C4.  When [connect] raises, whatever raised and at whatever step,
    also after a completed handshake when the version query fails, the
    session is not marked connected: a query on it is refused as not
    connected and the server information is [None]. *)
Theorem connect_failure_leaves_disconnected :
  forall host user password port (s s' : state World Conn Cur) ex,
    consistent (self s) ->
    connect D host user password port s = (Raise ex, s') ->
    is_connected (self s') = false
    /\ (forall query,
           execute_query D query s' = (Raise (RuntimeError not_connected_msg), s'))
    /\ get_server_info D s' = (Ok VNone, s').
Proof.
  intros host user password port s s' ex Hc H.
  pose proof (connect_outcome host user password port s Hc) as Ho.
  rewrite H in Ho. split; [exact Ho|]. split.
  - intros query. now apply execute_query_disconnected.
  - now apply get_server_info_disconnected.
Qed.

(** C8.  [execute_query] on a session that is not marked connected
    raises the not-connected error and asks nothing of the driver; so
    does the query that follows [connect] then [disconnect], whether the
    connection attempt returned or raised. *)
Theorem execute_query_requires_connection :
  (forall query (s : state World Conn Cur),
      is_connected (self s) = false ->
      execute_query D query s = (Raise (RuntimeError not_connected_msg), s))
  /\ (forall host user password port query (s : state World Conn Cur),
      consistent (self s) ->
      let s1 := snd (connect D host user password port s) in
      let s2 := snd (disconnect D s1) in
      execute_query D query s2 = (Raise (RuntimeError not_connected_msg), s2)).
Proof.
  split; [exact execute_query_disconnected|].
  intros host user password port query s Hc s1 s2.
  apply execute_query_disconnected. subst s2.
  pose proof (connect_outcome host user password port s Hc) as Ho.
  fold s1 in Ho. destruct (connect D host user password port s) as [[b|ex] st].
  - subst s1. cbn [snd] in *. destruct Ho as [_ Hn].
    rewrite disconnect_ok. cbn [snd].
    destruct (connection (self st)); [reflexivity | congruence].
  - subst s1. cbn [snd] in *. rewrite disconnect_ok. cbn [snd].
    destruct (connection (self st)); [reflexivity | exact Ho].
Qed.

(** C9, as the code has it.  [get_server_info] returns [None] on a
    session that is not marked connected.  On a connected session whose
    version query yields a row it returns the first field of that row as
    it is, be it an empty string or NULL; it returns the marker
    "Desconhecida" when the query yields no row or an empty row. *)
Theorem get_server_info_spec :
  forall (s : state World Conn Cur),
    (is_connected (self s) = false -> get_server_info D s = (Ok VNone, s))
    /\ (forall cur w1 w2 fetched,
           is_connected (self s) = true ->
           cursor (self s) = Some cur ->
           cur_execute D cur "SELECT VERSION()" (world s) = (Ok tt, w1) ->
           cur_fetchone D cur w1 = (Ok fetched, w2) ->
           fst (get_server_info D s) =
           Ok match fetched with
              | Some (v0 :: _) => v0
              | Some [] | None => VStr unknown_marker
              end).
Proof.
  intros s. split; [apply get_server_info_disconnected|].
  intros cur w1 w2 fetched Hi Hcur He Hf.
  destruct s as [[conn c ic] w tr].
  cbn [self world trace connection cursor is_connected] in *. subst c ic.
  unfold_methods. rewrite He.
  cbn [self world trace connection cursor is_connected fst snd negb].
  rewrite Hf. destruct fetched as [[|v0 rest]|]; reflexivity.
Qed.

End Facts.

Import Samples.

Lemma fresh_consistent : consistent (self fresh).
Proof. intros H. discriminate H. Defined.

(** C4 at a server that completes the handshake and then fails the
    version query. *)
Lemma connect_failure_leaves_disconnected_witness :
  let s' := snd (connect drops_after_handshake "db.local" "root" "secret" 3306 fresh) in
  fst (connect drops_after_handshake "db.local" "root" "secret" 3306 fresh)
  = Raise (MySQLError 2013)
  /\ is_connected (self s') = false
  /\ (forall query,
        execute_query drops_after_handshake query s'
        = (Raise (RuntimeError not_connected_msg), s'))
  /\ get_server_info drops_after_handshake s' = (Ok VNone, s').
Proof.
  intros s'. split; [reflexivity|].
  apply (connect_failure_leaves_disconnected drops_after_handshake
           "db.local" "root" "secret" 3306%Z fresh s' (MySQLError 2013)
           fresh_consistent).
  reflexivity.
Defined.

(** C8 at a healthy server. *)
Lemma execute_query_requires_connection_witness :
  is_connected (self fresh) = false
  /\ execute_query healthy "SELECT 1" fresh
     = (Raise (RuntimeError not_connected_msg), fresh)
  /\ fst (execute_query healthy "SELECT 1"
            (snd (disconnect healthy (connected_to healthy))))
     = Raise (RuntimeError not_connected_msg).
Proof.
  destruct (execute_query_requires_connection healthy) as [H1 H2].
  split; [reflexivity|]. split.
  - apply (H1 "SELECT 1" fresh). reflexivity.
  - unfold connected_to.
    rewrite (H2 "db.local" "root" "secret" 3306%Z "SELECT 1" fresh fresh_consistent).
    reflexivity.
Defined.

(** C9 at a healthy server and at one that returns no row. *)
Lemma get_server_info_spec_witness :
  get_server_info healthy fresh = (Ok VNone, fresh)
  /\ fst (get_server_info healthy (connected_to healthy)) = Ok (VStr "8.0.36")
  /\ fst (get_server_info no_row (connected_to no_row)) = Ok (VStr "Desconhecida").
Proof.
  split; [| split].
  - apply (get_server_info_spec healthy fresh). reflexivity.
  - apply (proj2 (get_server_info_spec healthy (connected_to healthy))
             7 tt tt (Some [VStr "8.0.36"])); reflexivity.
  - apply (proj2 (get_server_info_spec no_row (connected_to no_row))
             7 tt tt None); reflexivity.
Defined.

(** C9 as stated fails: a connected session whose server answers the
    version query with an empty string gets that empty string, not the
    marker; one whose server answers NULL gets [None] although it is
    connected. *)
Lemma get_server_info_empty_value_counterexample :
  is_connected (self (connected_to empty_version)) = true
  /\ fst (get_server_info empty_version (connected_to empty_version)) = Ok (VStr "")
  /\ VStr "" <> VStr unknown_marker
  /\ is_connected (self (connected_to null_version)) = true
  /\ fst (get_server_info null_version (connected_to null_version)) = Ok VNone.
Proof.
  repeat split; try reflexivity. discriminate.
Qed.

(** C2 at a server that refuses both attempts for a wrong password, and
    at one that accepts only the attempt without encryption. *)
Example connect_attempts_wrong_password :
  let run := connect wrong_password "db.local" "root" "oops" 3306 fresh in
  fst run = Raise (MySQLError 1045)
  /\ map cfg_ssl_disabled (connect_attempts (trace (snd run))) = [None; Some true].
Proof. split; reflexivity. Qed.

Example connect_attempts_no_tls :
  let run := connect no_tls "db.local" "root" "secret" 3306 fresh in
  fst run = Ok true
  /\ map cfg_ssl_disabled (connect_attempts (trace (snd run))) = [None; Some true].
Proof. split; reflexivity. Qed.

(** After a handshake followed by a failed version query the session
    object still holds the connection and the cursor it obtained; no
    [close] was asked of the driver.  [disconnect] closes them. *)
Example handle_kept_after_failed_verification :
  let s' := snd (connect drops_after_handshake "db.local" "root" "secret" 3306 fresh) in
  connection (self s') = Some 7
  /\ cursor (self s') = Some 7
  /\ trace s' = [EConnect (connection_config "db.local" "root" "secret" 3306);
                 ECursor 7; EExecute 7 "SELECT VERSION()"]
  /\ trace (snd (disconnect drops_after_handshake s')) = trace s' ++ [EClose 7].
Proof. repeat split. Qed.

End DatabaseConnectionFacts.

(** ** Stored connection profiles *)

Module ConnectionManagerFacts.

Import ConfigParser ConnectionManager Reference Samples.

Local Open Scope list_scope.

(** *** Section names never include the default section *)

Lemma dict_mem_set_present {V} (k n : string) (v : V) (d : dict V) :
  dict_mem n d = true -> dict_mem k (dict_set n v d) = dict_mem k d.
Proof.
  unfold dict_mem. induction d as [|[k' v'] r IH]; cbn [dict_get dict_set].
  - discriminate.
  - destruct (String.eqb_spec k' n) as [->|Hne].
    + intros _. cbn [dict_get]. now destruct (String.eqb n k).
    + intros H. cbn [dict_get]. destruct (String.eqb k' k); [reflexivity|].
      now apply IH.
Qed.

Lemma dict_mem_app_new {V} (k n : string) (v : V) (d : dict V) :
  dict_mem k (d ++ [(n, v)]) = dict_mem k d || String.eqb n k.
Proof.
  unfold dict_mem. induction d as [|[k' v'] r IH]; cbn [dict_get app].
  - now destruct (String.eqb n k).
  - destruct (String.eqb k' k); [reflexivity | exact IH].
Qed.

Lemma dict_mem_map_values {V} (f : V -> V) (k : string) (d : dict V) :
  dict_mem k (map (fun kv => (fst kv, f (snd kv))) d) = dict_mem k d.
Proof.
  unfold dict_mem. induction d as [|[k' v'] r IH]; cbn [dict_get map fst snd].
  - reflexivity.
  - destruct (String.eqb k' k); [reflexivity | exact IH].
Qed.

Lemma dict_get_mem {V} (k : string) (d : dict V) (v : V) :
  dict_get k d = Some v -> dict_mem k d = true.
Proof. unfold dict_mem. now intros ->. Qed.

Lemma cursect_set_sections st k v name :
  dict_mem name (_sections (cursect_set st k v))
  = dict_mem name (_sections (parser st)).
Proof.
  unfold cursect_set. destruct (cursect st) as [| |n]; try reflexivity.
  destruct (dict_get n (_sections (parser st))) as [d|] eqn:E; [|reflexivity].
  cbn [_sections]. apply dict_mem_set_present. now apply (dict_get_mem _ _ d).
Qed.

Lemma cursect_append_keeps k x st :
  no_default_section (parser st) ->
  no_default_section (parser (snd (cursect_append k x st))).
Proof.
  unfold cursect_append, no_default_section, has_section.
  destruct (cursect_get st k) as [[s|l]|]; cbn [snd]; try easy.
  intros H. unfold with_parser. cbn [parser]. now rewrite cursect_set_sections.
Qed.

Lemma header_or_option_keeps value lvl st :
  no_default_section (parser st) ->
  no_default_section (parser (snd (header_or_option value lvl st))).
Proof.
  unfold header_or_option, no_default_section, has_section. intros H.
  destruct (sectcre_match value) as [name|].
  - destruct (dict_mem name (_sections (parser st))).
    + destruct (existsb _ _); exact H.
    + destruct (String.eqb_spec name default_section) as [E|Hne]; [exact H|].
      cbn [snd parser _sections]. rewrite dict_mem_app_new, H.
      now apply String.eqb_neq.
  - destruct (cursect st) eqn:Ec; [exact H | |];
      (destruct (optcre_match value) as [[option optval]|]; [|exact H];
       destruct (existsb _ _); [exact H|];
       cbn [snd parser]; now rewrite cursect_set_sections).
Qed.

Lemma read_line_keeps line st :
  no_default_section (parser st) ->
  no_default_section (parser (snd (read_line line st))).
Proof.
  intros H. unfold read_line.
  destruct (is_empty _).
  - destruct (continued_option st); [|exact H].
    destruct (_ || _); [exact H | now apply cursect_append_keeps].
  - destruct (continued_option st).
    + destruct (_ <? _)%nat;
        [now apply cursect_append_keeps | now apply header_or_option_keeps].
    + now apply header_or_option_keeps.
Qed.

Lemma read_lines_keeps lines st :
  no_default_section (parser st) ->
  no_default_section (parser (snd (read_lines lines st))).
Proof.
  revert st. induction lines as [|line r IH]; intros st H; [exact H|].
  cbn [read_lines]. unfold bind.
  pose proof (read_line_keeps line st H) as H1.
  destruct (read_line line st) as [[u|ex] st1]; cbn [snd] in *.
  - now apply IH.
  - exact H1.
Qed.

(** Reading a file never creates a section named like the default one. *)
Lemma read_keeps file p :
  no_default_section p -> no_default_section (snd (read file p)).
Proof.
  intros H. destruct file as [text|]; [|exact H].
  cbn [read]. unfold _read.
  pose proof (read_lines_keeps (file_lines text)
                (mkp p [] [] CurNone "" None 0 false) H) as H1.
  destruct (read_lines _ _) as [[u|ex] st]; cbn [snd] in *; [|exact H1].
  assert (H2 : no_default_section (_join_multiline_values (parser st))).
  { unfold no_default_section, has_section, _join_multiline_values.
    cbn [_sections]. now rewrite (dict_mem_map_values join_options). }
  destruct (e st); exact H2.
Qed.

Lemma dict_mem_del_absent {V} (k n : string) (d : dict V) :
  dict_mem k d = false -> dict_mem k (dict_del n d) = false.
Proof.
  unfold dict_mem. induction d as [|[k' v'] r IH]; cbn [dict_get dict_del].
  - reflexivity.
  - destruct (String.eqb k' k) eqn:E; [discriminate|]. intros H.
    destruct (String.eqb k' n); [exact H|]. cbn [dict_get]. rewrite E.
    now apply IH.
Qed.

Lemma add_section_keeps section p :
  no_default_section p -> no_default_section (snd (add_section section p)).
Proof.
  unfold add_section, no_default_section, has_section. intros H.
  destruct (String.eqb_spec section default_section) as [E|Hne]; [exact H|].
  destruct (dict_mem section (_sections p)); [exact H|].
  cbn [snd _sections]. rewrite dict_mem_app_new, H. now apply String.eqb_neq.
Qed.

Lemma set_keeps section option value p :
  no_default_section p -> no_default_section (snd (set section option value p)).
Proof.
  unfold set, no_default_section, has_section. intros H.
  destruct (if is_empty value then Ok value else before_set value);
    [|exact H].
  destruct (_ || _); [exact H|].
  destruct (dict_get section (_sections p)) as [d|] eqn:E; [|exact H].
  cbn [snd _sections]. rewrite dict_mem_set_present; [exact H|].
  now apply (dict_get_mem _ _ d).
Qed.

Lemma read_dict_items_keeps section items : forall added p,
  no_default_section p ->
  no_default_section (snd (read_dict_items section added items p)).
Proof.
  induction items as [|[key value] r IH]; intros added p H; [exact H|].
  cbn [read_dict_items]. destruct (existsb _ _); [exact H|].
  unfold bind.
  pose proof (set_keeps section (optionxform key) value p H) as H1.
  destruct (set section (optionxform key) value p) as [[u|ex] p1];
    cbn [snd] in *; [now apply IH | exact H1].
Qed.

Lemma setitem_keeps key items p :
  no_default_section p -> no_default_section (snd (setitem key items p)).
Proof.
  intros H. unfold setitem, read_dict.
  match goal with
  | |- context [add_section key ?q] =>
      assert (Hq : no_default_section q); [| pose proof (add_section_keeps key q Hq) as Ha;
        destruct (add_section key q) as [[u|ex] p1]; cbn [snd] in Ha;
        now apply read_dict_items_keeps]
  end.
  destruct (String.eqb key default_section); [exact H|].
  destruct (dict_mem key (_sections p)) eqn:E; [|exact H].
  unfold no_default_section, has_section. cbn [_sections].
  now rewrite dict_mem_set_present.
Qed.

Lemma remove_section_keeps name p :
  no_default_section p -> no_default_section (snd (remove_section name p)).
Proof.
  unfold remove_section, no_default_section, has_section. intros H. cbn [snd].
  destruct (dict_mem name (_sections p)); [|exact H].
  cbn [_sections]. now apply dict_mem_del_absent.
Qed.

(** The stores the class can reach hold no section named DEFAULT: a new
    store does not, and every method keeps it so. *)
Lemma no_default_section_kept name host user password s :
  no_default_section (config s) ->
  no_default_section (config (snd (get_connections s)))
  /\ no_default_section (config (snd (save_connection name host user password s)))
  /\ no_default_section (config (snd (load_connection name s)))
  /\ no_default_section (config (snd (delete_connection name s))).
Proof.
  intros H.
  pose proof (read_keeps (file s) (config s) H) as Hr.
  pose proof (setitem_keeps name (profile host user password) (config s) H) as Hs.
  unfold get_connections, save_connection, load_connection, delete_connection,
    read_config, _save_config, on_config, bind, ret, raise, get_state, modify,
    profile in *.
  cbn [config file] in *.
  destruct (read (file s) (config s)) as [[u|ex] p1]; cbn [snd config] in *.
  - repeat split; try exact Hr.
    + destruct (setitem _ _ _) as [[u'|ex] p2]; exact Hs.
    + destruct (ConfigParser.contains p1 name); [|exact Hr].
      destruct (section_dict p1 name); exact Hr.
    + destruct (ConfigParser.contains p1 name); [|exact Hr].
      cbn [config file].
      pose proof (remove_section_keeps name p1 Hr) as Hd.
      destruct (remove_section name p1) as [[b|ex] p2]; exact Hd.
  - repeat split; try exact Hr.
    destruct (setitem _ _ _) as [[u'|ex'] p2]; exact Hs.
Qed.

Lemma no_default_section_init file :
  no_default_section (config (snd (init file))).
Proof. destruct file; reflexivity. Qed.

(** C5, as the code has it.  [get_connections] never lists the section
    named DEFAULT; on a store that has just created its file it returns
    the one profile the initialisation writes, "Conexao_Exemplo", and no
    error. *)
Theorem get_connections_excludes_default :
  (forall s names s',
      get_connections s = (Ok names, s') -> ~ In "DEFAULT" names)
  /\ fst (get_connections first_run) = Ok ["Conexao_Exemplo"].
Proof.
  split; [|reflexivity].
  intros s names s' H. unfold get_connections, read_config, bind, get_state,
    ret, on_config in H.
  destruct (read (file s) (config s)) as [[u|ex] p]; [|discriminate H].
  inversion H; subst. intros Hin. apply filter_In in Hin.
  destruct Hin as [_ Hne]. discriminate Hne.
Qed.

Lemma get_connections_excludes_default_witness :
  ~ In "DEFAULT" ["A"; "B"]
  /\ fst (get_connections (opened_on file_with_A_B)) = Ok ["A"; "B"].
Proof.
  split; [|reflexivity].
  apply (proj1 get_connections_excludes_default
           (opened_on file_with_A_B) ["A"; "B"]
           (snd (get_connections (opened_on file_with_A_B)))).
  reflexivity.
Defined.

(** C5 as stated fails: the listing of a store that has just initialised
    itself is not empty, it holds the example section. *)
Lemma get_connections_fresh_store_counterexample :
  file first_run
  = Some (lines ["[Conexao_Exemplo]"; "host = "; "user = "; "password = "; ""])
  /\ fst (get_connections first_run) <> Ok []
  /\ exists names,
      fst (get_connections first_run) = Ok names /\ In example_section names.
Proof.
  split; [reflexivity|]. split; [discriminate|].
  exists ["Conexao_Exemplo"]. split; [reflexivity | now left].
Qed.

(** C10, as the code has it.  Deleting "DEFAULT" raises nothing: once
    the file is read, the membership test holds for that name whatever
    the store contains, [remove_section] finds no such section and
    removes nothing, the parser is written back and the call returns
    [True]. *)
Theorem delete_default_returns_true :
  forall s p',
    no_default_section (config s) ->
    read (file s) (config s) = (Ok tt, p') ->
    delete_connection "DEFAULT" s = (Ok true, mk p' (Some (write p'))).
Proof.
  intros s p' Hn Hr.
  pose proof (read_keeps (file s) (config s) Hn) as Hn'.
  rewrite Hr in Hn'. cbn [snd] in Hn'.
  unfold delete_connection, read_config, bind, get_state, ret, on_config,
    _save_config, modify.
  rewrite Hr. cbn [config file].
  assert (Hc : ConfigParser.contains p' "DEFAULT" = true) by reflexivity.
  rewrite Hc. cbn [config file]. unfold remove_section.
  unfold no_default_section, has_section, default_section in Hn'.
  now rewrite Hn'.
Qed.

Lemma delete_default_returns_true_witness :
  no_default_section (config first_run)
  /\ delete_connection "DEFAULT" first_run = (Ok true, first_run).
Proof.
  split; [reflexivity|].
  apply (delete_default_returns_true first_run (config first_run)); reflexivity.
Defined.

(** C10 as stated fails: the call returns [True], it does not raise. *)
Lemma delete_default_counterexample :
  fst (delete_connection "DEFAULT" first_run) = Ok true
  /\ (forall ex, fst (delete_connection "DEFAULT" first_run) <> Raise ex)
  /\ fst (load_connection "DEFAULT" (snd (delete_connection "DEFAULT" first_run)))
     = Ok (Some []).
Proof.
  split; [reflexivity|]. split; [discriminate | reflexivity].
Qed.

(** C6 on the code.  [save_connection] writes the parser held in memory
    without reading the file first, so what it leaves on disk does not
    depend on what the file held.  On a store opened on a file that
    holds [A], saving [C] leaves a file with [C] only; when [B] is added
    to the file behind a store that has read [A], saving [C] leaves [A]
    and [C] and loses [B].  [delete_connection] does read first: the same
    edit survives it. *)
Theorem save_connection_writes_stale_copy :
  (forall name host user password text s,
      let edited := save_connection name host user password (external_edit text s) in
      let plain := save_connection name host user password s in
      fst edited = fst plain
      /\ config (snd edited) = config (snd plain)
      /\ file (snd edited) =
         match fst plain with
         | Ok _ => file (snd plain)
         | Raise _ => Some text
         end)
  /\ fst (load_connection "A" (opened_on file_with_A))
     = Ok (Some (profile "h1" "u1" "p1"))
  /\ (let s1 := snd (save_connection "C" "h3" "u3" "p3" (opened_on file_with_A)) in
      file s1 = Some (lines ["[C]"; "host = h3"; "user = u3"; "password = p3"; ""])
      /\ fst (load_connection "A" s1) = Ok None)
  /\ (let s0 := snd (get_connections (opened_on file_with_A)) in
      let s1 := external_edit file_with_A_B s0 in
      let s2 := snd (save_connection "C" "h3" "u3" "p3" s1) in
      fst (load_connection "B" s1) = Ok (Some (profile "h2" "u2" "p2"))
      /\ file s2 = Some (lines ["[A]"; "host = h1"; "user = u1"; "password = p1"; "";
                                "[C]"; "host = h3"; "user = u3"; "password = p3"; ""])
      /\ fst (load_connection "B" s2) = Ok None
      /\ file (snd (delete_connection "A" s1)) = Some file_with_B).
Proof.
  split; [| repeat split].
  intros name host user password text s.
  unfold save_connection, external_edit, on_config, _save_config, bind, modify.
  cbn [config file].
  destruct (setitem _ _ _) as [[u|ex] p]; repeat split.
Qed.

(** C7 on the code.  A password holding a percent sign does not survive:
    "100%" makes [save_connection] raise [ValueError] after host and user
    were stored in memory, nothing is written, and loading the name then
    yields a profile without password; "p%%w" is saved and loads as
    "p%w".  A profile free of such characters loads as saved and is gone
    once deleted. *)
Theorem save_load_percent_password :
  (let run := save_connection "prod" "db" "root" "100%" first_run in
   fst run = Raise (ValueError "invalid interpolation syntax")
   /\ file (snd run) = file first_run
   /\ fst (load_connection "prod" (snd run))
      = Ok (Some [("host", "db"); ("user", "root")]))
  /\ (let run := save_connection "prod" "db" "root" "p%%w" first_run in
      fst run = Ok tt
      /\ fst (load_connection "prod" (snd run)) = Ok (Some (profile "db" "root" "p%w")))
  /\ (let s1 := snd (save_connection "prod" "db" "root" "s3cret" first_run) in
      fst (load_connection "prod" s1) = Ok (Some (profile "db" "root" "s3cret"))
      /\ fst (delete_connection "prod" s1) = Ok true
      /\ fst (load_connection "prod" (snd (delete_connection "prod" s1))) = Ok None).
Proof. repeat split. Qed.

End ConnectionManagerFacts.

(** * Further properties *)

(** ** Sessions: reconnection, queries, repeated disconnection *)

Module SessionExtras.

Import DatabaseConnection Reference Readback.

Local Open Scope list_scope.

Section Facts.

Context {World Conn Cur : Type} (D : Driver World Conn Cur).

Ltac run_methods :=
  unfold connect, disconnect, execute_query, get_server_info,
    except_mysql_error, do_connect, do_close, do_cursor, do_execute,
    do_fetchone, do_fetchall, the_cursor, call, set_connection, set_cursor,
    set_is_connected, bind, ret, raise, get_state, modify in *;
  cbn [self world trace connection cursor is_connected fst snd negb] in *.

Ltac split_driver :=
  match goal with
  | |- context [match ?x with _ => _ end] =>
      lazymatch x with
      | context [match _ with _ => _ end] => fail
      | _ => destruct x eqn:?
      end;
      cbn [self world trace connection cursor is_connected fst snd negb] in *
  end.

(** X1.  A second [disconnect] changes nothing: it asks nothing more of
    the driver and leaves the session as the first one left it; and one
    [disconnect] asks for at most one close. *)
Theorem disconnect_twice :
  forall (s : state World Conn Cur),
    disconnect D (snd (disconnect D s)) = (Ok tt, snd (disconnect D s))
    /\ length (closed_connections (trace (snd (disconnect D s))))
       <= S (length (closed_connections (trace s))).
Proof.
  intros [[conn cur ic] w tr]. run_methods.
  destruct conn as [c|]; cbn [fst snd trace]; repeat split; try lia.
  induction tr as [|ev tr IH]; cbn [app closed_connections length]; [lia|].
  destruct ev; cbn [length]; lia.
Qed.

(** X2.  Reconnecting a session that is marked connected first closes
    the connection it holds, once, and only then makes the first
    attempt. *)
Theorem reconnect_closes_previous_first :
  forall host user password port (s : state World Conn Cur) c,
    is_connected (self s) = true ->
    connection (self s) = Some c ->
    exists evs,
      trace (snd (connect D host user password port s))
      = trace s ++ EClose c
          :: EConnect (connection_config host user password port) :: evs
      /\ closed_connections evs = [].
Proof.
  intros host user password port [[conn cur ic] w tr] c Hi Hc.
  cbn [self is_connected connection] in *. subst ic conn.
  run_methods. repeat split_driver;
    rewrite <- ?app_assoc; cbn [app]; eexists; split; reflexivity.
Qed.

(** X3.  A session that is not marked connected gets no close from
    [connect], whatever connection it still holds (one is left behind by
    a handshake whose version query failed): the held object is not
    closed before the new attempt. *)
Theorem connect_closes_nothing_when_unmarked :
  forall host user password port (s : state World Conn Cur),
    is_connected (self s) = false ->
    exists evs,
      trace (snd (connect D host user password port s)) = trace s ++ evs
      /\ closed_connections evs = [].
Proof.
  intros host user password port [[conn cur ic] w tr] Hi.
  cbn [self is_connected] in *. subst ic.
  run_methods. repeat split_driver;
    rewrite <- ?app_assoc; eexists; split; reflexivity.
Qed.

Lemma three_last {A} (l : list A) (a b c : A) :
  ((l ++ [a]) ++ [b]) ++ [c] = l ++ [a; b; c].
Proof. now rewrite <- !app_assoc. Qed.

(** X4.  When [connect] returns, it returns [True], the session is
    marked connected and holds a connection the driver returned for the
    secure or for the insecure configuration, with a cursor on it; the
    last things asked of the driver are that cursor, the version query
    on it and one fetch. *)
Theorem connect_success_state :
  forall host user password port (s s' : state World Conn Cur) b,
    connect D host user password port s = (Ok b, s') ->
    b = true
    /\ is_connected (self s') = true
    /\ exists c cur pre cfg w w',
        connection (self s') = Some c
        /\ cursor (self s') = Some cur
        /\ trace s' = pre ++ [ECursor c; EExecute cur "SELECT VERSION()"; EFetchone cur]
        /\ mysql_connect D cfg w = (Ok c, w')
        /\ In cfg [connection_config host user password port;
                   with_ssl_disabled (connection_config host user password port)].
Proof.
  intros host user password port [[conn cur ic] w tr] s' b H.
  revert H. run_methods.
  repeat split_driver; intros H; try discriminate H;
    inversion H; subst; clear H;
    (split; [reflexivity|]); (split; [reflexivity|]);
    cbn [self connection cursor trace];
    do 6 eexists;
    (split; [reflexivity|]); (split; [reflexivity|]);
    (split; [apply three_last|]);
    (split; [eassumption|]); cbn [In]; auto.
Qed.

(** X5.  On a connected session whose statement the server accepts and
    answers with a result set, [execute_query] sends the text as given,
    asks once for all rows and returns the column names and the rows as
    the driver reports them. *)
Theorem execute_query_returns_result_set :
  forall query (s : state World Conn Cur) cur w1 w2 column_names data,
    is_connected (self s) = true ->
    cursor (self s) = Some cur ->
    cur_execute D cur query (world s) = (Ok tt, w1) ->
    cur_description D cur w1 = Some column_names ->
    cur_fetchall D cur w1 = (Ok data, w2) ->
    execute_query D query s
    = (Ok (column_names, data),
       mkstate (self s) w2 (trace s ++ [EExecute cur query; EFetchall cur])).
Proof.
  intros query [[conn c ic] w tr] cur w1 w2 column_names data Hi Hc He Hd Hf.
  cbn [self world trace connection cursor is_connected] in *. subst ic c.
  run_methods. rewrite He.
  cbn [self world trace connection cursor is_connected fst snd negb].
  rewrite Hd.
  cbn [self world trace connection cursor is_connected fst snd negb].
  rewrite Hf. now rewrite <- app_assoc.
Qed.

(** X6.  A statement that produces no result set (the cursor has no
    description afterwards) is executed all the same; [execute_query]
    then raises [TypeError] and fetches nothing. *)
Theorem execute_query_without_result_set :
  forall query (s : state World Conn Cur) cur w1,
    is_connected (self s) = true ->
    cursor (self s) = Some cur ->
    cur_execute D cur query (world s) = (Ok tt, w1) ->
    cur_description D cur w1 = None ->
    execute_query D query s
    = (Raise TypeError, mkstate (self s) w1 (trace s ++ [EExecute cur query])).
Proof.
  intros query [[conn c ic] w tr] cur w1 Hi Hc He Hd.
  cbn [self world trace connection cursor is_connected] in *. subst ic c.
  run_methods. rewrite He.
  cbn [self world trace connection cursor is_connected fst snd negb].
  now rewrite Hd.
Qed.

(** X7.  Neither [execute_query] nor [get_server_info] changes the
    attributes of the session, whether it returns or raises: a query the
    server rejects leaves the session marked connected. *)
Theorem queries_keep_session :
  forall query (s : state World Conn Cur),
    self (snd (execute_query D query s)) = self s
    /\ self (snd (get_server_info D s)) = self s.
Proof.
  intros query [[conn cur ic] w tr]. split; run_methods;
    repeat split_driver; reflexivity.
Qed.

End Facts.

Import Samples MoreSamples.

Lemma reconnect_closes_previous_first_witness :
  exists evs,
    trace (snd (connect healthy "other.local" "root" "secret" 3306
                  (connected_to healthy)))
    = trace (connected_to healthy) ++ EClose 7
        :: EConnect (connection_config "other.local" "root" "secret" 3306) :: evs
    /\ closed_connections evs = [].
Proof.
  apply (reconnect_closes_previous_first healthy "other.local" "root" "secret"
           3306%Z (connected_to healthy) 7); reflexivity.
Defined.

(** X3 at the session a failed version query left behind: it holds
    connection 7, and the next [connect] closes nothing. *)
Lemma connect_closes_nothing_when_unmarked_witness :
  connection (self half_done) = Some 7
  /\ exists evs,
      trace (snd (connect healthy "db.local" "root" "secret" 3306 half_done))
      = trace half_done ++ evs
      /\ closed_connections evs = [].
Proof.
  split; [reflexivity|].
  apply (connect_closes_nothing_when_unmarked healthy "db.local" "root" "secret"
           3306%Z half_done). reflexivity.
Defined.

Lemma connect_success_state_witness :
  is_connected (self (connected_to no_tls)) = true
  /\ exists c cur pre cfg w w',
      connection (self (connected_to no_tls)) = Some c
      /\ cursor (self (connected_to no_tls)) = Some cur
      /\ trace (connected_to no_tls)
         = pre ++ [ECursor c; EExecute cur "SELECT VERSION()"; EFetchone cur]
      /\ mysql_connect no_tls cfg w = (Ok c, w')
      /\ In cfg [connection_config "db.local" "root" "secret" 3306;
                 with_ssl_disabled (connection_config "db.local" "root" "secret" 3306)].
Proof.
  apply (connect_success_state no_tls "db.local" "root" "secret" 3306%Z
           fresh (connected_to no_tls) true). reflexivity.
Defined.

(** X5 at the query [SELECT 1] answered with one column named 1 and the
    row (1,). *)
Lemma execute_query_returns_result_set_witness :
  fst (execute_query (answering (Some ["1"]) [[VInt 1]]) "SELECT 1"
         (connected_to (answering (Some ["1"]) [[VInt 1]])))
  = Ok (["1"], [[VInt 1]]).
Proof.
  rewrite (execute_query_returns_result_set
             (answering (Some ["1"]) [[VInt 1]]) "SELECT 1"
             (connected_to (answering (Some ["1"]) [[VInt 1]]))
             7 tt tt ["1"] [[VInt 1]]); reflexivity.
Defined.

(** X6 at an UPDATE statement. *)
Lemma execute_query_without_result_set_witness :
  execute_query (answering None []) "UPDATE t SET n = 1"
    (connected_to (answering None []))
  = (Raise TypeError,
     mkstate (self (connected_to (answering None []))) tt
       (trace (connected_to (answering None []))
        ++ [EExecute 7 "UPDATE t SET n = 1"])).
Proof.
  apply (execute_query_without_result_set (answering None [])
           "UPDATE t SET n = 1" (connected_to (answering None [])) 7 tt);
    reflexivity.
Defined.

End SessionExtras.

(** ** Exported statements: lines and literals *)

Module ExportExtras.

Import PyStr Reference Readback DataExporter.

Lemma concat_app_strings (l1 l2 : list string) :
  String.concat "" (l1 ++ l2)%list = String.concat "" l1 ++ String.concat "" l2.
Proof.
  induction l1 as [|x l1 IH]; [reflexivity|].
  destruct l1 as [|y l1].
  - cbn [app String.concat]. destruct l2 as [|z l2].
    + cbn. now rewrite PyStrFacts.append_nil_r.
    + reflexivity.
  - change (String.concat "" ((x :: y :: l1) ++ l2)%list)
      with (x ++ "" ++ String.concat "" ((y :: l1) ++ l2)%list).
    rewrite IH.
    change (String.concat "" (x :: y :: l1))
      with (x ++ "" ++ String.concat "" (y :: l1)).
    cbn [append]. now rewrite PyStrFacts.append_assoc.
Qed.

Lemma concat_cons_strings (x : string) (l : list string) :
  String.concat "" (x :: l) = x ++ String.concat "" l.
Proof. apply (concat_app_strings [x] l). Qed.

Lemma count_char_app c a b :
  count_char c (a ++ b) = count_char c a + count_char c b.
Proof.
  induction a as [|x a IH]; cbn [append count_char]; [reflexivity|].
  rewrite IH. lia.
Qed.

Lemma count_char_no_blank s :
  no_blank isspace s = true -> count_char LF s = 0.
Proof.
  induction s as [|c r IH]; cbn [no_blank count_char]; [reflexivity|].
  intros H. apply andb_true_iff in H. destruct H as [Hc Hr].
  rewrite (IH Hr). destruct (Ascii.eqb_spec LF c) as [<-|]; [discriminate Hc|reflexivity].
Qed.

Lemma count_char_digits s : all_digits s = true -> count_char LF s = 0.
Proof.
  intros H. apply count_char_no_blank.
  now apply PyStrFacts.all_digits_no_blank; [left|].
Qed.

Lemma all_digits_app a b :
  all_digits a = true -> all_digits b = true -> all_digits (a ++ b) = true.
Proof.
  induction a as [|c a IH]; cbn [append all_digits]; [auto|].
  intros H Hb. apply andb_true_iff in H. destruct H as [Hc Ha].
  now rewrite Hc, (IH Ha Hb).
Qed.

Lemma all_digits_zeros k :
  all_digits (String.concat "" (repeat "0" k)) = true.
Proof.
  induction k as [|k IH]; [reflexivity|].
  cbn [repeat]. rewrite concat_cons_strings. exact IH.
Qed.

Lemma all_digits_unpadded n : all_digits (unpadded n) = true.
Proof.
  unfold unpadded, NilZero.string_of_uint.
  destruct (Nat.to_uint n) eqn:E; try reflexivity;
    rewrite <- E; apply PyStrFacts.all_digits_string_of_uint.
Qed.

Lemma all_digits_zero_pad w n : all_digits (zero_pad w n) = true.
Proof.
  unfold zero_pad. apply all_digits_app; [apply all_digits_zeros|].
  apply all_digits_unpadded.
Qed.

Lemma count_quotes_doubled s :
  count_char LF (quotes_doubled s) = count_char LF s.
Proof.
  induction s as [|c r IH]; [reflexivity|].
  cbn [quotes_doubled]. destruct (Ascii.eqb_spec c "'") as [->|Hne].
  - cbn [count_char]. rewrite IH. reflexivity.
  - cbn [count_char]. now rewrite IH.
Qed.

(** A rendered value holds the line feeds of the text it carries and no
    other. *)
Lemma count_format_value v :
  count_char LF (format_value v) = count_char LF (free_text v).
Proof.
  destruct v as [|s|t|d|z|b|s]; cbn [format_value free_text py_str].
  - reflexivity.
  - rewrite DataExporterFacts.replace_quote.
    change ("'" ++ quotes_doubled s ++ "'")
      with (String "'" (quotes_doubled s ++ "'")).
    cbn [count_char]. rewrite count_char_app, count_quotes_doubled.
    cbn [count_char].
    assert (HLF : Ascii.eqb LF "'" = false) by reflexivity.
    rewrite !HLF. lia.
  - rewrite DataExporterFacts.strftime_datetime.
    repeat (rewrite ?count_char_app;
            rewrite ?(count_char_digits _ (all_digits_unpadded _));
            rewrite ?(count_char_digits _ (all_digits_zero_pad _ _))).
    reflexivity.
  - rewrite DataExporterFacts.strftime_date.
    repeat (rewrite ?count_char_app;
            rewrite ?(count_char_digits _ (all_digits_unpadded _));
            rewrite ?(count_char_digits _ (all_digits_zero_pad _ _))).
    reflexivity.
  - apply count_char_no_blank.
    now apply (PyStrFacts.str_of_int_shape isspace z); left.
  - now destruct b.
  - reflexivity.
Qed.

Lemma count_join l :
  count_char LF (join ", " l) = list_sum (map (count_char LF) l).
Proof.
  unfold join. induction l as [|x l IH]; [reflexivity|].
  destruct l as [|y l].
  - cbn [String.concat map]. unfold list_sum. cbn [fold_right]. lia.
  - change (String.concat ", " (x :: y :: l))
      with (x ++ ", " ++ String.concat ", " (y :: l)).
    rewrite !count_char_app, IH. cbn [map]. unfold list_sum. cbn [fold_right].
    assert (Hsep : count_char LF ", " = 0) by reflexivity. rewrite Hsep. lia.
Qed.

Lemma count_sql_insert table_name columns_str record :
  count_char LF (sql_insert table_name columns_str record)
  = 1 + count_char LF table_name + count_char LF columns_str
    + list_sum (map (fun v => count_char LF (free_text v)) record).
Proof.
  unfold sql_insert.
  repeat (rewrite ?count_char_app).
  rewrite count_join, map_map.
  rewrite (map_ext _ _ count_format_value).
  cbn. lia.
Qed.

(** X8.  The file [to_sql_insert] writes is empty for an empty result
    set and is the text for the first rows followed by the text for the
    others; it holds exactly one line feed per row as soon as the table
    name, the column names and the texts among the values hold none. *)
Theorem to_sql_insert_one_line_per_row :
  (forall columns table_name, to_sql_insert [] columns table_name = "")
  /\ (forall data1 data2 columns table_name,
        to_sql_insert (data1 ++ data2)%list columns table_name
        = to_sql_insert data1 columns table_name
          ++ to_sql_insert data2 columns table_name)
  /\ (forall data columns table_name,
        count_char LF table_name = 0 ->
        (forall c, In c columns -> count_char LF c = 0) ->
        (forall record v, In record data -> In v record ->
                          count_char LF (free_text v) = 0) ->
        count_char LF (to_sql_insert data columns table_name) = length data).
Proof.
  split; [reflexivity|]. split.
  - intros data1 data2 columns table_name. unfold to_sql_insert.
    now rewrite map_app, concat_app_strings.
  - intros data columns table_name Ht Hc Hv. unfold to_sql_insert.
    assert (Hcols : count_char LF (join ", " columns) = 0).
    { rewrite count_join. clear - Hc. induction columns as [|c l IH]; [reflexivity|].
      cbn [map list_sum]. rewrite (Hc c (or_introl eq_refl)).
      apply IH. intros c' Hin. apply Hc. now right. }
    induction data as [|record data IH]; [reflexivity|].
    cbn [map]. rewrite concat_cons_strings, count_char_app, IH.
    + rewrite count_sql_insert, Ht, Hcols.
      assert (Hr : list_sum (map (fun v => count_char LF (free_text v)) record) = 0).
      { assert (Hrec : forall v, In v record -> count_char LF (free_text v) = 0)
          by (intros v Hin; apply (Hv record v); [now left | exact Hin]).
        clear - Hrec. induction record as [|v r IHr]; [reflexivity|].
        cbn [map list_sum]. rewrite (Hrec v (or_introl eq_refl)).
        apply IHr. intros v' Hin. apply Hrec. now right. }
      rewrite Hr. cbn [length]. lia.
    + intros record' v Hin Hv'. apply (Hv record' v); [now right | exact Hv'].
Qed.

(** X8 at three rows with columns id and name and table t. *)
Lemma to_sql_insert_one_line_per_row_witness :
  count_char LF
    (to_sql_insert [[VInt 1; VStr "Ann"]; [VInt 2; VStr "O'Brien"]; [VInt 3; VNone]]
       ["id"; "name"] "t") = 3.
Proof.
  apply (proj2 (proj2 to_sql_insert_one_line_per_row)
           [[VInt 1; VStr "Ann"]; [VInt 2; VStr "O'Brien"]; [VInt 3; VNone]]
           ["id"; "name"] "t").
  - reflexivity.
  - intros c [<-|[<-|[]]]; reflexivity.
  - intros record v [<-|[<-|[<-|[]]]] [<-|[<-|[]]]; reflexivity.
Defined.

Lemma unquote_doubled s : unquote_body (quotes_doubled s ++ "'") = Some s.
Proof.
  induction s as [|c r IH]; [reflexivity|].
  cbn [quotes_doubled]. destruct (Ascii.eqb_spec c "'") as [->|Hne].
  - cbn [append unquote_body Ascii.eqb Bool.eqb]. cbn. now rewrite IH.
  - cbn [append unquote_body].
    destruct (Ascii.eqb_spec c "'") as [E|_]; [contradiction|].
    now rewrite IH.
Qed.

(** X9.  The literal written for a string reads back as that string by
    the standard rule (a doubled quote is one quote, the literal ends at
    the first quote that is not doubled, a backslash is a character like
    any other): the literal closes at its last character and nowhere
    before, whatever the string holds.  No string is written as NULL. *)
Theorem string_literal_reads_back :
  (forall s, sql_unquote (format_value (VStr s)) = Some s)
  /\ (forall s, format_value (VStr s) <> format_value VNone).
Proof.
  split.
  - intros s. cbn [format_value]. rewrite DataExporterFacts.replace_quote.
    change ("'" ++ quotes_doubled s ++ "'")
      with (String "'" (quotes_doubled s ++ "'")).
    cbn [sql_unquote]. rewrite Ascii.eqb_refl. apply unquote_doubled.
  - intros s. cbn [format_value]. discriminate.
Qed.

End ExportExtras.

(** ** Host field: what a successful parse tells *)

Module ParseExtras.

Import PyStr HawkDBApp.

Lemma rsplit1_some sep s a b :
  rsplit1 sep s = Some (a, b) ->
  s = a ++ String sep b /\ contains sep b = false.
Proof.
  revert a b. induction s as [|c r IH]; cbn [rsplit1]; [discriminate|].
  intros a b H. destruct (rsplit1 sep r) as [[a' b']|] eqn:E.
  - inversion H; subst. destruct (IH a' b eq_refl) as [-> Hb].
    split; [reflexivity | exact Hb].
  - destruct (Ascii.eqb_spec c sep) as [->|Hne]; [|discriminate H].
    inversion H; subst. split; [reflexivity|].
    destruct (contains sep b) eqn:Ec; [|reflexivity].
    exfalso. clear - E Ec. induction b as [|d b IHb]; [discriminate Ec|].
    cbn [rsplit1 contains] in *.
    destruct (rsplit1 sep b) as [[x y]|] eqn:Eb; [discriminate E|].
    destruct (Ascii.eqb_spec d sep) as [->|Hd]; [discriminate E|].
    apply orb_true_iff in Ec. destruct Ec as [Ec|Ec].
    + apply Ascii.eqb_eq in Ec. now subst.
    + now apply IHb.
Qed.

Lemma rstrip_with_idem sp s :
  rstrip_with sp (rstrip_with sp s) = rstrip_with sp s.
Proof.
  induction s as [|c r IH]; [reflexivity|].
  cbn [rstrip_with]. destruct (rstrip_with sp r) as [|d r'] eqn:E.
  - destruct (sp c) eqn:Ec; [reflexivity|]. cbn [rstrip_with]. now rewrite Ec.
  - cbn [rstrip_with]. cbn [rstrip_with] in IH. now rewrite IH.
Qed.

Lemma rstrip_with_head sp c r :
  sp c = false -> exists r', rstrip_with sp (String c r) = String c r'.
Proof.
  intros Hc. cbn [rstrip_with]. destruct (rstrip_with sp r).
  - rewrite Hc. now exists "".
  - eauto.
Qed.

Lemma lstrip_with_head sp s :
  lstrip_with sp s = "" \/ exists c r, lstrip_with sp s = String c r /\ sp c = false.
Proof.
  induction s as [|c r IH]; [now left|].
  cbn [lstrip_with]. destruct (sp c) eqn:Ec; [exact IH|].
  right. eauto.
Qed.

(** Stripping twice is stripping once. *)
Lemma strip_idem s : strip (strip s) = strip s.
Proof.
  unfold strip, lstrip, rstrip.
  destruct (lstrip_with_head isspace s) as [E|(c & r & E & Hc)]; rewrite E.
  - reflexivity.
  - destruct (rstrip_with_head isspace c r Hc) as [r' E']. rewrite E'.
    cbn [lstrip_with]. rewrite Hc. rewrite <- E'. apply rstrip_with_idem.
Qed.

(** X10.  Whatever [_parse_host_port] returns was read off the input:
    the host has no surrounding blanks; without a colon it is the
    stripped input and the port is 3306; with a colon the input splits
    at its last colon into a text whose stripped form is the host and a
    colon-free text that [int] reads as the port.  A port is therefore
    never defaulted when a colon is present. *)
Theorem parse_host_port_inverse :
  forall host_str host port,
    _parse_host_port host_str = Ok (host, port) ->
    strip host = host
    /\ ((contains ":" host_str = false
         /\ host = strip host_str /\ port = 3306%Z)
        \/ (exists a b,
               host_str = a ++ ":" ++ b
               /\ contains ":" b = false
               /\ host = strip a
               /\ int_of_str (strip b) = Some port)).
Proof.
  intros host_str host port H. unfold _parse_host_port in H.
  destruct (contains ":" host_str) eqn:Ec.
  - destruct (rsplit1 ":" host_str) as [[a b]|] eqn:Er; [|discriminate H].
    destruct (int_of_str (strip b)) as [n|] eqn:Ei; [|discriminate H].
    inversion H; subst. split; [apply strip_idem|]. right.
    destruct (rsplit1_some ":" host_str a b Er) as [Hs Hb].
    exists a, b. repeat split; assumption.
  - inversion H; subst. split; [apply strip_idem|]. left. now repeat split.
Qed.

(** X10 at an IPv6 literal given without port: its last group is taken
    for the port. *)
Lemma parse_host_port_inverse_witness :
  _parse_host_port "fe80::1" = Ok ("fe80:", 1%Z)
  /\ strip "fe80:" = "fe80:"
  /\ ((contains ":" "fe80::1" = false /\ "fe80:" = strip "fe80::1" /\ 1%Z = 3306%Z)
      \/ (exists a b,
             "fe80::1" = a ++ ":" ++ b
             /\ contains ":" b = false
             /\ "fe80:" = strip a
             /\ int_of_str (strip b) = Some 1%Z)).
Proof.
  split; [reflexivity|].
  apply (parse_host_port_inverse "fe80::1" "fe80:" 1%Z). reflexivity.
Defined.

End ParseExtras.

(** ** Stored profiles: what is written reads back *)

Module RoundTrip.

Import PyStr ConfigParser Plain.

Local Open Scope list_scope.

(** *** Dictionaries *)

Lemma dict_get_set_same {V} (k : string) (v : V) (d : dict V) :
  dict_get k (dict_set k v d) = Some v.
Proof.
  induction d as [|[k' v'] r IH]; cbn [dict_set dict_get].
  - now rewrite String.eqb_refl.
  - destruct (String.eqb k' k) eqn:E; cbn [dict_get].
    + now rewrite String.eqb_refl.
    + now rewrite E.
Qed.

Lemma dict_get_set_other {V} (k k' : string) (v : V) (d : dict V) :
  k <> k' -> dict_get k' (dict_set k v d) = dict_get k' d.
Proof.
  intros Hne. induction d as [|[k0 v0] r IH]; cbn [dict_set dict_get].
  - apply String.eqb_neq in Hne. now rewrite Hne.
  - destruct (String.eqb_spec k0 k) as [->|H0]; cbn [dict_get].
    + apply String.eqb_neq in Hne. now rewrite Hne.
    + now rewrite IH.
Qed.

Lemma dict_set_set {V} (k : string) (v1 v2 : V) (d : dict V) :
  dict_set k v2 (dict_set k v1 d) = dict_set k v2 d.
Proof.
  induction d as [|[k' v'] r IH]; cbn [dict_set].
  - now rewrite String.eqb_refl.
  - destruct (String.eqb k' k) eqn:E; cbn [dict_set].
    + now rewrite String.eqb_refl.
    + now rewrite E, IH.
Qed.

Lemma dict_set_same {V} (k : string) (v : V) (d : dict V) :
  dict_get k d = Some v -> dict_set k v d = d.
Proof.
  induction d as [|[k' v'] r IH]; cbn [dict_set dict_get]; [discriminate|].
  destruct (String.eqb_spec k' k) as [->|Hne].
  - now intros [= ->].
  - intros H. now rewrite IH.
Qed.

Lemma dict_set_new {V} (k : string) (v : V) (d : dict V) :
  dict_mem k d = false -> dict_set k v d = d ++ [(k, v)].
Proof.
  unfold dict_mem. induction d as [|[k' v'] r IH]; cbn [dict_set dict_get app].
  - reflexivity.
  - destruct (String.eqb k' k); [discriminate|]. intros H. now rewrite IH.
Qed.

Lemma dict_mem_get {V} (k : string) (d : dict V) :
  dict_mem k d = true <-> exists v, dict_get k d = Some v.
Proof.
  unfold dict_mem. destruct (dict_get k d); split; intros H; eauto;
    try discriminate. now destruct H.
Qed.

Lemma dict_mem_keys {V} (k : string) (d : dict V) :
  dict_mem k d = true <-> In k (dict_keys d).
Proof.
  unfold dict_mem, dict_keys.
  induction d as [|[k' v'] r IH]; cbn [dict_get map fst In].
  - split; [discriminate | contradiction].
  - destruct (String.eqb_spec k' k) as [->|Hne].
    + split; auto.
    + rewrite IH. split; [auto | intros [E|H]; [contradiction | exact H]].
Qed.

Lemma dict_keys_set {V} (k : string) (v : V) (d : dict V) :
  dict_keys (dict_set k v d)
  = if dict_mem k d then dict_keys d else dict_keys d ++ [k].
Proof.
  unfold dict_mem, dict_keys.
  induction d as [|[k' v'] r IH]; cbn [dict_set dict_get map fst app].
  - reflexivity.
  - destruct (String.eqb_spec k' k) as [->|Hne]; cbn [map fst].
    + reflexivity.
    + rewrite IH. now destruct (dict_get k r).
Qed.

Lemma dict_get_map {V} (f : V -> V) (k : string) (d : dict V) :
  dict_get k (map (fun kv => (fst kv, f (snd kv))) d)
  = option_map f (dict_get k d).
Proof.
  induction d as [|[k' v'] r IH]; cbn [dict_get map fst snd]; [reflexivity|].
  destruct (String.eqb k' k); [reflexivity | exact IH].
Qed.

Lemma map_dict_set {V} (f : V -> V) (k : string) (v : V) (d : dict V) :
  map (fun kv => (fst kv, f (snd kv))) (dict_set k v d)
  = dict_set k (f v) (map (fun kv => (fst kv, f (snd kv))) d).
Proof.
  induction d as [|[k' v'] r IH]; cbn [dict_set map fst snd]; [reflexivity|].
  destruct (String.eqb k' k); cbn [map fst snd]; [reflexivity | now rewrite IH].
Qed.

Lemma dict_update_snoc {V} (d e : dict V) (k : string) (v : V) :
  dict_update d (e ++ [(k, v)]) = dict_set k v (dict_update d e).
Proof. unfold dict_update. now rewrite fold_left_app. Qed.

(** Setting the entries of a dictionary with distinct keys into the
    empty dictionary, or into itself, gives that dictionary. *)
Lemma dict_update_build {V} (e : dict V) : forall d,
  NoDup (dict_keys (d ++ e)) -> dict_update d e = d ++ e.
Proof.
  induction e as [|[k v] e IH]; intros d Hnd.
  - unfold dict_update. cbn. now rewrite List.app_nil_r.
  - unfold dict_update in *. cbn [fold_left fst snd].
    assert (Hk : dict_mem k d = false).
    { destruct (dict_mem k d) eqn:E; [|reflexivity]. exfalso.
      apply dict_mem_keys in E. unfold dict_keys in Hnd.
      rewrite map_app in Hnd. cbn [map fst] in Hnd.
      apply NoDup_remove_2 in Hnd. apply Hnd, in_or_app. now left. }
    rewrite (dict_set_new k v d Hk), IH.
    + now rewrite <- List.app_assoc.
    + now rewrite <- List.app_assoc.
Qed.

Lemma dict_update_nil {V} (e : dict V) :
  NoDup (dict_keys e) -> dict_update [] e = e.
Proof. intros H. now rewrite (dict_update_build e []). Qed.

Lemma dict_update_self_gen {V} (e : dict V) : forall d,
  NoDup (dict_keys (d ++ e)) -> dict_update (d ++ e) e = d ++ e.
Proof.
  induction e as [|[k v] e IH]; intros d Hnd; [reflexivity|].
  unfold dict_update in *. cbn [fold_left fst snd].
  assert (Hs : dict_set k v (d ++ (k, v) :: e) = d ++ (k, v) :: e).
  { apply dict_set_same. clear IH.
    assert (Hk : dict_mem k d = false).
    { destruct (dict_mem k d) eqn:E; [|reflexivity]. exfalso.
      apply dict_mem_keys in E. unfold dict_keys in Hnd.
      rewrite map_app in Hnd. cbn [map fst] in Hnd.
      apply NoDup_remove_2 in Hnd. apply Hnd, in_or_app. now left. }
    clear Hnd. unfold dict_mem in Hk.
    induction d as [|[k' v'] d IHd]; cbn [app dict_get].
    - now rewrite String.eqb_refl.
    - cbn [dict_get] in Hk. destruct (String.eqb k' k); [discriminate|].
      now apply IHd. }
  rewrite Hs.
  replace (d ++ (k, v) :: e) with ((d ++ [(k, v)]) ++ e)
    by now rewrite <- List.app_assoc.
  apply IH. now rewrite <- List.app_assoc.
Qed.

Lemma dict_update_self {V} (e : dict V) :
  NoDup (dict_keys e) -> dict_update e e = e.
Proof. intros H. exact (dict_update_self_gen e [] H). Qed.

(** *** Stripping and lines *)

Local Open Scope string_scope.

Lemma snoc_nonempty (s : string) (c : ascii) :
  exists d r, s ++ String c "" = String d r.
Proof. destruct s; cbn [append]; eauto. Qed.

Lemma rstrip_with_snoc_nonblank sp s c :
  sp c = false -> rstrip_with sp (s ++ String c "") = s ++ String c "".
Proof.
  intros Hc. induction s as [|x s IH]; cbn [append rstrip_with].
  - now rewrite Hc.
  - rewrite IH. now destruct (snoc_nonempty s c) as (d & r & ->).
Qed.

Lemma rstrip_with_snoc_blank sp s c :
  sp c = true -> rstrip_with sp (s ++ String c "") = rstrip_with sp s.
Proof.
  intros Hc. induction s as [|x s IH]; cbn [append rstrip_with].
  - now rewrite Hc.
  - now rewrite IH.
Qed.

Lemma rstrip_with_app sp a b :
  rstrip_with sp (a ++ b)
  = match rstrip_with sp b with
    | "" => rstrip_with sp a
    | String c r => a ++ String c r
    end.
Proof.
  induction a as [|x a IH]; cbn [append rstrip_with].
  - now destruct (rstrip_with sp b).
  - rewrite IH. destruct (rstrip_with sp b) as [|c r]; [reflexivity|].
    now destruct a.
Qed.

Lemma lstrip_strip s : lstrip (strip s) = strip s.
Proof.
  unfold strip, lstrip, rstrip.
  destruct (ParseExtras.lstrip_with_head isspace s) as [E|(c & r & E & Hc)];
    rewrite E.
  - reflexivity.
  - destruct (ParseExtras.rstrip_with_head isspace c r Hc) as [r' E'].
    rewrite E'. cbn [lstrip_with]. now rewrite Hc.
Qed.

Lemma rstrip_strip s : rstrip (strip s) = strip s.
Proof. unfold strip, rstrip. apply ParseExtras.rstrip_with_idem. Qed.

Lemma plain_value_facts v :
  plain_value v = true ->
  PyStr.contains LF v = false /\ PyStr.contains CR v = false
  /\ strip v = v /\ rstrip v = v /\ lstrip v = v.
Proof.
  unfold plain_value, one_line. intros H.
  apply andb_true_iff in H. destruct H as [H1 H2].
  apply andb_true_iff in H1. destruct H1 as [Hlf Hcr].
  apply negb_true_iff in Hlf, Hcr. apply String.eqb_eq in H2.
  repeat split; try assumption.
  - pose proof (rstrip_strip v) as H. now rewrite H2 in H.
  - pose proof (lstrip_strip v) as H. now rewrite H2 in H.
Qed.

Lemma replace_line_feed (new v : string) :
  PyStr.contains LF v = false -> replace (String LF "") new v = v.
Proof.
  unfold replace. induction v as [|c r IH]; [reflexivity|].
  cbn [PyStr.contains replace_from String.prefix]. intros H.
  apply orb_false_iff in H. destruct H as [Hc Hr].
  destruct (ascii_dec LF c) as [E|_].
  - subst c. now rewrite Ascii.eqb_refl in Hc.
  - now rewrite (IH Hr).
Qed.

Lemma pieces_line (l rest : string) :
  one_line l = true -> pieces (l ++ String LF rest) = l :: pieces rest.
Proof.
  unfold one_line. induction l as [|c l IH]; intros H.
  - cbn [append pieces]. now rewrite Ascii.eqb_refl.
  - cbn [PyStr.contains] in H. apply andb_true_iff in H. destruct H as [H1 H2].
    apply negb_true_iff, orb_false_iff in H1, H2.
    destruct H1 as [Hc1 Hl1]. destruct H2 as [Hc2 Hl2].
    cbn [append pieces].
    rewrite Ascii.eqb_sym, Hc1, (Ascii.eqb_sym c CR), Hc2.
    rewrite IH; [reflexivity|]. now rewrite Hl1, Hl2.
Qed.

Lemma pieces_lines (ls : list string) :
  Forall (fun l => one_line l = true) ls ->
  pieces (Samples.lines ls) = (ls ++ [""])%list.
Proof.
  unfold Samples.lines. induction 1 as [|l ls Hl Hls IH]; [reflexivity|].
  cbn [map]. rewrite ExportExtras.concat_cons_strings.
  rewrite PyStrFacts.append_assoc. cbn [append].
  rewrite (pieces_line l _ Hl), IH. reflexivity.
Qed.

Lemma drop_last_empty_snoc (ls : list string) :
  drop_last_empty (ls ++ [""])%list = ls.
Proof.
  induction ls as [|l ls IH]; [reflexivity|].
  cbn [app drop_last_empty]. cbn [app] in IH.
  destruct (ls ++ [""])%list eqn:E.
  - now destruct ls.
  - now rewrite IH.
Qed.

(** The lines of a text made of LF-terminated lines are those lines. *)
Lemma file_lines_lines (ls : list string) :
  Forall (fun l => one_line l = true) ls ->
  file_lines (Samples.lines ls) = ls.
Proof.
  intros H. unfold file_lines. rewrite (pieces_lines ls H).
  apply drop_last_empty_snoc.
Qed.

Lemma lines_app (a b : list string) :
  Samples.lines (a ++ b)%list = Samples.lines a ++ Samples.lines b.
Proof.
  unfold Samples.lines. now rewrite map_app, ExportExtras.concat_app_strings.
Qed.

(** *** One line of a plain file *)

Lemma join_sections_get p n :
  dict_get n (_sections (_join_multiline_values p))
  = option_map join_options (dict_get n (_sections p)).
Proof. unfold _join_multiline_values. cbn [_sections]. apply dict_get_map. Qed.

Lemma join_sections_mem p n :
  dict_mem n (_sections (_join_multiline_values p)) = dict_mem n (_sections p).
Proof. unfold dict_mem. rewrite join_sections_get. now destruct (dict_get n _). Qed.

Lemma merge_section_present T n :
  dict_mem n (_sections T) = true -> merge_section T (n, []) = T.
Proof.
  intros H. apply dict_mem_get in H. destruct H as [old H].
  unfold merge_section. cbn [fst snd]. rewrite H.
  unfold dict_update. cbn [fold_left]. rewrite (dict_set_same n old _ H).
  now destruct T.
Qed.

Lemma merge_section_absent T n :
  dict_mem n (_sections T) = false ->
  merge_section T (n, []) = mk (_defaults T) (_sections T ++ [(n, [])])%list.
Proof.
  intros H. unfold merge_section. cbn [fst snd].
  assert (Hg : dict_get n (_sections T) = None).
  { unfold dict_mem in H. now destruct (dict_get n (_sections T)). }
  rewrite Hg. unfold dict_update. cbn [fold_left]. now rewrite dict_set_new.
Qed.

Lemma strip_header n :
  strip (String "[" (n ++ "]")) = String "[" (n ++ "]").
Proof.
  unfold strip, lstrip, rstrip. cbn [lstrip_with].
  assert (H : isspace "[" = false) by reflexivity. rewrite H.
  change (String "[" (n ++ "]")) with (String "[" n ++ String "]" "").
  now apply rstrip_with_snoc_nonblank.
Qed.

Lemma sectcre_header n :
  is_empty n = false ->
  sectcre_match (String "[" (n ++ "]")) = Some n.
Proof.
  intros H. unfold sectcre_match.
  rewrite (PyStrFacts.rsplit1_app "]" n "" eq_refl).
  destruct n; [discriminate H | reflexivity].
Qed.

Lemma existsb_absent (x : string) (l : list string) :
  ~ In x l -> existsb (String.eqb x) l = false.
Proof.
  intros H. destruct (existsb (String.eqb x) l) eqn:E; [|reflexivity].
  exfalso. apply existsb_exists in E. destruct E as (y & Hy & Heq).
  apply String.eqb_eq in Heq. now subst.
Qed.

Lemma plain_name_facts n :
  plain_name n = true ->
  is_empty n = false /\ one_line n = true /\ n <> default_section.
Proof.
  unfold plain_name. intros H.
  apply andb_true_iff in H. destruct H as [H Hd].
  apply andb_true_iff in H. destruct H as [He Hl].
  repeat split; [| exact Hl |].
  - now apply negb_true_iff in He.
  - apply negb_true_iff in Hd. now apply String.eqb_neq.
Qed.

Lemma not_continued st value :
  match continued_option st with
  | Some k =>
      if (indent_level st <? 0)%nat
      then cursect_append k value st
      else header_or_option value 0 st
  | None => header_or_option value 0 st
  end = header_or_option value 0 st.
Proof.
  destruct (continued_option st); [|reflexivity].
  now destruct (indent_level st).
Qed.

(** The header of a section not met before opens that section. *)
Lemma header_step st T prev n :
  between_sections st T prev ->
  plain_name n = true ->
  ~ In n prev ->
  exists st',
    read_line ("[" ++ n ++ "]") st = (Ok tt, st')
    /\ inside_section st' T prev n [].
Proof.
  intros (HT & Hopt & He & Has & Hao) Hn Hnew.
  destruct (plain_name_facts n Hn) as (Hne & Hl & Hd).
  change ("[" ++ n ++ "]") with (String "[" (n ++ "]")).
  unfold read_line. rewrite strip_header.
  assert (Hc : PyStr.startswith "#" (String "[" (n ++ "]"))
               || PyStr.startswith ";" (String "[" (n ++ "]")) = false)
    by reflexivity.
  rewrite Hc. cbn [is_empty leading_spaces].
  assert (Hsp : isspace "[" = false) by reflexivity. rewrite Hsp.
  rewrite not_continued.
  unfold header_or_option. rewrite (sectcre_header n Hne).
  destruct (dict_mem n (_sections (parser st))) eqn:Em.
  - rewrite existsb_absent by (intros Hin; apply Hnew; now apply Has).
    eexists. split; [reflexivity|].
    unfold inside_section; cbn [cursect sectname parser optname e
                                added_sections added_options].
    repeat split; try assumption.
    + rewrite merge_section_present; [exact HT|].
      rewrite <- HT. now rewrite join_sections_mem.
    + discriminate.
    + intros x [<-|Hx]; [now right | left; now apply Has].
    + intros a b Hab. left. now apply (Hao a b).
  - apply String.eqb_neq in Hd. rewrite Hd.
    eexists. split; [reflexivity|].
    unfold inside_section; cbn [cursect sectname parser optname e
                                added_sections added_options].
    repeat split; try assumption.
    + rewrite merge_section_absent.
      * rewrite <- HT. unfold _join_multiline_values. cbn [_defaults _sections].
        now rewrite map_app.
      * rewrite <- HT. now rewrite join_sections_mem.
    + discriminate.
    + intros x [<-|Hx]; [now right | left; now apply Has].
    + intros a b Hab. left. now apply (Hao a b).
Qed.

Lemma no_blank_contains c s :
  isspace c = true -> no_blank isspace s = true -> PyStr.contains c s = false.
Proof.
  intros Hc. induction s as [|d r IH]; cbn [no_blank PyStr.contains]; [reflexivity|].
  intros H. apply andb_true_iff in H. destruct H as [Hd Hr].
  rewrite (IH Hr), orb_false_r.
  destruct (Ascii.eqb_spec c d) as [<-|]; [|reflexivity].
  now rewrite Hc in Hd.
Qed.

Lemma plain_key_facts k :
  plain_key k = true ->
  (exists c r, k = String c r
               /\ Ascii.eqb c "[" = false /\ Ascii.eqb c "#" = false
               /\ Ascii.eqb c ";" = false /\ isspace c = false)
  /\ no_blank isspace k = true
  /\ PyStr.contains "=" k = false /\ PyStr.contains ":" k = false
  /\ lower k = k.
Proof.
  unfold plain_key. intros H.
  repeat (apply andb_true_iff in H; let H' := fresh "H" in destruct H as [H H']).
  apply String.eqb_eq in H0. apply negb_true_iff in H1, H2.
  repeat split; try assumption.
  destruct k as [|c r]; [discriminate H|]. exists c, r.
  repeat (apply andb_true_iff in H; let H' := fresh "H" in destruct H as [H H']).
  apply negb_true_iff in H, H4, H5.
  cbn [no_blank] in H3. apply andb_true_iff in H3. destruct H3 as [H3 _].
  apply negb_true_iff in H3. now repeat split.
Qed.

Lemma strip_option_line k v :
  plain_key k = true -> plain_value v = true ->
  strip (k ++ " = " ++ v)
  = k ++ " =" ++ (if is_empty v then "" else " " ++ v).
Proof.
  intros Hk Hv.
  destruct (plain_key_facts k Hk) as ((c & r & -> & _ & _ & _ & Hsp) & _).
  destruct (plain_value_facts v Hv) as (_ & _ & _ & Hr & _).
  unfold strip, lstrip, rstrip in *. cbn [append lstrip_with]. rewrite Hsp.
  change (String c (r ++ String " " (String "=" (String " " v))))
    with (String c r ++ (" = " ++ v)).
  rewrite rstrip_with_app, (rstrip_with_app isspace " = " v), Hr.
  destruct v as [|d v']; reflexivity.
Qed.

Lemma split_delim_key k w :
  PyStr.contains "=" k = false -> PyStr.contains ":" k = false ->
  split_delim (k ++ String " " (String "=" w)) = Some (k ++ " ", w).
Proof.
  induction k as [|c r IH]; intros He Hc; [reflexivity|].
  cbn [PyStr.contains] in He, Hc.
  apply orb_false_iff in He, Hc. destruct He as [He1 He2], Hc as [Hc1 Hc2].
  cbn [append split_delim].
  rewrite Ascii.eqb_sym, He1, (Ascii.eqb_sym c ":"), Hc1. cbn [orb].
  now rewrite (IH He2 Hc2).
Qed.

Lemma sectcre_none c r :
  Ascii.eqb c "[" = false -> sectcre_match (String c r) = None.
Proof.
  intros H. unfold sectcre_match.
  destruct c as [[] [] [] [] [] [] [] []]; try reflexivity; discriminate H.
Qed.

Lemma startswith_none p c r :
  Ascii.eqb c p = false -> PyStr.startswith (String p "") (String c r) = false.
Proof.
  intros H. unfold PyStr.startswith. cbn [String.prefix].
  destruct (ascii_dec p c) as [->|_]; [|reflexivity].
  now rewrite Ascii.eqb_refl in H.
Qed.

Lemma join_cursect_set st n k x d :
  cursect st = CurSection n ->
  dict_get n (_sections (parser st)) = Some d ->
  _join_multiline_values (cursect_set st k x)
  = mk (_defaults (_join_multiline_values (parser st)))
       (dict_set n (dict_set k (join_value x) (join_options d))
                 (_sections (_join_multiline_values (parser st)))).
Proof.
  intros Hc Hd. unfold cursect_set. rewrite Hc, Hd.
  unfold _join_multiline_values. cbn [_defaults _sections].
  rewrite (map_dict_set join_options). unfold join_options at 2.
  now rewrite (map_dict_set join_value).
Qed.

Lemma cursect_get_set st n k x d :
  cursect st = CurSection n ->
  dict_get n (_sections (parser st)) = Some d ->
  cursect_get (with_parser st (cursect_set st k x)) k = Some x.
Proof.
  intros Hc Hd. unfold cursect_get, with_parser, cursect_set.
  cbn [cursect parser]. rewrite Hc, Hd. cbn [_sections].
  now rewrite dict_get_set_same, dict_get_set_same.
Qed.

Lemma inside_section_dict st T0 prev n done :
  inside_section st T0 prev n done ->
  exists d,
    dict_get n (_sections (parser st)) = Some d
    /\ join_options d
       = dict_update match dict_get n (_sections T0) with
                     | Some old => old
                     | None => []
                     end done.
Proof.
  intros (_ & _ & HT & _).
  pose proof (join_sections_get (parser st) n) as Hg.
  rewrite HT in Hg. unfold merge_section in Hg. cbn [_sections fst snd] in Hg.
  rewrite dict_get_set_same in Hg.
  destruct (dict_get n (_sections (parser st))) as [d|]; [|discriminate Hg].
  exists d. split; [reflexivity|]. now inversion Hg.
Qed.

Lemma pair_absent (n k : string) (l : list (string * string)) :
  (forall a b, In (a, b) l -> a <> n \/ b <> k) ->
  existsb (pair_eqb (n, k)) l = false.
Proof.
  intros H. destruct (existsb (pair_eqb (n, k)) l) eqn:E; [|reflexivity].
  exfalso. apply existsb_exists in E. destruct E as ([a b] & Hin & Heq).
  unfold pair_eqb in Heq. cbn [fst snd] in Heq.
  apply andb_true_iff in Heq. destruct Heq as [H1 H2].
  apply String.eqb_eq in H1, H2. subst.
  destruct (H _ _ Hin); congruence.
Qed.

(** An option line sets that option in the open section. *)
Lemma option_step st T0 prev n done k v :
  inside_section st T0 prev n done ->
  plain_key k = true -> plain_value v = true ->
  ~ In k (dict_keys done) -> ~ In n prev ->
  exists st',
    read_line (k ++ " = " ++ v) st = (Ok tt, st')
    /\ inside_section st' T0 prev n (done ++ [(k, OStr v)])%list.
Proof.
  intros Hin Hk Hv Hnew Hn.
  destruct (inside_section_dict _ _ _ _ _ Hin) as (d & Hd & Hjd).
  destruct Hin as (Hcur & Hsect & HT & Hopt & He & Has & Hao).
  destruct (plain_key_facts k Hk)
    as ((c & r & Ek & Hbr & Hhash & Hsemi & Hsp) & Hnb & Heq & Hcol & Hlow).
  destruct (plain_value_facts v Hv) as (_ & _ & Hs & Hr & Hl).
  unfold read_line. rewrite (strip_option_line k v Hk Hv).
  set (w := if is_empty v then "" else " " ++ v).
  assert (Hline : k ++ " =" ++ w = String c (r ++ " =" ++ w)) by now rewrite Ek.
  rewrite Hline.
  rewrite (startswith_none "#" c _ Hhash), (startswith_none ";" c _ Hsemi).
  cbn [orb is_empty].
  assert (Hlead : leading_spaces (k ++ " = " ++ v) = 0).
  { rewrite Ek. cbn [append leading_spaces]. now rewrite Hsp. }
  rewrite Hlead, not_continued.
  unfold header_or_option. rewrite (sectcre_none c _ Hbr), Hcur.
  rewrite <- Hline.
  unfold optcre_match.
  change (k ++ " =" ++ w) with (k ++ String " " (String "=" w)).
  rewrite (split_delim_key k w Heq Hcol).
  assert (Hrk : PyStr.rstrip (k ++ " ") = k).
  { unfold rstrip. rewrite rstrip_with_snoc_blank by reflexivity.
    now apply PyStrFacts.rstrip_with_id. }
  rewrite Hrk.
  assert (Hrk2 : PyStr.rstrip k = k)
    by (unfold rstrip; now apply PyStrFacts.rstrip_with_id).
  rewrite Hrk2. unfold optionxform. rewrite Hlow.
  assert (Hke : is_empty k = false) by now rewrite Ek.
  rewrite Hke, He. cbn [orb].
  assert (Hval : PyStr.strip (PyStr.lstrip w) = v).
  { subst w. destruct v as [|x v']; [reflexivity|].
    cbn [is_empty].
    assert (Hb : PyStr.lstrip (" " ++ String x v') = PyStr.lstrip (String x v'))
      by reflexivity.
    now rewrite Hb, Hl. }
  rewrite Hval, Hsect.
  rewrite pair_absent.
  2:{ intros a b Hab. destruct (Hao a b Hab) as [Ha|[-> Hb]].
      - left. intros ->. contradiction.
      - right. intros ->. contradiction. }
  eexists. split; [reflexivity|].
  unfold inside_section. cbn [cursect sectname parser optname e
                              added_sections added_options].
  repeat split; try assumption.
  - rewrite (join_cursect_set st n k _ d Hcur Hd), HT, Hjd.
    unfold merge_section. cbn [_defaults _sections fst snd].
    rewrite dict_set_set, dict_update_snoc.
    cbn [join_value PyStr.join String.concat]. fold (rstrip v). now rewrite Hr.
  - intros k' [= <-].
    exists [v]. unfold cursect_get. cbn [cursect parser].
    unfold cursect_set. rewrite Hcur, Hd. cbn [_sections].
    now rewrite !dict_get_set_same.
  - intros a b [[= <- <-]|Hab].
    + right. split; [reflexivity|].
      unfold dict_keys. rewrite map_app. apply in_or_app. right. now left.
    + destruct (Hao a b Hab) as [Ha|[-> Hb]]; [now left|].
      right. split; [reflexivity|].
      unfold dict_keys in *. rewrite map_app. apply in_or_app. now left.
Qed.

Lemma continued_optname st k :
  continued_option st = Some k -> optname st = Some k.
Proof.
  unfold continued_option. destruct (cursect st), (optname st) as [[|c r]|];
    intros H; try discriminate H; now inversion H.
Qed.

Lemma concat_snoc sep (l : list string) x y :
  String.concat sep ((x :: l) ++ [y])%list
  = String.concat sep (x :: l) ++ sep ++ y.
Proof.
  revert x. induction l as [|z l IH]; intros x; [reflexivity|].
  change (String.concat sep ((x :: z :: l) ++ [y])%list)
    with (x ++ sep ++ String.concat sep ((z :: l) ++ [y])%list).
  rewrite IH.
  change (String.concat sep (x :: z :: l))
    with (x ++ sep ++ String.concat sep (z :: l)).
  now rewrite !PyStrFacts.append_assoc.
Qed.

Lemma join_value_snoc l :
  join_value (OList (l ++ [""])%list) = join_value (OList l).
Proof.
  unfold join_value, PyStr.join. f_equal. destruct l as [|x l]; [reflexivity|].
  rewrite concat_snoc.
  change (String LF "" ++ "") with (String LF "").
  unfold rstrip. now rewrite rstrip_with_snoc_blank by reflexivity.
Qed.

(** The empty line that ends a section changes no value. *)
Lemma blank_step st T0 prev n opts :
  inside_section st T0 prev n opts ->
  exists st',
    read_line "" st = (Ok tt, st')
    /\ between_sections st' (merge_section T0 (n, opts)) (prev ++ [n])%list.
Proof.
  intros Hin.
  destruct (inside_section_dict _ _ _ _ _ Hin) as (d & Hd & Hjd).
  destruct Hin as (Hcur & Hsect & HT & Hopt & He & Has & Hao).
  assert (Hprev : forall x, In x prev \/ x = n -> In x (prev ++ [n])%list).
  { intros x [H| ->]; apply in_or_app; [now left | right; now left]. }
  unfold read_line.
  change (PyStr.strip "") with "". cbn [PyStr.startswith String.prefix orb is_empty].
  destruct (continued_option st) as [k|] eqn:Ec.
  - pose proof (continued_optname st k Ec) as Hk.
    destruct (Hopt k Hk) as [l Hl].
    unfold cursect_append. rewrite Hl.
    eexists. split; [reflexivity|].
    unfold between_sections, with_parser.
    cbn [parser optname e added_sections added_options].
    repeat split; try assumption.
    + rewrite (join_cursect_set st n k _ d Hcur Hd), join_value_snoc.
      assert (Hkd : dict_get k d = Some (OList l)).
      { unfold cursect_get in Hl. now rewrite Hcur, Hd in Hl. }
      rewrite (dict_set_same k (join_value (OList l)) (join_options d)).
      2:{ unfold join_options. rewrite (dict_get_map join_value), Hkd. reflexivity. }
      rewrite (dict_set_same n (join_options d)).
      2:{ rewrite join_sections_get, Hd. reflexivity. }
      rewrite <- HT. now destruct (_join_multiline_values (parser st)).
    + intros k' Hk'. rewrite Hk in Hk'. inversion Hk'; subst k'.
      exists (l ++ [""])%list.
      apply (cursect_get_set st n k _ d Hcur Hd).
    + intros x Hx. apply Hprev. now apply Has.
    + intros a b Hab. apply Hprev.
      destruct (Hao a b Hab) as [H|[H _]]; [now left | now right].
  - eexists. split; [reflexivity|].
    unfold between_sections. repeat split; try assumption.
    + intros x Hx. apply Hprev. now apply Has.
    + intros a b Hab. apply Hprev.
      destruct (Hao a b Hab) as [H|[H _]]; [now left | now right].
Qed.

(** *** Sections and files *)

Lemma read_lines_app a b st :
  read_lines (a ++ b)%list st
  = match read_lines a st with
    | (Ok _, st') => read_lines b st'
    | (Raise ex, st') => (Raise ex, st')
    end.
Proof.
  revert st. induction a as [|x a IH]; intros st; [reflexivity|].
  cbn [app read_lines]. unfold bind.
  destruct (read_line x st) as [[u|ex] st1]; [apply IH | reflexivity].
Qed.

Lemma options_steps T0 prev n rest : forall done st,
  inside_section st T0 prev n done ->
  Forall (fun kv => plain_option kv = true) rest ->
  NoDup (dict_keys (done ++ rest)%list) ->
  ~ In n prev ->
  exists st',
    read_lines (map option_line rest) st = (Ok tt, st')
    /\ inside_section st' T0 prev n (done ++ rest)%list.
Proof.
  induction rest as [|[k x] rest IH]; intros done st Hin Hpl Hnd Hn.
  - exists st. rewrite List.app_nil_r. now split.
  - inversion Hpl as [|? ? Hkv Hrest]; subst.
    unfold plain_option in Hkv. cbn [fst snd] in Hkv.
    apply andb_true_iff in Hkv. destruct Hkv as [Hk Hv].
    destruct x as [v|l]; [|discriminate Hv].
    assert (Hnew : ~ In k (dict_keys done)).
    { unfold dict_keys in *. rewrite map_app in Hnd. cbn [map fst] in Hnd.
      apply NoDup_remove_2 in Hnd. intros H. apply Hnd, in_or_app. now left. }
    destruct (option_step st T0 prev n done k v Hin Hk Hv Hnew Hn)
      as (st1 & Hrun & Hin1).
    destruct (IH (done ++ [(k, OStr v)])%list st1 Hin1 Hrest) as (st2 & Hrun2 & Hin2).
    + now rewrite <- List.app_assoc.
    + exact Hn.
    + exists st2. split.
      * cbn [map read_lines]. unfold bind, option_line at 1.
        cbn [fst snd str_of_optval]. now rewrite Hrun.
      * now rewrite <- List.app_assoc in Hin2.
Qed.

Lemma section_steps st T prev n opts :
  between_sections st T prev ->
  plain_name n = true -> plain_options opts -> ~ In n prev ->
  exists st',
    read_lines (section_lines (n, opts)) st = (Ok tt, st')
    /\ between_sections st' (merge_section T (n, opts)) (prev ++ [n])%list.
Proof.
  intros Hb Hn [Hpl Hnd] Hnew.
  destruct (header_step st T prev n Hb Hn Hnew) as (st1 & Hrun1 & Hin1).
  destruct (options_steps T prev n opts [] st1 Hin1 Hpl Hnd Hnew)
    as (st2 & Hrun2 & Hin2).
  cbn [app] in Hin2.
  destruct (blank_step st2 T prev n opts Hin2) as (st3 & Hrun3 & Hb3).
  exists st3. split; [|exact Hb3].
  unfold section_lines. cbn [fst snd read_lines]. unfold bind at 1.
  rewrite Hrun1, read_lines_app, Hrun2.
  cbn [read_lines]. unfold bind, ret. now rewrite Hrun3.
Qed.

Lemma file_steps secs : forall st T prev,
  between_sections st T prev ->
  Forall (fun nd => plain_name (fst nd) = true /\ plain_options (snd nd)) secs ->
  NoDup (prev ++ dict_keys secs)%list ->
  exists st',
    read_lines (flat_map section_lines secs) st = (Ok tt, st')
    /\ between_sections st' (fold_left merge_section secs T)
                        (prev ++ dict_keys secs)%list.
Proof.
  induction secs as [|[n opts] secs IH]; intros st T prev Hb Hpl Hnd.
  - exists st. cbn [dict_keys map]. rewrite List.app_nil_r. now split.
  - inversion Hpl as [|? ? [Hn Ho] Hrest]; subst. cbn [fst snd] in *.
    assert (Hnew : ~ In n prev).
    { cbn [dict_keys map fst] in Hnd. apply NoDup_remove_2 in Hnd.
      intros H. apply Hnd, in_or_app. now left. }
    destruct (section_steps st T prev n opts Hb Hn Ho Hnew) as (st1 & Hrun1 & Hb1).
    destruct (IH st1 (merge_section T (n, opts)) (prev ++ [n])%list Hb1 Hrest)
      as (st2 & Hrun2 & Hb2).
    + rewrite <- List.app_assoc. exact Hnd.
    + exists st2. split.
      * cbn [flat_map]. now rewrite read_lines_app, Hrun1.
      * cbn [fold_left dict_keys map fst].
        rewrite <- List.app_assoc in Hb2. exact Hb2.
Qed.

(** *** What [write] produces *)

Lemma one_line_app a b : one_line (a ++ b) = one_line a && one_line b.
Proof.
  unfold one_line. rewrite !PyStrFacts.contains_app.
  destruct (PyStr.contains LF a), (PyStr.contains LF b),
    (PyStr.contains CR a), (PyStr.contains CR b); reflexivity.
Qed.

Lemma plain_key_one_line k : plain_key k = true -> one_line k = true.
Proof.
  intros Hk. destruct (plain_key_facts k Hk) as (_ & Hnb & _).
  unfold one_line.
  now rewrite (no_blank_contains LF k eq_refl Hnb),
    (no_blank_contains CR k eq_refl Hnb).
Qed.

Lemma plain_value_one_line v : plain_value v = true -> one_line v = true.
Proof.
  unfold plain_value. intros H. now apply andb_true_iff in H.
Qed.

Lemma option_line_one_line kv :
  plain_option kv = true -> one_line (option_line kv) = true.
Proof.
  destruct kv as [k x]. unfold plain_option, option_line. cbn [fst snd].
  intros H. apply andb_true_iff in H. destruct H as [Hk Hv].
  destruct x as [v|l]; [|discriminate Hv]. cbn [str_of_optval].
  rewrite !one_line_app, (plain_key_one_line k Hk), (plain_value_one_line v Hv).
  reflexivity.
Qed.

Lemma section_lines_one_line n opts :
  plain_name n = true -> plain_options opts ->
  Forall (fun l => one_line l = true) (section_lines (n, opts)).
Proof.
  intros Hn [Hpl _]. destruct (plain_name_facts n Hn) as (_ & Hl & _).
  unfold section_lines. cbn [fst snd]. constructor.
  - now rewrite !one_line_app, Hl.
  - apply Forall_app. split; [|now constructor].
    apply Forall_map. revert Hpl. apply Forall_impl.
    intros kv. apply option_line_one_line.
Qed.

Lemma write_option_line kv :
  plain_option kv = true ->
  fst kv ++ " = "
  ++ replace (String LF "") (String LF (String TAB "")) (str_of_optval (snd kv))
  ++ String LF ""
  = option_line kv ++ String LF "".
Proof.
  destruct kv as [k x]. unfold plain_option, option_line. cbn [fst snd].
  intros H. apply andb_true_iff in H. destruct H as [_ Hv].
  destruct x as [v|l]; [|discriminate Hv]. cbn [str_of_optval].
  destruct (plain_value_facts v Hv) as (Hlf & _).
  rewrite (replace_line_feed _ v Hlf).
  now rewrite !PyStrFacts.append_assoc.
Qed.

Lemma write_section_lines n opts :
  Forall (fun kv => plain_option kv = true) opts ->
  _write_section n opts = Samples.lines (section_lines (n, opts)).
Proof.
  intros Hpl. unfold _write_section, section_lines. cbn [fst snd].
  set (h := "[" ++ n ++ "]").
  change (h :: (map option_line opts ++ [""])%list)
    with (([h] ++ map option_line opts) ++ [""])%list.
  rewrite !lines_app.
  change (Samples.lines [h]) with (h ++ String LF "").
  change (Samples.lines [""]) with (String LF "").
  subst h.
  rewrite !PyStrFacts.append_assoc. do 3 f_equal.
  cbn [append]. do 2 f_equal.
  unfold Samples.lines. f_equal. rewrite map_map.
  apply map_ext_in. intros kv Hin.
  apply write_option_line. rewrite Forall_forall in Hpl. now apply Hpl.
Qed.

Lemma write_lines q :
  plain q -> write q = Samples.lines (flat_map section_lines (_sections q)).
Proof.
  intros (Hd & _ & Hpl). unfold write. rewrite Hd. cbn [append].
  induction Hpl as [|[n opts] secs [Hn [Ho _]] Hrest IH]; [reflexivity|].
  cbn [map flat_map fst snd]. rewrite ExportExtras.concat_cons_strings, lines_app.
  now rewrite IH, (write_section_lines n opts Ho).
Qed.

Lemma written_lines_one_line q :
  plain q ->
  Forall (fun l => one_line l = true) (flat_map section_lines (_sections q)).
Proof.
  intros (_ & _ & Hpl).
  induction Hpl as [|[n opts] secs [Hn Ho] Hrest IH]; [constructor|].
  cbn [flat_map]. apply Forall_app. split; [|exact IH].
  now apply section_lines_one_line.
Qed.

(** Reading the file written from a plain parser [q] into any parser
    [p] raises nothing and takes the sections of [q] into [p]. *)
Lemma read_written p q :
  plain q ->
  read (Some (write q)) p = (Ok tt, merge (_join_multiline_values p) q).
Proof.
  intros Hq. cbn [read]. unfold _read.
  rewrite (write_lines q Hq), (file_lines_lines _ (written_lines_one_line q Hq)).
  destruct Hq as (Hd & Hnd & Hpl).
  destruct (file_steps (_sections q) (mkp p [] [] CurNone "" None 0 false)
              (_join_multiline_values p) [])
    as (st' & Hrun & (HT & _ & He & _)).
  - unfold between_sections. cbn [parser optname e added_sections added_options].
    repeat split; try contradiction. discriminate.
  - exact Hpl.
  - exact Hnd.
  - rewrite Hrun, He, HT. reflexivity.
Qed.

(** *** Merging a plain parser into itself or into a new one *)

Local Open Scope list_scope.

Lemma join_options_plain opts :
  Forall (fun kv => plain_option kv = true) opts -> join_options opts = opts.
Proof.
  unfold join_options. induction 1 as [|[k x] opts Hkv Hrest IH]; [reflexivity|].
  cbn [map fst snd]. rewrite IH.
  unfold plain_option in Hkv. cbn [fst snd] in Hkv.
  apply andb_true_iff in Hkv. destruct Hkv as [_ Hv].
  now destruct x; [|discriminate Hv].
Qed.

Lemma join_plain q : plain q -> _join_multiline_values q = q.
Proof.
  intros (Hd & _ & Hpl). destruct q as [defs secs]. cbn [_defaults _sections] in *.
  subst defs. unfold _join_multiline_values. cbn [_defaults _sections join_options map].
  f_equal. induction Hpl as [|[n opts] secs [_ [Ho _]] Hrest IH]; [reflexivity|].
  cbn [map fst snd]. now rewrite IH, (join_options_plain opts Ho).
Qed.

Lemma dict_get_in {V} (k : string) (v : V) (d : dict V) :
  NoDup (dict_keys d) -> In (k, v) d -> dict_get k d = Some v.
Proof.
  unfold dict_keys. induction d as [|[k' v'] d IH]; cbn [map fst In dict_get].
  - contradiction.
  - intros Hnd [[= -> ->]|Hin].
    + now rewrite String.eqb_refl.
    + inversion Hnd as [|? ? Hnot Hnd']; subst.
      destruct (String.eqb_spec k' k) as [->|Hne].
      * exfalso. apply Hnot. now apply (in_map fst) in Hin.
      * now apply IH.
Qed.

Lemma merge_section_same T n opts :
  dict_get n (_sections T) = Some opts -> NoDup (dict_keys opts) ->
  merge_section T (n, opts) = T.
Proof.
  intros Hg Hnd. unfold merge_section. cbn [fst snd]. rewrite Hg.
  rewrite (dict_update_self opts Hnd), (dict_set_same n opts _ Hg).
  now destruct T.
Qed.

Lemma merge_self q : plain q -> merge q q = q.
Proof.
  intros (_ & Hnd & Hpl). unfold merge.
  assert (H : forall secs,
             (forall n opts, In (n, opts) secs ->
                             dict_get n (_sections q) = Some opts
                             /\ NoDup (dict_keys opts)) ->
             fold_left merge_section secs q = q).
  { induction secs as [|[n opts] secs IH]; intros Hall; [reflexivity|].
    cbn [fold_left]. destruct (Hall n opts (or_introl eq_refl)) as [Hg Ho].
    rewrite (merge_section_same q n opts Hg Ho).
    apply IH. intros n' opts' Hin. apply Hall. now right. }
  apply H. intros n opts Hin. split.
  - now apply dict_get_in.
  - rewrite Forall_forall in Hpl. now destruct (Hpl _ Hin) as [_ [_ Ho]].
Qed.

Lemma merge_new q : plain q -> merge new q = q.
Proof.
  intros (Hd & Hnd & Hpl). unfold merge, new.
  assert (H : forall secs done,
             NoDup (dict_keys (done ++ secs)) ->
             Forall (fun nd => NoDup (dict_keys (snd nd))) secs ->
             fold_left merge_section secs (mk [] done) = mk [] (done ++ secs)).
  { induction secs as [|[n opts] secs IH]; intros done Hn Ho.
    - now rewrite List.app_nil_r.
    - inversion Ho as [|? ? Hopts Hrest]; subst. cbn [fold_left snd] in *.
      assert (Hm : dict_mem n done = false).
      { destruct (dict_mem n done) eqn:E; [|reflexivity]. exfalso.
        apply dict_mem_keys in E. unfold dict_keys in Hn.
        rewrite map_app in Hn. cbn [map fst] in Hn.
        apply NoDup_remove_2 in Hn. apply Hn, in_or_app. now left. }
      unfold merge_section at 2. cbn [fst snd _sections _defaults].
      assert (Hg : dict_get n done = None).
      { unfold dict_mem in Hm. now destruct (dict_get n done). }
      rewrite Hg, (dict_update_nil opts Hopts), (dict_set_new n opts done Hm).
      rewrite IH; [now rewrite <- List.app_assoc | | exact Hrest].
      now rewrite <- List.app_assoc. }
  rewrite (H (_sections q) []).
  - destruct q as [defs secs]. cbn [_defaults _sections app] in *. now subst.
  - exact Hnd.
  - revert Hpl. apply Forall_impl. now intros nd [_ [_ Ho]].
Qed.

(** The file written from a plain parser reads back as that parser,
    into a new parser and into the parser it was written from. *)
Lemma written_reads_back q :
  plain q ->
  read (Some (write q)) new = (Ok tt, q)
  /\ read (Some (write q)) q = (Ok tt, q).
Proof.
  intros Hq. rewrite !(read_written _ q Hq). split.
  - change (_join_multiline_values new) with new. now rewrite merge_new.
  - now rewrite (join_plain q Hq), merge_self.
Qed.

(** *** Values without percent sign *)

Local Open Scope string_scope.

Lemma percent_free_facts v :
  percent_free v = true -> PyStr.contains "%" v = false.
Proof. unfold percent_free. intros H. now apply negb_true_iff in H. Qed.

Lemma replace_percent v :
  PyStr.contains "%" v = false -> replace "%%" "" v = v.
Proof.
  unfold replace. induction v as [|c r IH]; [reflexivity|].
  cbn [PyStr.contains replace_from String.prefix]. intros H.
  apply orb_false_iff in H. destruct H as [Hc Hr].
  destruct (ascii_dec "%" c) as [E|_].
  - subst c. discriminate Hc.
  - now rewrite (IH Hr).
Qed.

Lemma keycre_match_other c r :
  Ascii.eqb "%" c = false -> keycre_match (String c r) = None.
Proof.
  intros H. unfold keycre_match.
  destruct c as [[] [] [] [] [] [] [] []]; try reflexivity; discriminate H.
Qed.

Lemma keycre_sub_percent v :
  PyStr.contains "%" v = false -> keycre_sub_from 0 v = v.
Proof.
  induction v as [|c r IH]; [reflexivity|].
  cbn [PyStr.contains keycre_sub_from]. intros H.
  apply orb_false_iff in H. destruct H as [Hc Hr].
  now rewrite (keycre_match_other c r Hc), (IH Hr).
Qed.

Lemma before_set_percent_free v :
  PyStr.contains "%" v = false -> before_set v = Ok v.
Proof.
  intros H. unfold before_set.
  now rewrite (replace_percent v H), (keycre_sub_percent v H), H.
Qed.

Lemma interpolate_percent_free budget d s : forall acc b,
  PyStr.contains "%" s = false ->
  interpolate_some (S budget) d (acc, b) (OStr s) = Ok (acc ++ s, b).
Proof.
  cbn [interpolate_some].
  induction s as [|c r IH]; intros acc b H.
  - now rewrite PyStrFacts.append_nil_r.
  - cbn [PyStr.contains] in H. apply orb_false_iff in H. destruct H as [Hc Hr].
    rewrite Ascii.eqb_sym in Hc. rewrite Hc. cbn [fst snd].
    rewrite (IH _ _ Hr). now rewrite PyStrFacts.append_assoc.
Qed.

Lemma before_get_percent_free d s :
  PyStr.contains "%" s = false -> before_get (OStr s) d = Ok s.
Proof.
  intros H. unfold before_get, MAX_INTERPOLATION_DEPTH.
  now rewrite (interpolate_percent_free 9 d s "" false H).
Qed.

(** *** Assigning a profile *)

Lemma set_in_section q n k v d :
  is_empty n = false -> n <> default_section ->
  dict_get n (_sections q) = Some d ->
  PyStr.contains "%" v = false ->
  set n k v q
  = (Ok tt, mk (_defaults q)
               (dict_set n (dict_set (optionxform k) (OStr v) d) (_sections q))).
Proof.
  intros He Hd Hg Hv. unfold set.
  assert (Hval : (if is_empty v then Ok v else before_set v) = Ok v).
  { destruct (is_empty v); [reflexivity|]. now apply before_set_percent_free. }
  rewrite Hval, He.
  apply String.eqb_neq in Hd. rewrite Hd. cbn [orb]. now rewrite Hg.
Qed.

Lemma setitem_profile p name host user password :
  plain_name name = true ->
  PyStr.contains "%" host = false ->
  PyStr.contains "%" user = false ->
  PyStr.contains "%" password = false ->
  setitem name (Samples.profile host user password) p
  = (Ok tt, mk (_defaults p)
               (dict_set name (profile_options host user password)
                         (_sections p))).
Proof.
  intros Hn Hh Hu Hp.
  destruct (plain_name_facts name Hn) as (He & _ & Hd).
  assert (Hd' : String.eqb name default_section = false)
    by (now apply String.eqb_neq).
  set (q := mk (_defaults p) (dict_set name [] (_sections p))).
  assert (Hq : setitem name (Samples.profile host user password) p
               = read_dict_items name [] (Samples.profile host user password) q).
  { unfold setitem, read_dict, add_section. rewrite Hd'.
    destruct (dict_mem name (_sections p)) eqn:Hm.
    - cbn [_sections _defaults].
      match goal with
      | |- context [if ?c then _ else _] =>
          assert (Hm' : c = true)
            by (unfold dict_mem; now rewrite dict_get_set_same);
          rewrite Hm'
      end.
      reflexivity.
    - rewrite Hm. unfold q. now rewrite (dict_set_new _ _ _ Hm). }
  rewrite Hq. unfold q, Samples.profile. cbn [read_dict_items existsb].
  change (optionxform "host") with "host".
  change (optionxform "user") with "user".
  change (optionxform "password") with "password".
  cbn [existsb String.eqb Ascii.eqb Bool.eqb orb].
  unfold bind.
  erewrite (set_in_section _ name "host" host); cbn [_sections _defaults];
    [|exact He|exact Hd|apply dict_get_set_same|exact Hh].
  rewrite dict_set_set.
  erewrite (set_in_section _ name "user" user); cbn [_sections _defaults];
    [|exact He|exact Hd|apply dict_get_set_same|exact Hu].
  rewrite dict_set_set.
  erewrite (set_in_section _ name "password" password);
    cbn [_sections _defaults];
    [|exact He|exact Hd|apply dict_get_set_same|exact Hp].
  rewrite dict_set_set. reflexivity.
Qed.

(** *** Plain parsers under assignment and removal *)

Local Open Scope list_scope.

Lemma Forall_dict_set {V} (P : string * V -> Prop) k v (d : dict V) :
  Forall P d -> P (k, v) -> Forall P (dict_set k v d).
Proof.
  intros Hd Hk. induction d as [|[k' v'] r IH]; cbn [dict_set].
  - now constructor.
  - inversion Hd; subst. destruct (String.eqb k' k); constructor; auto.
Qed.

Lemma NoDup_dict_set {V} k v (d : dict V) :
  NoDup (dict_keys d) -> NoDup (dict_keys (dict_set k v d)).
Proof.
  intros H. rewrite dict_keys_set.
  destruct (dict_mem k d) eqn:Hm; [exact H|].
  apply NoDup_app; [exact H|repeat constructor; intros []|].
  intros x Hx [E|[]]. subst x.
  apply dict_mem_keys in Hx. congruence.
Qed.

Lemma dict_keys_del {V} k (d : dict V) :
  NoDup (dict_keys d) -> dict_keys (dict_del k d) = without k (dict_keys d).
Proof.
  unfold without, dict_keys.
  induction d as [|[k' v'] r IH]; cbn [dict_del map filter fst]; [reflexivity|].
  intros H. inversion H as [|? ? Hn Hr]; subst.
  destruct (String.eqb k' k) eqn:E; cbn [negb].
  - apply String.eqb_eq in E. subst k'.
    symmetry. apply forallb_filter_id. apply forallb_forall.
    intros x Hx. apply negb_true_iff, String.eqb_neq. intros ->. now apply Hn.
  - cbn [map fst]. now rewrite (IH Hr).
Qed.

Lemma Forall_dict_del {V} (P : string * V -> Prop) k (d : dict V) :
  Forall P d -> Forall P (dict_del k d).
Proof.
  intros Hd. induction d as [|[k' v'] r IH]; cbn [dict_del]; [constructor|].
  inversion Hd; subst. destruct (String.eqb k' k); [assumption|].
  constructor; auto.
Qed.

Lemma dict_get_del_same {V} k (d : dict V) :
  NoDup (dict_keys d) -> dict_get k (dict_del k d) = None.
Proof.
  induction d as [|[k' v'] r IH]; cbn [dict_del dict_keys map fst];
    [reflexivity|].
  intros H. inversion H as [|? ? Hn Hr]; subst.
  destruct (String.eqb k' k) eqn:E.
  - apply String.eqb_eq in E. subst k'.
    destruct (dict_get k r) eqn:Hg; [|reflexivity].
    exfalso. apply Hn. apply dict_mem_keys, dict_mem_get. eauto.
  - cbn [dict_get]. rewrite E. now apply IH.
Qed.

Lemma dict_get_del_other {V} k k' (d : dict V) :
  k <> k' -> dict_get k' (dict_del k d) = dict_get k' d.
Proof.
  intros Hk. induction d as [|[k0 v0] r IH]; cbn [dict_del dict_get];
    [reflexivity|].
  destruct (String.eqb k0 k) eqn:E.
  - apply String.eqb_eq in E. subst k0.
    apply String.eqb_neq in Hk. now rewrite Hk.
  - cbn [dict_get]. now rewrite IH.
Qed.

Lemma profile_options_plain host user password :
  plain_value host = true -> plain_value user = true ->
  plain_value password = true ->
  plain_options (profile_options host user password).
Proof.
  intros Hh Hu Hp. split.
  - repeat constructor; unfold plain_option; cbn [fst snd];
      rewrite ?Hh, ?Hu, ?Hp; reflexivity.
  - cbn. repeat constructor; cbn; intuition discriminate.
Qed.

Lemma plain_set p n d :
  plain p -> plain_name n = true -> plain_options d ->
  plain (mk (_defaults p) (dict_set n d (_sections p))).
Proof.
  intros (Hd & Hn & Hf) Hname Hopts. repeat split; cbn [_defaults _sections].
  - exact Hd.
  - unfold sections. cbn [_sections]. now apply NoDup_dict_set.
  - apply Forall_dict_set; [exact Hf|]. now split.
Qed.

Lemma plain_del p n :
  plain p -> plain (mk (_defaults p) (dict_del n (_sections p))).
Proof.
  intros (Hd & Hn & Hf). repeat split; cbn [_defaults _sections].
  - exact Hd.
  - unfold sections in *. cbn [_sections]. rewrite (dict_keys_del _ _ Hn).
    unfold without. now apply NoDup_filter.
  - now apply Forall_dict_del.
Qed.

Lemma plain_no_default p : plain p -> has_section p default_section = false.
Proof.
  intros (_ & _ & Hf). unfold has_section.
  destruct (dict_mem default_section (_sections p)) eqn:Hm; [|reflexivity].
  apply dict_mem_keys in Hm. unfold dict_keys in Hm.
  apply in_map_iff in Hm. destruct Hm as ([n d] & Hn & Hin).
  cbn [fst] in Hn. subst n.
  rewrite Forall_forall in Hf. destruct (Hf _ Hin) as [Hp _].
  discriminate Hp.
Qed.

Lemma plain_sections_listed p :
  plain p ->
  filter (fun section => negb (String.eqb section "DEFAULT")) (sections p)
  = sections p.
Proof.
  intros Hp. apply forallb_filter_id. apply forallb_forall. intros x Hx.
  apply negb_true_iff, String.eqb_neq. intros ->.
  pose proof (plain_no_default p Hp) as Hn. unfold has_section in Hn.
  apply dict_mem_keys in Hx. unfold default_section in Hn. congruence.
Qed.

(** *** What a section gives depends on that section and the defaults *)

Lemma section_dict_ext p q n :
  _defaults p = _defaults q ->
  dict_get n (_sections p) = dict_get n (_sections q) ->
  section_dict p n = section_dict q n.
Proof.
  intros Hd Hg. unfold section_dict, proxy_keys, options.
  rewrite Hd, Hg.
  assert (Hitems : forall keys, proxy_items p n keys = proxy_items q n keys).
  { induction keys as [|k r IH]; [reflexivity|]. cbn [proxy_items].
    unfold has_option, get, unify_values. now rewrite Hd, Hg, IH. }
  destruct (String.eqb n default_section); [apply Hitems|].
  destruct (dict_get n (_sections q)); [apply Hitems|reflexivity].
Qed.

Lemma section_dict_profile p n host user password :
  _defaults p = [] -> plain_name n = true ->
  dict_get n (_sections p) = Some (profile_options host user password) ->
  PyStr.contains "%" host = false ->
  PyStr.contains "%" user = false ->
  PyStr.contains "%" password = false ->
  section_dict p n = Ok (Samples.profile host user password).
Proof.
  intros Hd Hn Hg Hh Hu Hp.
  destruct (plain_name_facts n Hn) as (He & _ & Hne).
  apply String.eqb_neq in Hne.
  unfold section_dict, proxy_keys, options. rewrite Hne, Hg, Hd.
  cbn [dict_update fold_left dict_keys map fst profile_options].
  cbn [proxy_items]. unfold has_option, get, unify_values.
  rewrite He, Hne, Hg, Hd. cbn [orb].
  change (optionxform "host") with "host".
  change (optionxform "user") with "user".
  change (optionxform "password") with "password".
  cbn [profile_options dict_update fold_left fst snd dict_set dict_mem dict_get
       String.eqb Ascii.eqb Bool.eqb orb].
  rewrite !before_get_percent_free by assumption.
  reflexivity.
Qed.

End RoundTrip.

(** ** Stored profiles: a store in step with its file *)

Module StoreExtras.

Import ConfigParser Plain RoundTrip.
Local Open Scope list_scope.

(** *** The methods on a store in step *)

Lemma read_in_sync s : in_sync s -> ConnectionManager.read_config s = (Ok tt, s).
Proof.
  destruct s as [c f]. intros [Hp Hf]. cbn [ConnectionManager.config ConnectionManager.file] in Hp, Hf.
  subst f. unfold ConnectionManager.read_config, bind, get_state, ConnectionManager.on_config.
  cbn [ConnectionManager.config ConnectionManager.file].
  destruct (written_reads_back c Hp) as [_ H]. now rewrite H.
Qed.

Lemma read_reopened c :
  plain c ->
  ConnectionManager.read_config (ConnectionManager.mk new (Some (write c)))
  = (Ok tt, ConnectionManager.mk c (Some (write c))).
Proof.
  intros Hp. unfold ConnectionManager.read_config, bind, get_state, ConnectionManager.on_config.
  cbn [ConnectionManager.config ConnectionManager.file].
  destruct (written_reads_back c Hp) as [H _]. now rewrite H.
Qed.

Lemma get_in_sync s :
  in_sync s -> ConnectionManager.get_connections s = (Ok (sections (ConnectionManager.config s)), s).
Proof.
  intros Hs. unfold ConnectionManager.get_connections, bind. rewrite (read_in_sync s Hs).
  unfold get_state, ret. destruct Hs as [Hp _].
  now rewrite (plain_sections_listed _ Hp).
Qed.

Lemma load_in_sync s n :
  in_sync s ->
  ConnectionManager.load_connection n s
  = if contains (ConnectionManager.config s) n
    then match section_dict (ConnectionManager.config s) n with
         | Ok d => (Ok (Some d), s)
         | Raise ex => (Raise ex, s)
         end
    else (Ok None, s).
Proof.
  intros Hs. unfold ConnectionManager.load_connection, bind. rewrite (read_in_sync s Hs).
  unfold get_state, ret, raise.
  destruct (contains (ConnectionManager.config s) n); [|reflexivity].
  now destruct (section_dict (ConnectionManager.config s) n).
Qed.

Lemma delete_in_sync s n :
  in_sync s ->
  ConnectionManager.delete_connection n s
  = if contains (ConnectionManager.config s) n
    then let c := snd (remove_section n (ConnectionManager.config s)) in
         (Ok true, ConnectionManager.mk c (Some (write c)))
    else (Ok false, s).
Proof.
  intros Hs. unfold ConnectionManager.delete_connection, bind. rewrite (read_in_sync s Hs).
  unfold get_state, ret.
  destruct (contains (ConnectionManager.config s) n); [|reflexivity].
  unfold ConnectionManager.on_config, ConnectionManager._save_config, modify, remove_section.
  cbn [ConnectionManager.config ConnectionManager.file fst snd]. reflexivity.
Qed.

Lemma save_plain s name host user password :
  plain_name name = true ->
  percent_free host = true -> percent_free user = true ->
  percent_free password = true ->
  ConnectionManager.save_connection name host user password s
  = let c := mk (_defaults (ConnectionManager.config s))
                (dict_set name (profile_options host user password)
                          (_sections (ConnectionManager.config s))) in
    (Ok tt, ConnectionManager.mk c (Some (write c))).
Proof.
  intros Hn Hh Hu Hp. unfold ConnectionManager.save_connection, bind, ConnectionManager.on_config.
  change [("host", host); ("user", user); ("password", password)]
    with (Samples.profile host user password).
  rewrite (setitem_profile _ name host user password Hn)
    by now apply percent_free_facts.
  reflexivity.
Qed.

Lemma first_run_in_sync : in_sync Samples.first_run.
Proof.
  split; [|reflexivity].
  change (ConnectionManager.config Samples.first_run)
    with (mk [] [(ConnectionManager.example_section, profile_options "" "" "")]).
  repeat split; cbn [_defaults _sections sections dict_keys map fst].
  - repeat constructor. intros [].
  - repeat constructor; cbn; intuition discriminate.
Qed.

Lemma new_plain : plain new.
Proof. repeat split; constructor. Qed.

(** *** Saving *)

Lemma saved_store s name host user password :
  plain (ConnectionManager.config s) ->
  plain_name name = true ->
  plain_value host = true -> plain_value user = true ->
  plain_value password = true ->
  percent_free host = true -> percent_free user = true ->
  percent_free password = true ->
  let c := mk (_defaults (ConnectionManager.config s))
              (dict_set name (profile_options host user password)
                        (_sections (ConnectionManager.config s))) in
  let s' := ConnectionManager.mk c (Some (write c)) in
  ConnectionManager.save_connection name host user password s = (Ok tt, s')
  /\ in_sync s'
  /\ ConnectionManager.load_connection name s'
     = (Ok (Some (Samples.profile host user password)), s').
Proof.
  intros Hc Hn Hh Hu Hp Fh Fu Fp c s'.
  rewrite (save_plain s name host user password Hn Fh Fu Fp). cbv zeta.
  split; [reflexivity|].
  assert (Hs : in_sync s').
  { split; [|reflexivity]. unfold s', c. cbn [ConnectionManager.config].
    apply plain_set; [exact Hc|exact Hn|].
    now apply profile_options_plain. }
  split; [exact Hs|].
  rewrite (load_in_sync _ name Hs). unfold s'. cbn [ConnectionManager.config].
  unfold contains, has_section, dict_mem, c. cbn [_sections].
  rewrite dict_get_set_same, orb_true_r.
  rewrite (section_dict_profile _ name host user password);
    [reflexivity| |exact Hn|cbn [_sections]; apply dict_get_set_same
     |now apply percent_free_facts|now apply percent_free_facts
     |now apply percent_free_facts].
  cbn [_defaults]. now destruct Hc.
Qed.

(** X11. A profile with a plain name and plain values without percent
    sign, saved in a store whose parser is plain, is written to the
    file, leaves the store in step with the file, and is what loading
    that name then returns. *)
Theorem save_then_load s name host user password :
  plain (ConnectionManager.config s) ->
  plain_name name = true ->
  plain_value host = true -> plain_value user = true ->
  plain_value password = true ->
  percent_free host = true -> percent_free user = true ->
  percent_free password = true ->
  exists s',
    ConnectionManager.save_connection name host user password s = (Ok tt, s')
    /\ in_sync s'
    /\ ConnectionManager.load_connection name s'
       = (Ok (Some (Samples.profile host user password)), s').
Proof.
  intros Hc Hn Hh Hu Hp Fh Fu Fp. eexists.
  exact (saved_store s name host user password Hc Hn Hh Hu Hp Fh Fu Fp).
Qed.

Lemma save_then_load_witness :
  exists s',
    ConnectionManager.save_connection "prod" "db.local:3307" "root" "s3cret"
      Samples.first_run = (Ok tt, s')
    /\ in_sync s'
    /\ ConnectionManager.load_connection "prod" s'
       = (Ok (Some (Samples.profile "db.local:3307" "root" "s3cret")), s').
Proof.
  apply (save_then_load Samples.first_run "prod" "db.local:3307" "root"
           "s3cret");
    [exact (proj1 first_run_in_sync)|reflexivity..].
Defined.

(** X12. On a store in step with its file, saving a profile leaves what
    loading any other name returns as it was. *)
Theorem save_keeps_other_profiles s name host user password other :
  in_sync s ->
  plain_name name = true ->
  plain_value host = true -> plain_value user = true ->
  plain_value password = true ->
  percent_free host = true -> percent_free user = true ->
  percent_free password = true ->
  other <> name ->
  fst (ConnectionManager.load_connection other
         (snd (ConnectionManager.save_connection name host user password s)))
  = fst (ConnectionManager.load_connection other s).
Proof.
  intros Hs Hn Hh Hu Hp Fh Fu Fp Ho.
  rewrite (save_plain s name host user password Hn Fh Fu Fp). cbv zeta.
  cbn [snd].
  rewrite load_in_sync.
  2:{ split; [|reflexivity]. cbn [ConnectionManager.config].
      apply plain_set; [exact (proj1 Hs)|exact Hn|].
      now apply profile_options_plain. }
  rewrite (load_in_sync s other Hs). cbn [ConnectionManager.config].
  assert (Hg : dict_get other
                 (dict_set name (profile_options host user password)
                    (_sections (ConnectionManager.config s)))
               = dict_get other (_sections (ConnectionManager.config s))).
  { apply dict_get_set_other. congruence. }
  unfold contains, has_section, dict_mem. cbn [_sections]. rewrite Hg.
  rewrite (section_dict_ext
             (mk (_defaults (ConnectionManager.config s))
                 (dict_set name (profile_options host user password)
                    (_sections (ConnectionManager.config s))))
             (ConnectionManager.config s) other eq_refl Hg).
  destruct ((other =? default_section)%string
            || match dict_get other (_sections (ConnectionManager.config s)) with
               | Some _ => true
               | None => false
               end); [|reflexivity].
  now destruct (section_dict (ConnectionManager.config s) other).
Qed.

Lemma save_keeps_other_profiles_witness :
  fst (ConnectionManager.load_connection ConnectionManager.example_section
         (snd (ConnectionManager.save_connection "prod" "db.local" "root" "s3cret"
                 Samples.first_run)))
  = fst (ConnectionManager.load_connection ConnectionManager.example_section Samples.first_run).
Proof.
  apply (save_keeps_other_profiles Samples.first_run "prod" "db.local" "root"
           "s3cret" ConnectionManager.example_section);
    [exact first_run_in_sync|reflexivity..|discriminate].
Defined.

(** X13. Saving keeps the order of the listing: a name already stored
    keeps its place, a new name goes last. *)
Theorem save_keeps_order s name host user password :
  plain (ConnectionManager.config s) ->
  plain_name name = true ->
  plain_value host = true -> plain_value user = true ->
  plain_value password = true ->
  percent_free host = true -> percent_free user = true ->
  percent_free password = true ->
  fst (ConnectionManager.get_connections
         (snd (ConnectionManager.save_connection name host user password s)))
  = Ok (if has_section (ConnectionManager.config s) name
        then sections (ConnectionManager.config s)
        else sections (ConnectionManager.config s) ++ [name]).
Proof.
  intros Hc Hn Hh Hu Hp Fh Fu Fp.
  rewrite (save_plain s name host user password Hn Fh Fu Fp). cbv zeta.
  cbn [snd].
  rewrite get_in_sync.
  2:{ split; [|reflexivity]. cbn [ConnectionManager.config].
      apply plain_set; [exact Hc|exact Hn|].
      now apply profile_options_plain. }
  cbn [fst ConnectionManager.config]. unfold sections, has_section. cbn [_sections].
  now rewrite dict_keys_set.
Qed.

Lemma save_keeps_order_witness :
  fst (ConnectionManager.get_connections
         (snd (ConnectionManager.save_connection "prod" "db.local" "root" "s3cret"
                 Samples.first_run)))
  = Ok (if has_section (ConnectionManager.config Samples.first_run) "prod"
        then sections (ConnectionManager.config Samples.first_run)
        else sections (ConnectionManager.config Samples.first_run) ++ ["prod"]).
Proof.
  apply (save_keeps_order Samples.first_run "prod" "db.local" "root" "s3cret");
    [exact (proj1 first_run_in_sync)|reflexivity..].
Defined.

(** *** Opening the file again *)

(** X14. A store opened on the file that a store in step has written
    lists the same names in the same order, reaches the same state by
    doing so, and loads every name as the first store does. *)
Theorem reopened_store_agrees s :
  in_sync s ->
  exists s0,
    ConnectionManager.init (ConnectionManager.file s) = (Ok tt, s0)
    /\ ConnectionManager.get_connections s0 = (Ok (sections (ConnectionManager.config s)), s)
    /\ forall n, ConnectionManager.load_connection n s0 = ConnectionManager.load_connection n s.
Proof.
  destruct s as [c f]. intros Hs. pose proof Hs as [Hp Hf].
  cbn [ConnectionManager.config ConnectionManager.file] in *. subst f.
  exists (ConnectionManager.mk new (Some (write c))). split; [reflexivity|]. split.
  - unfold ConnectionManager.get_connections, bind. rewrite (read_reopened c Hp).
    unfold get_state, ret. cbn [ConnectionManager.config].
    now rewrite (plain_sections_listed c Hp).
  - intros n. unfold ConnectionManager.load_connection, bind.
    now rewrite (read_reopened c Hp), (read_in_sync _ Hs).
Qed.

Lemma reopened_store_agrees_witness :
  exists s0,
    ConnectionManager.init (ConnectionManager.file Samples.first_run) = (Ok tt, s0)
    /\ ConnectionManager.get_connections s0
       = (Ok (sections (ConnectionManager.config Samples.first_run)), Samples.first_run)
    /\ forall n, ConnectionManager.load_connection n s0
                 = ConnectionManager.load_connection n Samples.first_run.
Proof.
  apply (reopened_store_agrees Samples.first_run). exact first_run_in_sync.
Defined.

(** *** Deleting *)

Lemma deleted_store s name :
  in_sync s ->
  has_section (ConnectionManager.config s) name = true ->
  let c := mk (_defaults (ConnectionManager.config s))
              (dict_del name (_sections (ConnectionManager.config s))) in
  let s' := ConnectionManager.mk c (Some (write c)) in
  ConnectionManager.delete_connection name s = (Ok true, s')
  /\ in_sync s'
  /\ ConnectionManager.load_connection name s' = (Ok None, s')
  /\ ConnectionManager.get_connections s'
     = (Ok (without name (sections (ConnectionManager.config s))), s')
  /\ forall other, other <> name ->
       fst (ConnectionManager.load_connection other s')
       = fst (ConnectionManager.load_connection other s).
Proof.
  intros Hs Hhas c s'. pose proof Hs as [Hp _].
  rewrite (delete_in_sync s name Hs).
  unfold contains. rewrite Hhas, orb_true_r. cbv zeta.
  unfold remove_section. unfold has_section in Hhas. rewrite Hhas.
  cbn [snd]. fold c. fold s'.
  assert (Hs' : in_sync s').
  { split; [|reflexivity]. unfold s', c. cbn [ConnectionManager.config].
    now apply plain_del. }
  assert (Hname : name <> default_section).
  { intros ->. pose proof (plain_no_default _ Hp) as Hn.
    unfold has_section in Hn. congruence. }
  destruct Hp as (Hd & Hnd & Hf).
  split; [reflexivity|]. split; [exact Hs'|]. split; [|split].
  - rewrite (load_in_sync _ name Hs'). unfold s'.
    cbn [ConnectionManager.config].
    unfold contains, has_section, dict_mem, c. cbn [_sections].
    rewrite (dict_get_del_same name _ Hnd).
    apply String.eqb_neq in Hname. now rewrite Hname.
  - rewrite (get_in_sync _ Hs'). unfold s'. cbn [ConnectionManager.config].
    unfold sections, c.
    cbn [_sections]. now rewrite (dict_keys_del name _ Hnd).
  - intros other Ho.
    rewrite (load_in_sync _ other Hs'), (load_in_sync s other Hs).
    unfold s'. cbn [ConnectionManager.config].
    assert (Hg : dict_get other (_sections c)
                 = dict_get other (_sections (ConnectionManager.config s))).
    { unfold c. cbn [_sections]. apply dict_get_del_other. congruence. }
    unfold contains, has_section, dict_mem. rewrite Hg.
    rewrite (section_dict_ext c (ConnectionManager.config s) other eq_refl Hg).
    destruct ((other =? default_section)%string
              || match dict_get other (_sections (ConnectionManager.config s)) with
                 | Some _ => true
                 | None => false
                 end); [|reflexivity].
    now destruct (section_dict (ConnectionManager.config s) other).
Qed.

(** X15. Deleting a stored name from a store in step returns [True],
    leaves the store in step, removes that name and no other from the
    listing, makes loading it return nothing, and leaves what loading
    any other name returns as it was. *)
Theorem delete_then_gone s name :
  in_sync s ->
  has_section (ConnectionManager.config s) name = true ->
  exists s',
    ConnectionManager.delete_connection name s = (Ok true, s')
    /\ in_sync s'
    /\ ConnectionManager.load_connection name s' = (Ok None, s')
    /\ ConnectionManager.get_connections s'
       = (Ok (without name (sections (ConnectionManager.config s))), s')
    /\ forall other, other <> name ->
         fst (ConnectionManager.load_connection other s') = fst (ConnectionManager.load_connection other s).
Proof.
  intros Hs Hhas. eexists. exact (deleted_store s name Hs Hhas).
Qed.

Lemma delete_then_gone_witness :
  exists s',
    ConnectionManager.delete_connection ConnectionManager.example_section Samples.first_run = (Ok true, s')
    /\ in_sync s'
    /\ ConnectionManager.load_connection ConnectionManager.example_section s' = (Ok None, s')
    /\ ConnectionManager.get_connections s'
       = (Ok (without ConnectionManager.example_section
                (sections (ConnectionManager.config Samples.first_run))), s')
    /\ forall other, other <> ConnectionManager.example_section ->
         fst (ConnectionManager.load_connection other s')
         = fst (ConnectionManager.load_connection other Samples.first_run).
Proof.
  apply (delete_then_gone Samples.first_run ConnectionManager.example_section);
    [exact first_run_in_sync|reflexivity].
Defined.

(** X16. Deleting a name that the store in step does not hold returns
    [False] and changes neither the parser nor the file. *)
Theorem delete_absent_changes_nothing s name :
  in_sync s ->
  contains (ConnectionManager.config s) name = false ->
  ConnectionManager.delete_connection name s = (Ok false, s).
Proof.
  intros Hs Hc. rewrite (delete_in_sync s name Hs). now rewrite Hc.
Qed.

Lemma delete_absent_changes_nothing_witness :
  ConnectionManager.delete_connection "prod" Samples.first_run = (Ok false, Samples.first_run).
Proof.
  apply (delete_absent_changes_nothing Samples.first_run "prod");
    [exact first_run_in_sync|reflexivity].
Defined.

(** *** Listing, loading and the invariant *)

(** X17. Listing and loading never write the file, whatever the store
    and the file hold. *)
Theorem lookups_never_write s name :
  ConnectionManager.file (snd (ConnectionManager.get_connections s)) = ConnectionManager.file s
  /\ ConnectionManager.file (snd (ConnectionManager.load_connection name s)) = ConnectionManager.file s.
Proof.
  unfold ConnectionManager.get_connections, ConnectionManager.load_connection, ConnectionManager.read_config, bind,
    get_state, ret, raise, ConnectionManager.on_config.
  destruct (read (ConnectionManager.file s) (ConnectionManager.config s)) as [[[]|ex] c];
    cbn [ConnectionManager.config ConnectionManager.file snd]; split; try reflexivity.
  destruct (contains c name); [|reflexivity].
  now destruct (section_dict c name).
Qed.

(** X18. Being in step with the file is kept by every method that
    reads first: listing and loading leave a store in step exactly as
    it was, and deleting any name, the default section's included,
    leaves it in step. *)
Theorem in_sync_kept s name :
  in_sync s ->
  snd (ConnectionManager.get_connections s) = s
  /\ snd (ConnectionManager.load_connection name s) = s
  /\ in_sync (snd (ConnectionManager.delete_connection name s)).
Proof.
  intros Hs. rewrite (get_in_sync s Hs), (load_in_sync s name Hs),
    (delete_in_sync s name Hs).
  split; [reflexivity|]. split.
  - destruct (contains (ConnectionManager.config s) name); [|reflexivity].
    now destruct (section_dict (ConnectionManager.config s) name).
  - destruct (contains (ConnectionManager.config s) name); [|exact Hs].
    cbv zeta. cbn [snd]. split; [|reflexivity]. cbn [ConnectionManager.config].
    unfold remove_section.
    destruct (dict_mem name (_sections (ConnectionManager.config s))); cbn [snd].
    + apply plain_del. exact (proj1 Hs).
    + exact (proj1 Hs).
Qed.

Lemma in_sync_kept_witness :
  snd (ConnectionManager.get_connections Samples.first_run) = Samples.first_run
  /\ snd (ConnectionManager.load_connection "DEFAULT" Samples.first_run) = Samples.first_run
  /\ in_sync (snd (ConnectionManager.delete_connection "DEFAULT" Samples.first_run)).
Proof.
  apply (in_sync_kept Samples.first_run "DEFAULT"). exact first_run_in_sync.
Defined.

(** X19. On a store in step, loading a name that is neither stored nor
    the default section's returns nothing, and loading the default
    section's name returns an empty dictionary. *)
Theorem load_unknown_and_default s name :
  in_sync s ->
  (contains (ConnectionManager.config s) name = false ->
   ConnectionManager.load_connection name s = (Ok None, s))
  /\ ConnectionManager.load_connection default_section s = (Ok (Some []), s).
Proof.
  intros Hs. split.
  - intros Hc. rewrite (load_in_sync s name Hs). now rewrite Hc.
  - rewrite (load_in_sync s default_section Hs).
    destruct Hs as [(Hd & _) _].
    unfold contains, section_dict, proxy_keys.
    cbn [String.eqb Ascii.eqb Bool.eqb default_section orb].
    now rewrite Hd.
Qed.

Lemma load_unknown_and_default_witness :
  ConnectionManager.load_connection "prod" Samples.first_run
  = (Ok None, Samples.first_run)
  /\ ConnectionManager.load_connection default_section Samples.first_run
     = (Ok (Some []), Samples.first_run).
Proof.
  destruct (load_unknown_and_default Samples.first_run "prod"
              first_run_in_sync) as [H1 H2].
  split; [apply H1; reflexivity|exact H2].
Defined.

End StoreExtras.

(** ** The handlers behind the buttons *)

Module HandlerExtras.

Import PyStr Handlers Plain.

(** *** Stripped entries *)

Lemma truthy_iff s : truthy s = true <-> s <> "".
Proof.
  unfold truthy. rewrite negb_true_iff. apply String.eqb_neq.
Qed.

Lemma truthy_false s : truthy s = false <-> s = "".
Proof.
  unfold truthy. rewrite negb_false_iff. apply String.eqb_eq.
Qed.

Lemma contains_lstrip_with sp c s :
  contains c s = false -> contains c (lstrip_with sp s) = false.
Proof.
  induction s as [|d r IH]; [reflexivity|].
  cbn [lstrip_with]. destruct (sp d); [|auto].
  cbn [contains]. intros H. apply orb_false_iff in H. now apply IH.
Qed.

Lemma contains_rstrip_with sp c s :
  contains c s = false -> contains c (rstrip_with sp s) = false.
Proof.
  induction s as [|d r IH]; [reflexivity|].
  cbn [contains rstrip_with]. intros H. apply orb_false_iff in H.
  destruct H as [Hd Hr]. specialize (IH Hr).
  destruct (rstrip_with sp r) as [|e r'].
  - destruct (sp d); [reflexivity|]. cbn [contains]. now rewrite Hd.
  - cbn [contains] in *. now rewrite Hd, IH.
Qed.

Lemma contains_strip c s : contains c s = false -> contains c (strip s) = false.
Proof.
  intros H. unfold strip, rstrip, lstrip.
  now apply contains_rstrip_with, contains_lstrip_with.
Qed.

Lemma one_line_strip s : one_line s = true -> one_line (strip s) = true.
Proof.
  unfold one_line. rewrite !andb_true_iff, !negb_true_iff.
  intros [H1 H2]. split; now apply contains_strip.
Qed.

Lemma plain_value_strip s : one_line s = true -> plain_value (strip s) = true.
Proof.
  intros H. unfold plain_value.
  rewrite (one_line_strip s H), ParseExtras.strip_idem.
  now rewrite String.eqb_refl.
Qed.

Lemma percent_free_strip s :
  percent_free s = true -> percent_free (strip s) = true.
Proof.
  unfold percent_free. rewrite !negb_true_iff. apply contains_strip.
Qed.

Section Facts.

Context {World Conn Cur : Type} (D : DatabaseConnection.Driver World Conn Cur).

Implicit Type s : app World Conn Cur.

Ltac run_ui :=
  unfold _connect_database, _save_connection, _delete_connection,
    _load_selected_connection, _update_connections_dropdown,
    _clear_connection_fields, _handle_connection_error, _disconnect_database,
    try_except, show, on_db, on_store, bind, ret, raise, get_state, modify,
    with_db_connection, with_connection_manager, with_host_var, with_user_var,
    with_password_var, with_connection_name_var, with_saved_connections_var,
    with_connections_dropdown, with_connect_button, with_disconnect_button,
    with_dialogs in *;
  cbn [db_connection connection_manager host_var user_var password_var
       connection_name_var saved_connections_var connections_dropdown
       connect_button disconnect_button dialogs fst snd] in *.

Ltac ui_cbn :=
  cbn [db_connection connection_manager host_var user_var password_var
       connection_name_var saved_connections_var connections_dropdown
       connect_button disconnect_button dialogs fst snd] in *.

(** *** Connecting *)

(** X20. A host entry whose text after the last colon is not an integer
    makes [_connect_database] raise [UnboundLocalError]: the handler of
    the [ValueError] reads [host_name] before it was bound.  No message
    box is shown, nothing is asked of the driver, the window is left as
    it was. *)
Theorem connect_invalid_port_unbound s host port_text :
  strip (host_var s) = host ++ ":" ++ port_text ->
  contains ":" port_text = false ->
  int_of_str (strip port_text) = None ->
  strip (user_var s) <> "" ->
  _connect_database D s = (Raise (OtherError "UnboundLocalError"), s).
Proof.
  intros Hh Hc Hi Hu. run_ui. rewrite Hh. cbn [forallb].
  assert (Ht : truthy (host ++ ":" ++ port_text) = true)
    by (destruct host; reflexivity).
  apply truthy_iff in Hu. rewrite Ht, Hu. cbn [andb negb append].
  now rewrite (HawkDBAppFacts.parse_with_port host port_text Hc), Hi.
Qed.

(** X21. With a blank host or user entry [_connect_database] only shows
    the error box, and with a blank name, host or user entry
    [_save_connection] only shows the error box: neither the session,
    nor the store, nor any other part of the window changes. *)
Theorem blank_entries_only_show_error s :
  (strip (host_var s) = "" \/ strip (user_var s) = "" ->
   _connect_database D s
   = (Ok tt, with_dialogs
               (dialogs s ++ [showerror "Erro" host_user_required_msg])%list s))
  /\ (strip (connection_name_var s) = "" \/ strip (host_var s) = ""
      \/ strip (user_var s) = "" ->
      _save_connection s
      = (Ok tt, with_dialogs
                  (dialogs s
                   ++ [showerror "Erro" name_host_user_required_msg])%list s)).
Proof.
  split; intros H; run_ui; cbn [forallb].
  - assert (Hf : truthy (strip (host_var s)) && (truthy (strip (user_var s)) && true)
                 = false).
    { destruct H as [H|H]; rewrite H; cbn [truthy String.eqb negb andb];
        [reflexivity|apply andb_false_r]. }
    now rewrite Hf.
  - assert (Hf : truthy (strip (connection_name_var s))
                 && (truthy (strip (host_var s))
                     && (truthy (strip (user_var s)) && true)) = false).
    { destruct H as [H|[H|H]]; rewrite H; cbn [truthy String.eqb negb andb];
        [reflexivity|apply andb_false_r|].
      rewrite andb_false_r. apply andb_false_r. }
    now rewrite Hf.
Qed.

Ltac run_methods :=
  unfold DatabaseConnection.connect, DatabaseConnection.disconnect,
    DatabaseConnection.get_server_info, DatabaseConnection.except_mysql_error,
    DatabaseConnection.do_connect, DatabaseConnection.do_close,
    DatabaseConnection.do_cursor, DatabaseConnection.do_execute,
    DatabaseConnection.do_fetchone, DatabaseConnection.the_cursor,
    DatabaseConnection.call, DatabaseConnection.set_connection,
    DatabaseConnection.set_cursor, DatabaseConnection.set_is_connected,
    bind, ret, raise, get_state, modify in *;
  cbn [DatabaseConnection.self DatabaseConnection.world
       DatabaseConnection.trace DatabaseConnection.connection
       DatabaseConnection.cursor DatabaseConnection.is_connected
       fst snd negb] in *.

Ltac split_driver :=
  match goal with
  | |- context [match ?x with _ => _ end] =>
      lazymatch x with
      | context [match _ with _ => _ end] => fail
      | _ => destruct x eqn:?
      end;
      cbn [DatabaseConnection.self DatabaseConnection.world
           DatabaseConnection.trace DatabaseConnection.connection
           DatabaseConnection.cursor DatabaseConnection.is_connected
           fst snd negb] in *
  end.

Lemma connect_ok_marked host user password port
    (d d' : DatabaseConnection.state World Conn Cur) b :
  DatabaseConnection.connect D host user password port d = (Ok b, d') ->
  DatabaseConnection.is_connected (DatabaseConnection.self d') = true.
Proof.
  destruct d as [[conn cur ic] w tr]. revert d'. intros d' H. revert H.
  run_methods.
  repeat split_driver; intros H; try discriminate H;
    inversion H; subst; reflexivity.
Qed.

Lemma get_server_info_self (d : DatabaseConnection.state World Conn Cur) :
  DatabaseConnection.self (snd (DatabaseConnection.get_server_info D d))
  = DatabaseConnection.self d.
Proof.
  destruct d as [[conn cur ic] w tr]. run_methods.
  repeat split_driver; reflexivity.
Qed.

(** X22. [_connect_database] switches the two connection buttons only
    when it returns with the session marked connected; in every other
    case, raising or not, both buttons are as they were. *)
Theorem connect_buttons_follow_session s :
  (connect_button (snd (_connect_database D s)) = connect_button s
   /\ disconnect_button (snd (_connect_database D s)) = disconnect_button s)
  \/ (fst (_connect_database D s) = Ok tt
      /\ DatabaseConnection.is_connected
           (DatabaseConnection.self
              (db_connection (snd (_connect_database D s)))) = true
      /\ connect_button (snd (_connect_database D s)) = DISABLED
      /\ disconnect_button (snd (_connect_database D s)) = NORMAL).
Proof.
  run_ui.
  destruct (negb (forallb truthy [strip (host_var s); strip (user_var s)]));
    [left; split; reflexivity|].
  destruct (HawkDBApp._parse_host_port (strip (host_var s))) as [[host_name port]|e].
  2:{ left. destruct (caught e); split; reflexivity. }
  destruct (DatabaseConnection.connect D host_name (strip (user_var s))
              (strip (password_var s)) port (db_connection s))
    as [[b|e] d1] eqn:Hc.
  2:{ left. destruct (caught e); split; reflexivity. }
  pose proof (connect_ok_marked _ _ _ _ _ _ _ Hc) as Hm.
  pose proof (get_server_info_self d1) as Hself. ui_cbn.
  destruct (DatabaseConnection.get_server_info D d1) as [[v|e] d2]; ui_cbn.
  - right. rewrite Hself. auto.
  - left. destruct (caught e); split; reflexivity.
Qed.

(** X23. When the connection is made and verified but the version query
    that [_connect_database] sends next fails with a driver error, the
    handler returns after showing the connection error box: the session
    stays marked connected and the buttons stay as they were. *)
Theorem connect_error_on_connected_session s host_name port b d1 d2 errno :
  strip (host_var s) <> "" ->
  strip (user_var s) <> "" ->
  HawkDBApp._parse_host_port (strip (host_var s)) = Ok (host_name, port) ->
  DatabaseConnection.connect D host_name (strip (user_var s))
    (strip (password_var s)) port (db_connection s) = (Ok b, d1) ->
  DatabaseConnection.get_server_info D d1 = (Raise (MySQLError errno), d2) ->
  exists s',
    _connect_database D s = (Ok tt, s')
    /\ DatabaseConnection.is_connected
         (DatabaseConnection.self (db_connection s')) = true
    /\ dialogs s'
       = (dialogs s
          ++ [showerror connection_error_title
                (full_msg (MySQLError errno) host_name port
                   (strip (user_var s)))])%list
    /\ connect_button s' = connect_button s
    /\ disconnect_button s' = disconnect_button s.
Proof.
  intros Hh Hu Hp Hc Hg.
  pose proof (connect_ok_marked _ _ _ _ _ _ _ Hc) as Hm.
  pose proof (get_server_info_self d1) as Hself. rewrite Hg in Hself.
  cbn [snd] in Hself.
  run_ui. cbn [forallb].
  apply truthy_iff in Hh, Hu. rewrite Hh, Hu. cbn [andb negb].
  rewrite Hp, Hc. ui_cbn. rewrite Hg. cbn [caught].
  eexists. split; [reflexivity|]. ui_cbn.
  rewrite Hself. auto.
Qed.

(** *** Saving and deleting from the window *)

(** X24. Entries on one line and without percent sign, with a plain
    name that is not the drop-down's placeholder and a host and a user
    that are not blank, saved from the window into a plain store: the
    store is in step with its file, the success box is shown, the
    drop-down lists the placeholder and then the stored names, the new
    one among them, and the name entry is emptied; selecting the name
    and loading it then puts the stripped entries back in the fields. *)
Theorem saved_entries_load_back s :
  plain (ConnectionManager.config (connection_manager s)) ->
  plain_name (strip (connection_name_var s)) = true ->
  strip (connection_name_var s) <> placeholder ->
  strip (host_var s) <> "" ->
  strip (user_var s) <> "" ->
  one_line (host_var s) = true -> one_line (user_var s) = true ->
  one_line (password_var s) = true ->
  percent_free (host_var s) = true -> percent_free (user_var s) = true ->
  percent_free (password_var s) = true ->
  exists s1,
    _save_connection s = (Ok tt, s1)
    /\ in_sync (connection_manager s1)
    /\ dialogs s1
       = (dialogs s
          ++ [showinfo "Sucesso" (saved_msg (strip (connection_name_var s)))])%list
    /\ connections_dropdown s1
       = placeholder
         :: ConfigParser.sections
              (ConnectionManager.config (connection_manager s1))
    /\ In (strip (connection_name_var s)) (connections_dropdown s1)
    /\ connection_name_var s1 = ""
    /\ exists s2,
        _load_selected_connection
          (with_saved_connections_var (strip (connection_name_var s)) s1)
        = (Ok tt, s2)
        /\ host_var s2 = strip (host_var s)
        /\ user_var s2 = strip (user_var s)
        /\ password_var s2 = strip (password_var s)
        /\ connection_name_var s2 = strip (connection_name_var s).
Proof.
  intros Hc Hn Hph Hh Hu Lh Lu Lp Fh Fu Fp.
  destruct (StoreExtras.saved_store (connection_manager s)
              (strip (connection_name_var s)) (strip (host_var s))
              (strip (user_var s)) (strip (password_var s)) Hc Hn
              (plain_value_strip _ Lh) (plain_value_strip _ Lu)
              (plain_value_strip _ Lp) (percent_free_strip _ Fh)
              (percent_free_strip _ Fu) (percent_free_strip _ Fp))
    as (Hsave & Hsync & Hload).
  cbv zeta in Hsave, Hsync, Hload.
  destruct (RoundTrip.plain_name_facts _ Hn) as (He & _ & _).
  assert (Ht : truthy (strip (connection_name_var s)) = true).
  { apply truthy_iff. intros E. rewrite E in He. discriminate He. }
  apply truthy_iff in Hh, Hu.
  run_ui. cbn [forallb]. rewrite Ht, Hh, Hu. cbn [andb negb].
  rewrite Hsave. ui_cbn.
  rewrite (StoreExtras.get_in_sync _ Hsync). ui_cbn.
  eexists. split; [reflexivity|]. ui_cbn.
  split; [exact Hsync|]. split; [reflexivity|]. split; [reflexivity|].
  split.
  { right. cbn [ConnectionManager.config].
    apply RoundTrip.dict_mem_keys. unfold ConfigParser.dict_mem.
    cbn [ConfigParser._sections]. now rewrite RoundTrip.dict_get_set_same. }
  split; [reflexivity|].
  apply String.eqb_neq in Hph. rewrite Hph. ui_cbn.
  rewrite Hload. ui_cbn.
  unfold Samples.profile.
  cbn [getitem String.eqb Ascii.eqb Bool.eqb]. ui_cbn.
  eexists. split; [reflexivity|]. ui_cbn. auto.
Qed.

(** X25. A confirmed deletion of the selected name, which a store in
    step holds, asks for confirmation, shows the success box, leaves
    the store in step, lists the remaining names after the placeholder
    and empties the fields; a declined deletion only asks: the store
    and the rest of the window stay as they were. *)
Theorem confirmed_delete_clears s :
  in_sync (connection_manager s) ->
  saved_connections_var s <> placeholder ->
  ConfigParser.has_section (ConnectionManager.config (connection_manager s))
    (saved_connections_var s) = true ->
  (exists s',
      _delete_connection true s = (Ok tt, s')
      /\ in_sync (connection_manager s')
      /\ dialogs s'
         = (dialogs s
            ++ [askyesno "Confirmar"
                  (confirm_delete_msg (saved_connections_var s));
                showinfo "Sucesso" deleted_msg])%list
      /\ connections_dropdown s'
         = placeholder
           :: without (saved_connections_var s)
                (ConfigParser.sections
                   (ConnectionManager.config (connection_manager s)))
      /\ host_var s' = "" /\ user_var s' = "" /\ password_var s' = ""
      /\ connection_name_var s' = ""
      /\ saved_connections_var s' = placeholder)
  /\ _delete_connection false s
     = (Ok tt,
        with_dialogs
          (dialogs s
           ++ [askyesno "Confirmar"
                 (confirm_delete_msg (saved_connections_var s))])%list s).
Proof.
  intros Hs Hph Hhas.
  destruct (StoreExtras.deleted_store (connection_manager s)
              (saved_connections_var s) Hs Hhas)
    as (Hdel & Hsync & _ & Hget & _).
  cbv zeta in Hdel, Hsync, Hget.
  apply String.eqb_neq in Hph.
  split.
  - run_ui. rewrite Hph. ui_cbn. rewrite Hdel. ui_cbn. rewrite Hget. ui_cbn.
    eexists. split; [reflexivity|]. ui_cbn.
    split; [exact Hsync|]. rewrite <- List.app_assoc. cbn [List.app]. auto 10.
  - run_ui. now rewrite Hph.
Qed.

End Facts.

Import Samples HandlerSamples.

Lemma connect_invalid_port_unbound_witness :
  _connect_database healthy
    (window fresh first_run "" " db.local:mysql " "root" "secret")
  = (Raise (OtherError "UnboundLocalError"),
     window fresh first_run "" " db.local:mysql " "root" "secret").
Proof.
  apply (connect_invalid_port_unbound healthy
           (window fresh first_run "" " db.local:mysql " "root" "secret")
           "db.local" "mysql");
    [reflexivity|reflexivity|reflexivity|discriminate].
Defined.

Lemma blank_entries_only_show_error_witness :
  _connect_database healthy (window fresh first_run "prod" "db.local" "  " "")
  = (Ok tt,
     with_dialogs [showerror "Erro" host_user_required_msg]
       (window fresh first_run "prod" "db.local" "  " ""))
  /\ _save_connection (window fresh first_run "prod" "db.local" "  " "")
     = (Ok tt,
        with_dialogs [showerror "Erro" name_host_user_required_msg]
          (window fresh first_run "prod" "db.local" "  " "")).
Proof.
  destruct (blank_entries_only_show_error healthy
              (window fresh first_run "prod" "db.local" "  " ""))
    as [H1 H2].
  split; [apply H1; right; reflexivity|apply H2; right; right; reflexivity].
Defined.

Lemma connect_error_on_connected_session_witness :
  exists s',
    _connect_database lost_after_verification
      (window (DatabaseConnection.mkstate DatabaseConnection.init 0 [])
         first_run "" "db.local" "root" "secret")
    = (Ok tt, s')
    /\ DatabaseConnection.is_connected
         (DatabaseConnection.self (db_connection s')) = true
    /\ dialogs s'
       = [showerror connection_error_title
            (full_msg (MySQLError 2013) "db.local" 3306 "root")]
    /\ connect_button s' = NORMAL
    /\ disconnect_button s' = DISABLED.
Proof.
  eapply (connect_error_on_connected_session lost_after_verification
            (window (DatabaseConnection.mkstate DatabaseConnection.init 0 [])
               first_run "" "db.local" "root" "secret")
            "db.local" 3306%Z true
            (snd (DatabaseConnection.connect lost_after_verification
                    "db.local" "root" "secret" 3306
                    (DatabaseConnection.mkstate DatabaseConnection.init 0 [])))
            (snd (DatabaseConnection.get_server_info lost_after_verification
                    (snd (DatabaseConnection.connect lost_after_verification
                            "db.local" "root" "secret" 3306
                            (DatabaseConnection.mkstate
                               DatabaseConnection.init 0 [])))))
            2013%Z);
    [discriminate|discriminate|reflexivity|reflexivity|reflexivity].
Defined.

Lemma saved_entries_load_back_witness :
  exists s1,
    _save_connection
      (window fresh first_run " prod " " db.local:3307 " "root" " s3cret")
    = (Ok tt, s1)
    /\ in_sync (connection_manager s1)
    /\ dialogs s1 = [showinfo "Sucesso" (saved_msg "prod")]
    /\ connections_dropdown s1
       = placeholder
         :: ConfigParser.sections
              (ConnectionManager.config (connection_manager s1))
    /\ In "prod" (connections_dropdown s1)
    /\ connection_name_var s1 = ""
    /\ exists s2,
        _load_selected_connection (with_saved_connections_var "prod" s1)
        = (Ok tt, s2)
        /\ host_var s2 = "db.local:3307"
        /\ user_var s2 = "root"
        /\ password_var s2 = "s3cret"
        /\ connection_name_var s2 = "prod".
Proof.
  apply (saved_entries_load_back
           (window fresh first_run " prod " " db.local:3307 " "root"
              " s3cret"));
    [exact (proj1 StoreExtras.first_run_in_sync)|reflexivity|discriminate
    |discriminate|discriminate|reflexivity..].
Defined.

Lemma confirmed_delete_clears_witness :
  (exists s',
      _delete_connection true
        (with_saved_connections_var ConnectionManager.example_section
           (window fresh first_run "" "" "" ""))
      = (Ok tt, s')
      /\ in_sync (connection_manager s')
      /\ dialogs s'
         = [askyesno "Confirmar"
              (confirm_delete_msg ConnectionManager.example_section);
            showinfo "Sucesso" deleted_msg]
      /\ connections_dropdown s'
         = placeholder
           :: without ConnectionManager.example_section
                (ConfigParser.sections (ConnectionManager.config first_run))
      /\ host_var s' = "" /\ user_var s' = "" /\ password_var s' = ""
      /\ connection_name_var s' = ""
      /\ saved_connections_var s' = placeholder)
  /\ _delete_connection false
       (with_saved_connections_var ConnectionManager.example_section
          (window fresh first_run "" "" "" ""))
     = (Ok tt,
        with_dialogs
          [askyesno "Confirmar"
             (confirm_delete_msg ConnectionManager.example_section)]
          (with_saved_connections_var ConnectionManager.example_section
             (window fresh first_run "" "" "" ""))).
Proof.
  apply (confirmed_delete_clears
           (with_saved_connections_var ConnectionManager.example_section
              (window fresh first_run "" "" "" "")));
    [exact StoreExtras.first_run_in_sync|discriminate|reflexivity].
Defined.

(** *** Exporting *)

Section ExportFacts.

Context {Files : Type} (str_of_exn : exn -> string).

Ltac run_export :=
  unfold _export_data, try_except_exception, call_exporter, export_show,
    bind, ret, raise, modify;
  cbn [files shown fst snd].

(** X26. With rows to export and a file name given, the format [CSV]
    runs [to_csv] and the format [Excel (XLSX)] runs [to_excel], with
    the success box when the exporter returns and the error box when
    it raises; the format [SQL INSERT] looks up [to_sql], which the
    exporter does not have: the error box is shown for the
    [AttributeError] and no file is written. *)
Theorem export_dispatch run data columns filename (s : export_state Files) :
  data <> [] -> filename <> "" ->
  _export_data run str_of_exn data columns "CSV" filename s
  = (Ok tt,
     match run to_csv data columns filename (files s) with
     | (Ok _, f) =>
         mkexport f (shown s ++ [showinfo export_done_title
                                   (export_done_msg filename)])%list
     | (Raise e, f) =>
         mkexport f (shown s ++ [showerror export_error_title
                                   (export_error_msg (str_of_exn e))])%list
     end)
  /\ _export_data run str_of_exn data columns "Excel (XLSX)" filename s
     = (Ok tt,
        match run to_excel data columns filename (files s) with
        | (Ok _, f) =>
            mkexport f (shown s ++ [showinfo export_done_title
                                      (export_done_msg filename)])%list
        | (Raise e, f) =>
            mkexport f (shown s ++ [showerror export_error_title
                                      (export_error_msg (str_of_exn e))])%list
        end)
  /\ _export_data run str_of_exn data columns "SQL INSERT" filename s
     = (Ok tt,
        mkexport (files s)
          (shown s ++ [showerror export_error_title
                         (export_error_msg (str_of_exn AttributeError))])%list).
Proof.
  intros Hd Hf. apply truthy_iff in Hf.
  destruct data as [|r data]; [contradiction|].
  repeat split; run_export.
  - change (format_config "CSV") with (@Ok string ".csv").
    change (getattr_exporter ("to_" ++ lower (first_word "CSV")))
      with (Ok to_csv).
    rewrite Hf. cbn [negb].
    now destruct (run to_csv (r :: data) columns filename (files s))
      as [[[]|e] f].
  - change (format_config "Excel (XLSX)") with (@Ok string ".xlsx").
    change (getattr_exporter ("to_" ++ lower (first_word "Excel (XLSX)")))
      with (Ok to_excel).
    rewrite Hf. cbn [negb].
    now destruct (run to_excel (r :: data) columns filename (files s))
      as [[[]|e] f].
  - change (format_config "SQL INSERT") with (@Ok string ".sql").
    change (getattr_exporter ("to_" ++ lower (first_word "SQL INSERT")))
      with (@Raise exporter AttributeError).
    now rewrite Hf.
Qed.

(** X27. What [_export_data] does never depends on [to_sql_insert]: two
    file systems' exporters that agree on [to_csv] and [to_excel] give
    the same result for every format, data and file name.  The handler
    has no path to [to_sql_insert]. *)
Theorem export_ignores_to_sql_insert run run' data columns format_selected
    filename (s : export_state Files) :
  (forall d c f fs, run to_csv d c f fs = run' to_csv d c f fs) ->
  (forall d c f fs, run to_excel d c f fs = run' to_excel d c f fs) ->
  _export_data run str_of_exn data columns format_selected filename s
  = _export_data run' str_of_exn data columns format_selected filename s.
Proof.
  intros Hcsv Hxls. run_export.
  destruct data as [|r data]; [reflexivity|].
  unfold format_config.
  destruct (String.eqb format_selected "CSV") eqn:E1.
  { apply String.eqb_eq in E1. subst format_selected.
    change (getattr_exporter ("to_" ++ lower (first_word "CSV")))
      with (Ok to_csv).
    destruct (negb (truthy filename)); [reflexivity|]. now rewrite Hcsv. }
  destruct (String.eqb format_selected "Excel (XLSX)") eqn:E2.
  { apply String.eqb_eq in E2. subst format_selected.
    change (getattr_exporter ("to_" ++ lower (first_word "Excel (XLSX)")))
      with (Ok to_excel).
    destruct (negb (truthy filename)); [reflexivity|]. now rewrite Hxls. }
  destruct (String.eqb format_selected "SQL INSERT") eqn:E3; [|reflexivity].
  apply String.eqb_eq in E3. subst format_selected.
  change (getattr_exporter ("to_" ++ lower (first_word "SQL INSERT")))
    with (@Raise exporter AttributeError).
  reflexivity.
Qed.

End ExportFacts.

Lemma export_dispatch_witness :
  _export_data (writes "n" "xlsx") class_name [[VInt 1]] ["n"] "CSV"
    "out.csv" (mkexport [] [])
  = (Ok tt,
     mkexport [("out.csv", "n")]
       [showinfo export_done_title (export_done_msg "out.csv")])
  /\ _export_data (writes "n" "xlsx") class_name [[VInt 1]] ["n"]
       "Excel (XLSX)" "out.xlsx" (mkexport [] [])
     = (Ok tt,
        mkexport [("out.xlsx", "xlsx")]
          [showinfo export_done_title (export_done_msg "out.xlsx")])
  /\ _export_data (writes "n" "xlsx") class_name [[VInt 1]] ["n"]
       "SQL INSERT" "out.sql" (mkexport [] [])
     = (Ok tt,
        mkexport []
          [showerror export_error_title (export_error_msg "AttributeError")]).
Proof.
  split; [|split].
  - apply (export_dispatch class_name (writes "n" "xlsx") [[VInt 1]] ["n"]
             "out.csv" (mkexport [] [])); discriminate.
  - apply (export_dispatch class_name (writes "n" "xlsx") [[VInt 1]] ["n"]
             "out.xlsx" (mkexport [] [])); discriminate.
  - apply (export_dispatch class_name (writes "n" "xlsx") [[VInt 1]] ["n"]
             "out.sql" (mkexport [] [])); discriminate.
Defined.

Lemma export_ignores_to_sql_insert_witness :
  _export_data (writes "n" "xlsx") class_name [[VInt 1]] ["n"] "SQL INSERT"
    "out.sql" (mkexport [] [])
  = _export_data
      (fun m d c f fs =>
         match m with
         | to_sql_insert => (Raise TypeError, fs)
         | _ => writes "n" "xlsx" m d c f fs
         end)
      class_name [[VInt 1]] ["n"] "SQL INSERT" "out.sql" (mkexport [] []).
Proof.
  apply (export_ignores_to_sql_insert class_name (writes "n" "xlsx")
           (fun m d c f fs =>
              match m with
              | to_sql_insert => (Raise TypeError, fs)
              | _ => writes "n" "xlsx" m d c f fs
              end));
    intros; reflexivity.
Defined.

End HandlerExtras.
